(** * Sales-Forecasting-Analytics: the forecasting-model lifecycle

    A shallow embedding of the decision logic of
    [src/differencing.py], [src/hyperparameter_tuning.py],
    [src/model_evaluation.py], [src/train_sarima.py], [src/forecast.py]
    and [src/model_utils.py].

    Numbers.  A finite float is represented by the rational it denotes and
    finite arithmetic is exact (no rounding, no overflow).  The IEEE special
    values are kept wherever the code can produce or order them: a missing
    observation (NaN) in a series, and +inf, -inf, NaN among the information
    criteria and among the terms of the percentage error.  Where a
    property depends on rounding, the metrics of the evaluation script
    are given a second time on binary64 numbers (module [Binary64]).

    External collaborators.  The seasonal-ARIMA estimator (statsmodels) and
    the serialisers are not part of the repository: they are fields of the
    class [External], and every definition is parametric in it. *)

From Stdlib Require Import ZArith QArith Qabs Qround List Sorted Permutation Lia Lqa.
From Stdlib Require Import Reals Qreals Lra.
From stdpp Require Import gmap strings.

Open Scope Z_scope.

(* ================================================================== *)
(** ** Floats and observations *)

Module Float.

(** A float: a finite value, an infinity or NaN. *)
Inductive float : Type :=
| Num (q : Q)
| PInf
| NInf
| NaN.

Definition isnan (x : float) : bool :=
  match x with NaN => true | _ => false end.

Definition notna (x : float) : bool := negb (isnan x).

(** [x <= y] on floats; false as soon as one side is NaN. *)
Definition leb (x y : float) : bool :=
  match x, y with
  | NaN, _ | _, NaN => false
  | NInf, _ => true
  | _, PInf => true
  | Num a, Num b => Qle_bool a b
  | _, _ => false
  end.

(** [x == y] on floats, as the comparison of two columns does it. *)
Definition eqb (x y : float) : bool := leb x y && leb y x.

Definition add (x y : float) : float :=
  match x, y with
  | NaN, _ | _, NaN => NaN
  | PInf, NInf | NInf, PInf => NaN
  | PInf, _ | _, PInf => PInf
  | NInf, _ | _, NInf => NInf
  | Num a, Num b => Num (a + b)
  end.

(** Multiplication and division by a positive finite constant. *)
Definition scale (k : Q) (x : float) : float :=
  match x with Num a => Num (a * k) | _ => x end.

Definition div_pos (x : float) (k : Q) : float :=
  match x with Num a => Num (a / k) | _ => x end.

(** [a / b] on two finite floats: a zero divisor gives an infinity of the
    sign of [a], and 0/0 gives NaN; no exception is raised. *)
Definition qdiv (a b : Q) : float :=
  if Qeq_bool b 0 then
    match a ?= 0 with
    | Eq => NaN
    | Gt => PInf
    | Lt => NInf
    end%Q
  else Num (a / b).

Definition abs (x : float) : float :=
  match x with
  | Num a => Num (Qabs a)
  | PInf | NInf => PInf
  | NaN => NaN
  end.

Definition sum (l : list float) : float := fold_left add l (Num 0).

(** [Series.mean()] with its default [skipna=True]: NaN entries are left
    out of the sum and of the count; with nothing left the mean is NaN. *)
Definition nanmean (l : list float) : float :=
  let kept := List.filter notna l in
  match kept with
  | [] => NaN
  | _ => div_pos (sum kept) (inject_Z (Z.of_nat (length kept)))
  end.

(** [0 <= x], the non-negativity of a metric. *)
Definition nonneg (x : float) : Prop := leb (Num 0) x = true.

End Float.

Export Float.

(** An observation is a finite number or the missing marker (NaN). *)
Abbreviation obs := (option Q).

(** A monthly series: (month, value) pairs in time order. A month is the
    index of its month-end timestamp. *)
Abbreviation series := (list (Z * option Q)).

Definition values (s : series) : list obs := List.map snd s.
Definition index (s : series) : list Z := List.map fst s.

(* ================================================================== *)
(** ** Python sequences *)

(** [range(start, stop)] *)
Definition py_range (start stop : Z) : list Z :=
  List.map (fun i => start + Z.of_nat i) (seq 0 (Z.to_nat (stop - start))).

(** The position a slice bound [i] denotes in a sequence of length [n]:
    a negative bound counts from the end, and both are clipped. *)
Definition slice_bound (n : nat) (i : Z) : nat :=
  if i <? 0 then Z.to_nat (Z.max 0 (Z.of_nat n + i))
  else Z.to_nat (Z.min i (Z.of_nat n)).

(** [l[:i]] and [l[i:]] *)
Definition slice_to {A} (i : Z) (l : list A) : list A :=
  firstn (slice_bound (length l) i) l.

Definition slice_from {A} (i : Z) (l : list A) : list A :=
  skipn (slice_bound (length l) i) l.

(* ================================================================== *)
(** ** differencing.py *)

Definition obs_sub (x y : obs) : obs :=
  match x, y with
  | Some a, Some b => Some (a - b)%Q
  | _, _ => None
  end.

(** [series.diff()]: each value minus its predecessor, the first one has
    none and becomes NaN; the index is kept. *)
Fixpoint diff_from (prev : obs) (s : series) : series :=
  match s with
  | [] => []
  | (t, v) :: s' => (t, obs_sub v prev) :: diff_from v s'
  end.

Definition diff (s : series) : series :=
  match s with
  | [] => []
  | (t, v) :: s' => (t, None) :: diff_from v s'
  end.

(** [series.dropna()] *)
Definition dropna (s : series) : series :=
  List.filter (fun tv => match snd tv with Some _ => true | None => false end) s.

Definition difference_series (s : series) : series := dropna (diff s).

(** An entry that holds a value, not the missing marker. *)
Definition present (tv : Z * obs) : Prop := is_Some tv.2.

(* ================================================================== *)
(** ** Exceptions *)

(** What a [ValueError] of the repository or of scikit-learn reports. *)
Inductive value_error : Type :=
| InsufficientData (months : nat)   (* "Insufficient data: only n months ..." *)
| InconsistentLength                (* inputs with different numbers of samples *)
| EmptyArray                        (* an array of no sample where one is required *)
| NotFinite.                        (* input contains NaN *)

Inductive exn : Type :=
| FileNotFoundError (path : string)
| ValueError (why : value_error)
| KeyError (key : string)
| IndexError
| ZeroDivisionError
| TypeError                (* a value that JSON cannot serialise *)
| PicklingError            (* an object that pickle cannot serialise *)
| UnpicklingError          (* a file that is not a complete pickle *)
| JSONDecodeError          (* a file that is not a JSON document *)
| OSError (path : string)  (* a file that cannot be opened for writing *)
| ParserError              (* a table that read_csv or resample rejects *)
| EngineError (code : nat). (* any exception raised inside the estimator *)

(** Results of pure computations that may raise. *)
Definition result (A : Type) : Type := exn + A.

Definition rbind {A B} (c : result A) (k : A -> result B) : result B :=
  match c with
  | inl e => inl e
  | inr a => k a
  end.

#[global] Instance result_ret : MRet result := fun A a => inr a.
#[global] Instance result_bind : MBind result := fun A B k c => rbind c k.

(** An exception of the estimator, as Python sees it. *)
Definition engine {A} (c : nat + A) : result A :=
  match c with
  | inl code => inl (EngineError code)
  | inr a => inr a
  end.

(* ================================================================== *)
(** ** config.py *)

Definition SARIMA_MODEL_FILE : string := "models/sarima_model.pkl".
Definition MODEL_METADATA_FILE : string := "models/model_metadata.json".
Definition CLEANED_SALES_FILE : string := "data/processed/superstore_sales_cleaned.csv".
Definition FORECAST_OUTPUT_FILE : string := "data/processed/sales_forecast_12_months.csv".

Definition FORECAST_HORIZON : Z := 12.
Definition TEST_SIZE : Z := 12.
Definition SARIMA_ORDER : Z * Z * Z := (1, 1, 1).
Definition SARIMA_SEASONAL_ORDER : Z * Z * Z * Z := (1, 1, 1, 12).
Definition ENFORCE_STATIONARITY : bool := false.
Definition ENFORCE_INVERTIBILITY : bool := false.

(* ================================================================== *)
(** ** The external collaborators *)

(** What [get_forecast(steps)] gives: the predicted mean and the bounds of
    the confidence interval, one row per future month. *)
Record forecast_result : Type := {
  predicted_mean : series;
  conf_int : list (Z * obs * obs);
}.

(** The handle a successful fit returns (a SARIMAXResults object), as far
    as the repository reads it. *)
Record fitted : Type := {
  endog : series;                       (* the series the model is bound to *)
  model_order : Z * Z * Z;
  model_seasonal_order : Z * Z * Z * Z;
  aic : float;
  bic : float;
  predict : Z -> Z -> nat + list obs;   (* predict(start, end): one value per month *)
  get_forecast : Z -> nat + forecast_result;
}.

(** Values that the repository stores in the metadata dictionary or reads
    back from the metadata file. *)
Inductive pyval : Type :=
| PStr (s : string)
| PInt (n : Z)
| PFloat (x : float)
| PTuple (l : list Z)
| PList (l : list Z)
| PDateRange (first last : option Z) (* f"{min} to {max}" of a series index *)
| PIsoTime (t : Z)              (* datetime.isoformat() of the instant t *)
| PObject (id : nat).           (* anything JSON has no encoding for *)

Class External : Type := {
  (** [SARIMAX(series, order, seasonal_order, enforce_stationarity,
      enforce_invertibility).fit(disp=False, maxiter=...)]: the handle, or
      the code of the exception the constructor or the fit raised. *)
  sarimax_fit : series -> Z * Z * Z -> Z * Z * Z * Z -> bool -> bool ->
                option Z -> nat + fitted;
  (** size in bytes of the pickle of a handle, of a JSON document *)
  pickle_size : fitted -> N;
  json_size : gmap string pyval -> N;
}.

(* ================================================================== *)
(** ** hyperparameter_tuning.py *)

Module Tuning.

(** One entry of [results]: the dictionary appended after a fit. *)
Record row : Type := {
  row_p : Z; row_d : Z; row_q : Z;
  row_P : Z; row_D : Z; row_Q : Z;
  AIC : float;
  BIC : float;
  order : Z * Z * Z;
  seasonal_order : Z * Z * Z * Z;
}.

Definition combination : Type := (Z * Z * Z * Z * Z * Z)%type.

(** [itertools.product] of six sequences: the last one varies fastest. *)
Definition product (ps ds qs Ps Ds Qs : list Z) : list combination :=
  flat_map (fun p =>
  flat_map (fun d =>
  flat_map (fun q =>
  flat_map (fun P =>
  flat_map (fun D =>
  List.map (fun Q => (p, d, q, P, D, Q)) Qs) Ds) Ps) qs) ds) ps.

(** The order [sort_values] puts on a float column (ascending,
    [na_position='last']): NaN after everything else. *)
Definition key_le (x y : float) : bool :=
  isnan y || (notna x && Float.leb x y).

Fixpoint insert_row (r : row) (l : list row) : list row :=
  match l with
  | [] => [r]
  | r' :: l' =>
      if key_le (AIC r) (AIC r') then r :: l else r' :: insert_row r l'
  end.

(** [df.sort_values('AIC').reset_index(drop=True)]: the rows in ascending
    order of the AIC column, which is the only key.  pandas does not say
    where rows of equal AIC go; here they are left in their order of
    arrival, as numpy's sort leaves the short columns it sorts by
    insertion.  The properties of the search below hold for every other
    placement as well, and [sort_values_with] stands for any algorithm. *)
Definition sort_values_AIC (rows : list row) : list row :=
  fold_right insert_row [] rows.

(** [sort_values('AIC')] with any other sorting algorithm: the algorithm
    is given the AIC column alone and answers with the positions of the
    rows in their new order. *)
Definition sort_values_with (argsort : list float -> list nat)
           (rows : list row) : list row :=
  omap (fun i => rows !! i) (argsort (AIC <$> rows)).

(** Ascending order of the AIC column. *)
Definition by_AIC (r1 r2 : row) : Prop := key_le (AIC r1) (AIC r2) = true.

Definition combination_of (r : row) : combination :=
  (row_p r, row_d r, row_q r, row_P r, row_D r, row_Q r).

(** The ranking as the specification words it: by AIC, then by BIC
    among equal AIC, then by the order (p,d,q,P,D,Q) read as a word. *)
Fixpoint lex_leb (a b : list Z) : bool :=
  match a, b with
  | [], _ => true
  | _ :: _, [] => false
  | x :: a', y :: b' => (x <? y) || ((x =? y) && lex_leb a' b')
  end.

Definition word (r : row) : list Z :=
  [row_p r; row_d r; row_q r; row_P r; row_D r; row_Q r].

Definition specified_rank_leb (r1 r2 : row) : bool :=
  if Float.eqb (AIC r1) (AIC r2) then
    if Float.eqb (BIC r1) (BIC r2) then lex_leb (word r1) (word r2)
    else Float.leb (BIC r1) (BIC r2)
  else Float.leb (AIC r1) (AIC r2).

Definition ranked_as_specified (rows : list row) : Prop :=
  StronglySorted (fun r1 r2 => specified_rank_leb r1 r2 = true) rows.

Section Search.
Context `{External}.

(** The body of the [try] of one iteration: the row of a successful
    fit, or nothing when the constructor or the fit raised. *)
Definition try_fit (s : series) (m : Z) (c : combination) : option row :=
  let '(p, d, q, P, D, Q) := c in
  match sarimax_fit s (p, d, q) (P, D, Q, m) false false (Some 50) with
  | inr f =>
      Some {| row_p := p; row_d := d; row_q := q;
              row_P := P; row_D := D; row_Q := Q;
              AIC := aic f; BIC := bic f;
              order := (p, d, q); seasonal_order := (P, D, Q, m) |}
  | inl _ => None
  end.

(** The [for] loop over the combinations, appending to [results]; the
    progress messages are left out. *)
Fixpoint search_loop (s : series) (m : Z) (todo : list combination)
         (results : list row) : list row :=
  match todo with
  | [] => results
  | c :: todo' =>
      match try_fit s m c with
      | Some r => search_loop s m todo' (results ++ [r])
      | None => search_loop s m todo' results       (* except: continue *)
      end
  end.

Definition candidates (p_range d_range q_range P_range D_range Q_range : Z * Z)
  : list combination :=
  product (py_range (fst p_range) (snd p_range + 1))
          (py_range (fst d_range) (snd d_range + 1))
          (py_range (fst q_range) (snd q_range + 1))
          (py_range (fst P_range) (snd P_range + 1))
          (py_range (fst D_range) (snd D_range + 1))
          (py_range (fst Q_range) (snd Q_range + 1)).

Definition total_combinations
           (p_range d_range q_range P_range D_range Q_range : Z * Z) : nat :=
  (length (py_range (fst p_range) (snd p_range + 1)) *
   length (py_range (fst d_range) (snd d_range + 1)) *
   length (py_range (fst q_range) (snd q_range + 1)) *
   length (py_range (fst P_range) (snd P_range + 1)) *
   length (py_range (fst D_range) (snd D_range + 1)) *
   length (py_range (fst Q_range) (snd Q_range + 1)))%nat.

(** [grid_search_sarima].  A DataFrame built from no row has no column,
    and sorting it by 'AIC' raises [KeyError]. *)
Definition grid_search_sarima (s : series)
           (p_range d_range q_range P_range D_range Q_range : Z * Z) (m : Z)
  : result (list row) :=
  let results :=
    search_loop s m
      (candidates p_range d_range q_range P_range D_range Q_range) [] in
  match results with
  | [] => inl (KeyError "AIC")
  | _ => inr (sort_values_AIC results)
  end.

End Search.

End Tuning.

(* ================================================================== *)
(** ** model_evaluation.py *)

Module Evaluation.

(** The three numbers the script prints and passes to the plot.  The
    root of the mean squared error is a real number. *)
Record metrics : Type := {
  mae : Q;
  rmse : R;
  mape : float;
}.

(** [monthly_sales[:-test_size]] and [monthly_sales[-test_size:]] *)
Definition train_test_split (test_size : Z) (monthly_sales : series)
  : series * series :=
  (slice_to (- test_size) monthly_sales, slice_from (- test_size) monthly_sales).

Fixpoint all_finite (l : list obs) : option (list Q) :=
  match l with
  | [] => Some []
  | Some x :: l' => option_map (cons x) (all_finite l')
  | None :: _ => None
  end.

(** scikit-learn's validation of one array of a regression metric *)
Definition check_array (l : list obs) : result (list Q) :=
  match l with
  | [] => inl (ValueError EmptyArray)
  | _ => match all_finite l with
         | Some xs => inr xs
         | None => inl (ValueError NotFinite)
         end
  end.

(** scikit-learn's validation of the two arrays of a regression metric *)
Definition check_reg_targets (y_true y_pred : list obs)
  : result (list Q * list Q) :=
  if negb (length y_true =? length y_pred)%nat
  then inl (ValueError InconsistentLength)
  else
    a ← check_array y_true;
    p ← check_array y_pred;
    mret (a, p).

Definition Qsum (l : list Q) : Q := fold_right Qplus 0%Q l.

(** [np.average] of a non-empty array *)
Definition average (l : list Q) : Q :=
  (Qsum l / inject_Z (Z.of_nat (length l)))%Q.

Definition absolute_errors (a p : list Q) : list Q :=
  zip_with (fun x y => Qabs (y - x)) a p.

Definition squared_errors (a p : list Q) : list Q :=
  zip_with (fun x y => ((x - y) * (x - y))%Q) a p.

Definition mean_absolute_error (y_true y_pred : list obs) : result Q :=
  '(a, p) ← check_reg_targets y_true y_pred;
  mret (average (absolute_errors a p)).

Definition mean_squared_error (y_true y_pred : list obs) : result Q :=
  '(a, p) ← check_reg_targets y_true y_pred;
  mret (average (squared_errors a p)).

(** One term of [np.abs((test - predictions) / test)] *)
Definition percentage_term (a p : obs) : float :=
  match a, p with
  | Some x, Some y => Float.abs (qdiv (x - y) x)
  | _, _ => NaN
  end.

(** A term that the mean keeps: a non-negative number or +inf. *)
Definition kept_term (x : float) : Prop :=
  match x with
  | Num q => (0 <= q)%Q
  | PInf => True
  | _ => False
  end.

(** [np.mean(np.abs((test - predictions) / test)) * 100].  The argument
    of [np.mean] is a Series, whose mean skips NaN. *)
Definition mean_absolute_percentage (test predictions : list obs) : float :=
  scale 100 (nanmean (zip_with percentage_term test predictions)).

Section Script.
Context `{External}.

(** The script from the split on, for the monthly series it loaded.
    The predictions carry the index of the test window, so that the
    subtraction of the two Series is positional. *)
Definition evaluate (test_size : Z) (monthly_sales : series) : result metrics :=
  let '(train, test) := train_test_split test_size monthly_sales in
  results ← engine (sarimax_fit train SARIMA_ORDER SARIMA_SEASONAL_ORDER
                      ENFORCE_STATIONARITY ENFORCE_INVERTIBILITY None);
  start ← from_option inr (inl IndexError) (head (index test));
  stop ← from_option inr (inl IndexError) (last (index test));
  predictions ← engine (predict results start stop);
  mae ← mean_absolute_error (values test) predictions;
  mse ← mean_squared_error (values test) predictions;
  let mape := mean_absolute_percentage (values test) predictions in
  mret {| mae := mae; rmse := sqrt (Q2R mse); mape := mape |}.

(** The script as configured. *)
Definition model_evaluation (monthly_sales : series) : result metrics :=
  evaluate TEST_SIZE monthly_sales.

End Script.

End Evaluation.

(* ================================================================== *)
(** ** The file system, the clock and the log *)

(** A file with what [stat()] tells about it. *)
Record file (A : Type) : Type := File {
  content : A;
  st_size : N;
  st_mtime : Z;
}.
Arguments File {A}.
Arguments content {A}.
Arguments st_size {A}.
Arguments st_mtime {A}.

(** The model artifact: a complete pickle of a handle, or what an
    interrupted dump leaves behind. *)
Inductive pickle_file : Type :=
| Pickle (m : fitted)
| TornPickle.

(** The metadata file: a JSON object, or text that is not JSON (as left by
    an interrupted dump). *)
Inductive json_file : Type :=
| JsonDoc (d : gmap string pyval)
| NotJson.

(** The cleaned sales table, represented by the monthly series that
    [read_csv] followed by [resample("M")["sales"].sum()] makes of it, or
    a table that one of the two rejects. *)
Inductive table_file : Type :=
| Table (monthly : series)
| BadTable.

Inductive level : Type := INFO | ERROR.

Inductive text : Type :=
| Banner (title : string)
| LoadedMonths (n : nat)
| ErrorLoadingData (e : exn)
| StrOf (e : exn)
| TrainingModel
| ModelTrained
| ErrorTrainingModel (e : exn)
| TrainingFailed (e : exn)
| ModelSaved
| MetadataSaved
| FailedToSaveModel (e : exn)
| ModelLoaded
| MetadataHeader
| MetadataItem (key : string) (value : pyval)
| FailedToLoadModel (e : exn)
| FoundSavedModel
| NoSavedModel
| TrainingNewModel
| GeneratingForecast
| ForecastGenerated
| ForecastSaved
| ForecastSummary (forecast : series)
| ForecastingFailed (e : exn).

Record world : Type := World {
  cleaned_sales_file : option table_file;
  sarima_model_file : option (file pickle_file);
  model_metadata_file : option (file json_file);
  forecast_output_file : option series;
  models_dir_writable : bool;      (* may files under models/ be written *)
  processed_dir_writable : bool;   (* may files under data/processed/ be written *)
  now : Z;                         (* the clock *)
  log : list (level * text);
}.

Definition set_model_file (f : option (file pickle_file)) (w : world) : world :=
  World (cleaned_sales_file w) f (model_metadata_file w) (forecast_output_file w)
        (models_dir_writable w) (processed_dir_writable w) (now w) (log w).

Definition set_metadata_file (f : option (file json_file)) (w : world) : world :=
  World (cleaned_sales_file w) (sarima_model_file w) f (forecast_output_file w)
        (models_dir_writable w) (processed_dir_writable w) (now w) (log w).

Definition set_forecast_file (f : option series) (w : world) : world :=
  World (cleaned_sales_file w) (sarima_model_file w) (model_metadata_file w) f
        (models_dir_writable w) (processed_dir_writable w) (now w) (log w).

Definition add_log (entry : level * text) (w : world) : world :=
  World (cleaned_sales_file w) (sarima_model_file w) (model_metadata_file w)
        (forecast_output_file w) (models_dir_writable w)
        (processed_dir_writable w) (now w) (log w ++ [entry]).

(** How a call ends: it returns, it raises an exception (a subclass of
    [Exception]), or it leaves the interpreter through [sys.exit]. *)
Inductive outcome (A : Type) : Type :=
| Returned (a : A)
| Raised (e : exn)
| Exited (status : Z).
Arguments Returned {A}.
Arguments Raised {A}.
Arguments Exited {A}.

(** Computations on the world. *)
Definition M (A : Type) : Type := world -> outcome A * world.

#[global] Instance M_ret : MRet M := fun A a w => (Returned a, w).
#[global] Instance M_bind : MBind M := fun A B k c w =>
  match c w with
  | (Returned a, w') => k a w'
  | (Raised e, w') => (Raised e, w')
  | (Exited n, w') => (Exited n, w')
  end.

Definition raise {A} (e : exn) : M A := fun w => (Raised e, w).
Definition sys_exit {A} (status : Z) : M A := fun w => (Exited status, w).
Definition get_world : M world := fun w => (Returned w, w).
Definition modify (f : world -> world) : M unit := fun w => (Returned tt, f w).

(** [try: c  except Exception as e: handler e].  [SystemExit] is not an
    [Exception] and goes through. *)
Definition try_except {A} (c : M A) (handler : exn -> M A) : M A := fun w =>
  match c w with
  | (Raised e, w') => handler e w'
  | r => r
  end.

Definition lift {A} (r : result A) : M A :=
  match r with
  | inl e => raise e
  | inr a => mret a
  end.

(** logger.py *)
Definition logger_info (t : text) : M unit := modify (add_log (INFO, t)).
Definition log_section (title : string) : M unit := logger_info (Banner title).
Definition log_success (t : text) : M unit := modify (add_log (INFO, t)).
Definition log_error (t : text) : M unit := modify (add_log (ERROR, t)).

(** [pd.read_csv(CLEANED_SALES_FILE, ...)] and the monthly resampling *)
Definition read_monthly_sales : M series :=
  w ← get_world;
  match cleaned_sales_file w with
  | None => raise (FileNotFoundError CLEANED_SALES_FILE)
  | Some BadTable => raise ParserError
  | Some (Table monthly) => mret monthly
  end.

(** [index.min()] and [index.max()]; of an empty index they are NaT. *)
Definition index_min (s : series) : option Z :=
  fold_right (fun t acc => Some (from_option (Z.min t) t acc)) None (index s).

Definition index_max (s : series) : option Z :=
  fold_right (fun t acc => Some (from_option (Z.max t) t acc)) None (index s).

(* ================================================================== *)
(** ** model_utils.py *)

Module ModelUtils.

(** The object handed to [save_model] ([model: Any]): a fitted handle, or
    an object that pickle refuses. *)
Inductive pyobj : Type :=
| Handle (m : fitted)
| Unpicklable.

(** What [json.load] reads back for a value that [json.dump] wrote; a
    tuple is written as an array, an arbitrary object is refused. *)
Definition json_encode (v : pyval) : option pyval :=
  match v with
  | PTuple l => Some (PList l)
  | PObject _ => None
  | _ => Some v
  end.

Definition json_dumps (d : gmap string pyval) : option (gmap string pyval) :=
  if bool_decide (map_Forall (fun _ v => is_Some (json_encode v)) d)
  then Some (omap json_encode d)
  else None.

(** [if metadata:] is true of a dictionary that has an entry. *)
Definition truthy (metadata : option (gmap string pyval)) : bool :=
  match metadata with
  | Some d => negb (bool_decide (d = ∅))
  | None => false
  end.

(** [metadata['saved_at'] = datetime.now().isoformat()] and
    [metadata['model_file'] = str(SARIMA_MODEL_FILE)] *)
Definition stamp (t : Z) (metadata : gmap string pyval) : gmap string pyval :=
  <["model_file" := PStr SARIMA_MODEL_FILE]> (<["saved_at" := PIsoTime t]> metadata).

(** The record [get_model_info] returns; a key that may be absent from
    the dictionary is an optional field. *)
Record model_info : Type := {
  model_exists : bool;
  model_path : string;
  metadata_exists : bool;
  metadata_path : string;
  model_size_mb : option Q;
  model_modified : option Z;
  metadata : option (gmap string pyval);
}.

Definition json_load (f : file json_file) : M (gmap string pyval) :=
  match content f with
  | JsonDoc d => mret d
  | NotJson => raise JSONDecodeError
  end.

(** Staleness as the specification words it: the metadata records a
    date range that does not end where the series bound to the model
    ends. *)
Definition stale (model : fitted) (stored : gmap string pyval) : Prop :=
  exists first last,
    stored !! "date_range" = Some (PDateRange first last) /\
    last <> index_max (endog model).

Definition joblib_load (f : file pickle_file) : M fitted :=
  match content f with
  | Pickle m => mret m
  | TornPickle => raise UnpicklingError
  end.

Section Store.
Context `{External}.

(** [joblib.dump(model, SARIMA_MODEL_FILE)]: the file is opened for
    writing, then the object is pickled into it. *)
Definition joblib_dump (model : pyobj) : M unit :=
  w ← get_world;
  if negb (models_dir_writable w) then raise (OSError SARIMA_MODEL_FILE)
  else
    match model with
    | Handle m =>
        modify (set_model_file
                  (Some (File (Pickle m) (pickle_size m) (now w))))
    | Unpicklable =>
        modify (set_model_file (Some (File TornPickle 0%N (now w))));;
        raise PicklingError
    end.

(** [with open(MODEL_METADATA_FILE, 'w') as f: json.dump(metadata, f)] *)
Definition json_dump (d : gmap string pyval) : M unit :=
  w ← get_world;
  if negb (models_dir_writable w) then raise (OSError MODEL_METADATA_FILE)
  else
    match json_dumps d with
    | Some doc =>
        modify (set_metadata_file
                  (Some (File (JsonDoc doc) (json_size doc) (now w))))
    | None =>
        modify (set_metadata_file (Some (File NotJson 0%N (now w))));;
        raise TypeError
    end.

Definition save_model (model : pyobj) (metadata : option (gmap string pyval))
  : M bool :=
  try_except
    (joblib_dump model;;
     log_success ModelSaved;;
     (if truthy metadata then
        w ← get_world;
        json_dump (stamp (now w) (default ∅ metadata));;
        log_success MetadataSaved
      else mret tt);;
     mret true)
    (fun e =>
       log_error (FailedToSaveModel e);;
       mret false).

Definition load_model (check_metadata : bool) : M fitted :=
  try_except
    (w ← get_world;
     match sarima_model_file w with
     | None => raise (FileNotFoundError SARIMA_MODEL_FILE)
     | Some f =>
         model ← joblib_load f;
         log_success ModelLoaded;;
         match check_metadata, model_metadata_file w with
         | true, Some g =>
             metadata ← json_load g;
             logger_info MetadataHeader;;
             modify (fun w =>
               fold_left (fun w kv => add_log (INFO, MetadataItem kv.1 kv.2) w)
                         (map_to_list metadata) w)
         | _, _ => mret tt
         end;;
         mret model
     end)
    (fun e =>
       match e with
       | FileNotFoundError _ => log_error (StrOf e);; raise e
       | _ => log_error (FailedToLoadModel e);; raise e
       end).

Definition get_model_info : M model_info :=
  w ← get_world;
  let size := (fun f : file pickle_file =>
                 (inject_Z (Z.of_N (st_size f)) / inject_Z (1024 * 1024))%Q) in
  let info :=
    {| model_exists := bool_decide (is_Some (sarima_model_file w));
       model_path := SARIMA_MODEL_FILE;
       metadata_exists := bool_decide (is_Some (model_metadata_file w));
       metadata_path := MODEL_METADATA_FILE;
       model_size_mb := size <$> sarima_model_file w;
       model_modified := st_mtime <$> sarima_model_file w;
       metadata := None |} in
  match model_metadata_file w with
  | Some g =>
      stored ← json_load g;
      mret {| model_exists := model_exists info;
              model_path := model_path info;
              metadata_exists := metadata_exists info;
              metadata_path := metadata_path info;
              model_size_mb := model_size_mb info;
              model_modified := model_modified info;
              metadata := Some stored |}
  | None => mret info
  end.

End Store.

End ModelUtils.

(* ================================================================== *)
(** ** train_sarima.py *)

Module TrainSarima.
Import ModelUtils.

Section Train.
Context `{External}.

(** The [try] block of [load_monthly_sales] *)
Definition load_monthly_sales_body : M series :=
  w ← get_world;
  (if bool_decide (is_Some (cleaned_sales_file w)) then mret tt
   else raise (FileNotFoundError CLEANED_SALES_FILE));;
  monthly_sales ← read_monthly_sales;
  (if (length monthly_sales <? 24)%nat
   then raise (ValueError (InsufficientData (length monthly_sales)))
   else mret tt);;
  log_success (LoadedMonths (length monthly_sales));;
  mret monthly_sales.

Definition load_monthly_sales : M series :=
  try_except load_monthly_sales_body
    (fun e =>
       match e with
       | FileNotFoundError _ => log_error (StrOf e);; sys_exit 1
       | _ => log_error (ErrorLoadingData e);; sys_exit 1
       end).

Definition train_sarima (s : series) : M fitted :=
  try_except
    (logger_info TrainingModel;;
     results ← lift (engine (sarimax_fit s SARIMA_ORDER SARIMA_SEASONAL_ORDER
                               ENFORCE_STATIONARITY ENFORCE_INVERTIBILITY None));
     log_success ModelTrained;;
     mret results)
    (fun e =>
       log_error (ErrorTrainingModel e);;
       raise e).

Definition tuple3 (t : Z * Z * Z) : pyval :=
  let '(a, b, c) := t in PTuple [a; b; c].

Definition tuple4 (t : Z * Z * Z * Z) : pyval :=
  let '(a, b, c, d) := t in PTuple [a; b; c; d].

(** The metadata dictionary that [main] builds *)
Definition training_metadata (sales : series) (model_results : fitted)
  : gmap string pyval :=
  <["model_type" := PStr "SARIMA"]>
  (<["order" := tuple3 SARIMA_ORDER]>
  (<["seasonal_order" := tuple4 SARIMA_SEASONAL_ORDER]>
  (<["n_observations" := PInt (Z.of_nat (length sales))]>
  (<["date_range" := PDateRange (index_min sales) (index_max sales)]>
  (<["aic" := PFloat (aic model_results)]>
  (<["bic" := PFloat (bic model_results)]> ∅)))))).

Definition main : M unit :=
  try_except
    (log_section "SARIMA MODEL TRAINING";;
     sales ← load_monthly_sales;
     model_results ← train_sarima sales;
     log_section "MODEL SUMMARY";;
     save_model (Handle model_results)
                (Some (training_metadata sales model_results));;
     log_section "TRAINING COMPLETED SUCCESSFULLY")
    (fun e =>
       log_error (TrainingFailed e);;
       sys_exit 1).

End Train.

End TrainSarima.

(* ================================================================== *)
(** ** forecast.py *)

Module Forecast.
Import ModelUtils.

Section Forecast.
Context `{External}.

Definition load_monthly_sales : M series :=
  try_except
    (w ← get_world;
     (if bool_decide (is_Some (cleaned_sales_file w)) then mret tt
      else raise (FileNotFoundError CLEANED_SALES_FILE));;
     monthly_sales ← read_monthly_sales;
     log_success (LoadedMonths (length monthly_sales));;
     mret monthly_sales)
    (fun e =>
       log_error (ErrorLoadingData e);;
       sys_exit 1).

Definition train_model (s : series) : M fitted :=
  logger_info TrainingNewModel;;
  lift (engine (sarimax_fit s SARIMA_ORDER SARIMA_SEASONAL_ORDER
                  ENFORCE_STATIONARITY ENFORCE_INVERTIBILITY None)).

Definition forecast_next (model : fitted) (steps : option Z)
  : M (series * list (Z * obs * obs)) :=
  let steps := default FORECAST_HORIZON steps in
  forecast ← lift (engine (get_forecast model steps));
  mret (predicted_mean forecast, conf_int forecast).

(** [forecast_df.to_csv(FORECAST_OUTPUT_FILE, index=False)] *)
Definition to_csv (forecast : series) : M unit :=
  w ← get_world;
  if processed_dir_writable w
  then modify (set_forecast_file (Some forecast))
  else raise (OSError FORECAST_OUTPUT_FILE).

(** [main]; the plot is left to the rendering layer. *)
Definition main : M unit :=
  try_except
    (log_section "SALES FORECASTING";;
     model_info ← get_model_info;
     model ← (if model_exists model_info then
                logger_info FoundSavedModel;;
                load_model true
              else
                logger_info NoSavedModel;;
                sales ← load_monthly_sales;
                model ← train_model sales;
                log_success ModelTrained;;
                mret model);
     sales ← load_monthly_sales;
     logger_info GeneratingForecast;;
     '(forecast, conf_int) ← forecast_next model None;
     log_success ForecastGenerated;;
     to_csv forecast;;
     log_success ForecastSaved;;
     logger_info (ForecastSummary forecast);;
     log_section "FORECASTING COMPLETED")
    (fun e =>
       log_error (ForecastingFailed e);;
       sys_exit 1).

End Forecast.

End Forecast.

(* ================================================================== *)
(** ** Sample data: estimators, series and file systems *)

Module Samples.
Import ModelUtils.

(** [n] months, numbered from 1, of the same sales figure *)
Definition constant_series (n : nat) (v : Q) : series :=
  List.map (fun i => (Z.of_nat i + 1, Some v)) (seq 0 n).

(** A handle that predicts the value [v] for every month. *)
Definition flat_model (s : series) (v : Q) (a b : float) : fitted :=
  {| endog := s;
     model_order := SARIMA_ORDER;
     model_seasonal_order := SARIMA_SEASONAL_ORDER;
     aic := a;
     bic := b;
     predict := fun start stop =>
       inr (List.map (fun _ => Some v) (py_range start (stop + 1)));
     get_forecast := fun steps =>
       let last := default 0 (index_max s) in
       inr {| predicted_mean :=
                List.map (fun i => (last + i, Some v)) (py_range 1 (steps + 1));
              conf_int :=
                List.map (fun i => (last + i, Some (v - 1)%Q, Some (v + 1)%Q))
                         (py_range 1 (steps + 1)) |} |}.

(** An estimator that fits whatever it is given. *)
Definition lenient_engine (v : Q) : External :=
  {| sarimax_fit := fun s _ _ _ _ _ => inr (flat_model s v (Num 10) (Num 12));
     pickle_size := fun _ => 2097152%N;
     json_size := fun _ => 256%N |}.

(** An estimator that refuses a series of no observation. *)
Definition strict_engine (v : Q) : External :=
  {| sarimax_fit := fun s _ _ _ _ _ =>
       match s with
       | [] => inl 1%nat
       | _ => inr (flat_model s v (Num 10) (Num 12))
       end;
     pickle_size := fun _ => 2097152%N;
     json_size := fun _ => 256%N |}.

(** An estimator for the search: it does not converge when [q = 1], and
    otherwise reports the same AIC for every order and a BIC that is
    lower for the orders with [p > 0]. *)
Definition tied_engine : External :=
  {| sarimax_fit := fun s o _ _ _ _ =>
       let '(p, _, q) := o in
       if q =? 1 then inl 7%nat
       else inr (flat_model s 100 (Num 10) (if p =? 0 then Num 5 else Num 3));
     pickle_size := fun _ => 2097152%N;
     json_size := fun _ => 256%N |}.

Definition three_years : series := constant_series 36 100.

(** The row of a fit of order (p,0,0)x(0,0,0,12) with AIC 10 *)
Definition tied_row (p : Z) (b : Q) : Tuning.row :=
  {| Tuning.row_p := p; Tuning.row_d := 0; Tuning.row_q := 0;
     Tuning.row_P := 0; Tuning.row_D := 0; Tuning.row_Q := 0;
     Tuning.AIC := Num 10; Tuning.BIC := Num b;
     Tuning.order := (p, 0, 0); Tuning.seasonal_order := (0, 0, 0, 12) |}.

(** Two result sets with the same AIC column and opposite BIC columns *)
Definition tied_rows_falling : list Tuning.row := [tied_row 0 5; tied_row 1 3].
Definition tied_rows_rising : list Tuning.row := [tied_row 0 3; tied_row 1 5].

Definition one_quarter : series :=
  [(1, Some 10%Q); (2, Some 13%Q); (3, Some 11%Q)].

Definition one_year : series := constant_series 12 100.


(** Three years without a sale. *)
Definition no_sales : series := constant_series 36 0.

(** A machine on which nothing has run yet. *)
Definition fresh_world : world :=
  {| cleaned_sales_file := None;
     sarima_model_file := None;
     model_metadata_file := None;
     forecast_output_file := None;
     models_dir_writable := true;
     processed_dir_writable := true;
     now := 1700000000;
     log := [] |}.

Definition with_sales (s : series) (w : world) : world :=
  World (Some (Table s)) (sarima_model_file w) (model_metadata_file w)
        (forecast_output_file w) (models_dir_writable w)
        (processed_dir_writable w) (now w) (log w).

(** Metadata written when only the first two years were known. *)
Definition two_year_metadata : gmap string pyval :=
  <["model_type" := PStr "SARIMA"]>
  (<["n_observations" := PInt 24]>
  (<["date_range" := PDateRange (Some 1) (Some 24)]> ∅)).

(** The artifact of a model fitted on three years, next to the metadata
    of a model fitted on two. *)
Definition stale_world : world :=
  set_metadata_file (Some (File (JsonDoc two_year_metadata) 256 1600000000))
    (set_model_file
       (Some (File (Pickle (flat_model three_years 100 (Num 10) (Num 12)))
                   2097152 1700000000))
       (with_sales three_years fresh_world)).

(** The metadata file cut short by a failed [json.dump]. *)
Definition torn_metadata_world : world :=
  set_metadata_file (Some (File NotJson 0 1600000000)) stale_world.

(** The metadata file left behind after the artifact was removed. *)
Definition orphan_metadata_world : world :=
  set_model_file None stale_world.

End Samples.

(* ================================================================== *)
(** ** What a computation leaves of the model store *)

(** Two worlds with the same sales table, model artifact, metadata file,
    permissions and clock: they may differ in the log and in the forecast
    file only. *)
Definition same_store (w w' : world) : Prop :=
  cleaned_sales_file w' = cleaned_sales_file w /\
  sarima_model_file w' = sarima_model_file w /\
  model_metadata_file w' = model_metadata_file w /\
  models_dir_writable w' = models_dir_writable w /\
  processed_dir_writable w' = processed_dir_writable w /\
  now w' = now w.


(** A computation that never writes to the model store and that leaves the
    interpreter, if it does, with status 1. *)
Definition tidy {A} (c : M A) : Prop :=
  forall w, same_store w (c w).2 /\ forall n, (c w).1 = Exited n -> n = 1.

(** Further sample data *)
Module Fixtures.
Import ModelUtils Samples.

(** The handle of a fit on three years *)
Definition three_year_model : fitted := flat_model three_years 100 (Num 10) (Num 12).

(** Metadata with an entry that JSON cannot encode *)
Definition metadata_with_object : gmap string pyval :=
  <["summary" := PObject 0]> two_year_metadata.

(** No sales table, a sound model and sound metadata *)
Definition model_without_sales : world :=
  World None (sarima_model_file stale_world) (model_metadata_file stale_world)
        (forecast_output_file stale_world) (models_dir_writable stale_world)
        (processed_dir_writable stale_world) (now stale_world) (log stale_world).

(** An estimator whose AIC falls by 3 with each autoregressive order *)
Definition graded_engine : External :=
  {| sarimax_fit := fun s o _ _ _ _ =>
       let '(p, _, _) := o in
       inr (flat_model s 100 (Num (inject_Z (10 - 3 * p))) (Num 12));
     pickle_size := fun _ => 2097152%N;
     json_size := fun _ => 256%N |}.

(** An estimator that converges for the configured orders only *)
Definition picky_engine : External :=
  {| sarimax_fit := fun s o so _ _ _ =>
       let '(p, d, q) := o in
       let '(P, D, Q, m) := so in
       if (p =? 1) && (d =? 1) && (q =? 1) && (P =? 1) && (D =? 1) && (Q =? 1)
       then inr (flat_model s 100 (Num 10) (Num 12))
       else inl 7%nat;
     pickle_size := fun _ => 2097152%N;
     json_size := fun _ => 256%N |}.

(** Three years of sales and a models directory that cannot be written *)
Definition read_only_world : world :=
  World (Some (Table three_years)) None None None false true 1700000000 [].

End Fixtures.

(** The world that a complete training run leaves: the log entries of
    the run, the model file and the metadata file. *)
Definition trained `{External} (w : world) (sales : series) (results : fitted)
  : world :=
  let doc := omap ModelUtils.json_encode
               (ModelUtils.stamp (now w)
                  (TrainSarima.training_metadata sales results)) in
  add_log (INFO, Banner "TRAINING COMPLETED SUCCESSFULLY")
    (add_log (INFO, MetadataSaved)
       (set_metadata_file (Some (File (JsonDoc doc) (json_size doc) (now w)))
          (add_log (INFO, ModelSaved)
             (set_model_file
                (Some (File (Pickle results) (pickle_size results) (now w)))
                (add_log (INFO, Banner "MODEL SUMMARY")
                   (add_log (INFO, ModelTrained)
                      (add_log (INFO, TrainingModel)
                         (add_log (INFO, LoadedMonths (length sales))
                            (add_log (INFO, Banner "SARIMA MODEL TRAINING")
                               w))))))))).

(* ================================================================== *)
(** ** hyperparameter_tuning.py: the report of [main] *)

Module TuningMain.
Import Tuning.

(** [x - y] on floats *)
Definition float_sub (x y : float) : float :=
  match x, y with
  | NaN, _ | _, NaN => NaN
  | PInf, PInf | NInf, NInf => NaN
  | PInf, _ | _, NInf => PInf
  | NInf, _ | _, PInf => NInf
  | Num a, Num b => Num (a - b)
  end.

(** [x > k] for a finite [k]; false of NaN *)
Definition float_gtb (x : float) (k : Q) : bool :=
  match x with
  | Num a => negb (Qle_bool a k)
  | PInf => true
  | NInf | NaN => false
  end.

(** The rows with their labels, which after [reset_index(drop=True)] are
    the positions 0, 1, 2, ... *)
Fixpoint labelled (k : nat) (rows : list row) : list (nat * row) :=
  match rows with
  | [] => []
  | r :: rows' => (k, r) :: labelled (S k) rows'
  end.

(** The mask that selects the configured model *)
Definition is_current (r : row) : bool :=
  let '(p, d, q) := SARIMA_ORDER in
  let '(P, D, Q, _) := SARIMA_SEASONAL_ORDER in
  (row_p r =? p) && (row_d r =? d) && (row_q r =? q) &&
  (row_P r =? P) && (row_D r =? D) && (row_Q r =? Q).

(** [results[mask]]: the selected rows keep their labels. *)
Definition current_model (results : list row) : list (nat * row) :=
  List.filter (fun ir => is_current ir.2) (labelled 0 results).

(** What [main] says of the current model: a warning with the possible
    improvement and the recommended orders, or that the model is
    near-optimal. *)
Inductive verdict : Type :=
| PotentialImprovement (improvement : float)
                       (recommended_order : Z * Z * Z)
                       (recommended_seasonal_order : Z * Z * Z * Z)
| NearOptimal.

Record report : Type := {
  rank : nat;
  out_of : nat;
  current_AIC : float;
  best_AIC : float;
  said : verdict;
}.

(** The block [if not current_model.empty: ...] *)
Definition report_current (results : list row) : option report :=
  match current_model results, results with
  | (label, current) :: _, best :: _ =>
      let improvement := float_sub (AIC current) (AIC best) in
      Some {| rank := label + 1;
              out_of := length results;
              current_AIC := AIC current;
              best_AIC := AIC best;
              said := if float_gtb improvement 2
                      then PotentialImprovement improvement
                             (order best) (seasonal_order best)
                      else NearOptimal |}
  | _, _ => None
  end.

Section Main.
Context `{External}.

(** The search of [main] and its report, for the series it loaded. *)
Definition main_body (sales : series) : result (list row * option report) :=
  results ← grid_search_sarima sales (0, 2) (0, 2) (0, 2) (0, 2) (0, 2) (0, 2) 12;
  mret (results, report_current results).

End Main.

End TuningMain.

(* ================================================================== *)
(** ** The evaluation metrics in binary64 *)

From Stdlib Require Floats Uint63.

(** The metrics of [model_evaluation.py] once more, on the numbers the
    script computes with.  The values of a pandas Series and of a numpy
    array are IEEE 754 binary64 numbers, which are Rocq's primitive
    floats: every operation below rounds, overflows to an infinity and
    produces NaN as the machine does.

    The order in which the values of an array are added up is the
    library's business (numpy adds the values of a long array blockwise,
    pandas may replace a missing value by zero before it adds).  It is
    left open: a [Summation] is any way of adding up all the values of a
    list, and every property of the metrics is proved for all of them. *)

Module Binary64.
Import PrimFloat.
#[local] Set Warnings "-inexact-float".

(** Classes of values, read off the specification of a float: *)

(** A value that is not below zero: a zero of either sign, a positive
    number or plus infinity. *)
Definition nn (x : SpecFloat.spec_float) : Prop :=
  match x with
  | SpecFloat.S754_zero _
  | SpecFloat.S754_finite false _ _
  | SpecFloat.S754_infinity false => True
  | _ => False
  end.

(** Anything but NaN *)
Definition notnan (x : SpecFloat.spec_float) : Prop :=
  match x with SpecFloat.S754_nan => False | _ => True end.

(** A zero or a number: neither NaN nor an infinity *)
Definition fin (x : SpecFloat.spec_float) : Prop :=
  match x with
  | SpecFloat.S754_zero _ | SpecFloat.S754_finite _ _ _ => True
  | _ => False
  end.

(** A zero, a number or an infinity of the sign [s] *)
Definition signed (s : bool) (x : SpecFloat.spec_float) : Prop :=
  match x with
  | SpecFloat.S754_zero s'
  | SpecFloat.S754_infinity s'
  | SpecFloat.S754_finite s' _ _ => s' = s
  | SpecFloat.S754_nan => False
  end.

(** A zero of either sign *)
Definition isz (x : SpecFloat.spec_float) : Prop :=
  match x with SpecFloat.S754_zero _ => True | _ => False end.

(** The float is not below zero: [0 <= x] holds. *)
Definition nonneg (x : float) : Prop := nn (FloatOps.Prim2SF x).

(** [s] is a total of the values of [l]: the values, and zeros, added
    two by two in some order. *)
Inductive sums : list float -> float -> Prop :=
| sums_zero : sums [] 0%float
| sums_neg_zero : sums [] (-0)%float
| sums_one (x : float) : sums [x] x
| sums_add (l1 l2 : list float) (a b : float) :
    sums l1 a -> sums l2 b -> sums (l1 ++ l2) (a + b)%float
| sums_perm (l l' : list float) (a : float) :
    Permutation l l' -> sums l a -> sums l' a.

Class Summation : Type := {
  add_reduce : list float -> float;
  add_reduce_sums : forall l, sums l (add_reduce l);
}.

(** The values added one after the other, from zero; this is how numpy
    adds up an array of fewer than eight values. *)
Definition in_order (l : list float) : float := fold_left add l 0%float.

Lemma in_order_sums (l : list float) : sums l (in_order l).
Proof.
  unfold in_order.
  assert (H : forall acc done, sums done acc ->
                sums (done ++ l) (fold_left add l acc)).
  { induction l as [|x l IH]; intros acc done Hacc; simpl.
    - by rewrite app_nil_r.
    - replace (done ++ x :: l) with ((done ++ [x]) ++ l)
        by by rewrite <- app_assoc.
      apply IH. apply sums_add; [done|apply sums_one]. }
  apply (H 0%float []). apply sums_zero.
Qed.

Definition numpy_short : Summation :=
  {| add_reduce := in_order; add_reduce_sums := in_order_sums |}.

(** The number of values of an array, a machine integer, as a float *)
Definition count (n : nat) : float := of_uint63 (Uint63.of_Z (Z.of_nat n)).

Section Metrics.
Context `{Summation}.

(** [np.average(a, axis=0)] without weights: the sum over the count *)
Definition mean (l : list float) : float :=
  (add_reduce l / count (length l))%float.

(** scikit-learn's validation of one array: at least one sample, and no
    NaN and no infinity *)
Definition check_array (l : list float) : result (list float) :=
  match l with
  | [] => inl (ValueError EmptyArray)
  | _ => if forallb is_finite l then inr l else inl (ValueError NotFinite)
  end.

Definition check_reg_targets (y_true y_pred : list float)
  : result (list float * list float) :=
  if negb (length y_true =? length y_pred)%nat
  then inl (ValueError InconsistentLength)
  else
    a ← check_array y_true;
    p ← check_array y_pred;
    mret (a, p).

(** [mean_absolute_error]: the average of [np.abs(y_pred - y_true)] over
    the samples, then the uniform average over the outputs, of which
    there is one. *)
Definition mean_absolute_error (y_true y_pred : list float) : result float :=
  '(a, p) ← check_reg_targets y_true y_pred;
  mret (mean [mean (zip_with (fun x y => abs (y - x))%float a p)]).

(** [mean_squared_error]: the same with [(y_true - y_pred) ** 2] *)
Definition mean_squared_error (y_true y_pred : list float) : result float :=
  '(a, p) ← check_reg_targets y_true y_pred;
  mret (mean [mean (zip_with (fun x y => (x - y) * (x - y))%float a p)]).

(** [Series.mean()]: NaN entries are skipped; with nothing left the mean
    is NaN. *)
Definition nanmean (l : list float) : float :=
  let kept := List.filter (fun x => negb (is_nan x)) l in
  match kept with
  | [] => nan
  | _ => (add_reduce kept / count (length kept))%float
  end.

(** [np.mean(np.abs((test - predictions) / test)) * 100] *)
Definition mean_absolute_percentage (test predictions : list float) : float :=
  (nanmean (zip_with (fun t p => abs ((t - p) / t))%float test predictions)
   * 100)%float.

End Metrics.

(** The three numbers of the script, [rmse] being [np.sqrt] of the mean
    squared error *)
Record metrics64 : Type := {
  mae64 : float;
  rmse64 : float;
  mape64 : float;
}.

(** Lines 64 to 66, with numpy's order of addition for the two
    scikit-learn metrics and pandas' for the mean of the Series. *)
Definition evaluation_metrics (np pd : Summation) (test predictions : list float)
  : result metrics64 :=
  mae ← @mean_absolute_error np test predictions;
  mse ← @mean_squared_error np test predictions;
  mret {| mae64 := mae;
          rmse64 := sqrt mse;
          mape64 := @mean_absolute_percentage pd test predictions |}.

(** Five months of sales of 100.03, each predicted as 100 *)
Definition five_months : list float :=
  [100.03; 100.03; 100.03; 100.03; 100.03]%float.
Definition five_predictions : list float := [100; 100; 100; 100; 100]%float.

(** Three months without a sale, predicted as such *)
Definition no_sales64 : list float := [0; 0; 0]%float.

End Binary64.

(* ================================================================== *)
(** * Properties *)

(** ** Differencing *)

Module DifferencingFacts.
Import Samples.

Lemma dropna_present (s : series) :
  Forall present s -> dropna s = s.
Proof.
  induction 1 as [|[t v] s [x Hx] _ IH]; simpl in *; [done|].
  subst v. unfold dropna in *. simpl. by rewrite IH.
Qed.

Lemma diff_from_present (s : series) (y : Q) :
  Forall present s -> Forall present (diff_from (Some y) s).
Proof.
  intros Hs. revert y.
  induction Hs as [|[t v] s [x Hx] _ IH]; intros y; simpl in *; [constructor|].
  subst v. constructor; [by eexists | apply IH].
Qed.

Lemma length_diff_from (prev : obs) (s : series) :
  length (diff_from prev s) = length s.
Proof.
  revert prev. induction s as [|[t v] s IH]; intros prev; simpl; [done|].
  by rewrite IH.
Qed.

Lemma index_diff_from (prev : obs) (s : series) :
  index (diff_from prev s) = index s.
Proof.
  revert prev. induction s as [|[t v] s IH]; intros prev; simpl; [done|].
  by rewrite IH.
Qed.

(** The entry of [diff] at a position is the value there minus the value
    just before. *)
Lemma lookup_diff_from (s : series) (prev : obs) (i : nat) (t : Z) (x : obs) :
  s !! i = Some (t, x) ->
  diff_from prev s !! i
  = Some (t, obs_sub x (match i with
                        | O => prev
                        | S j => from_option snd None (s !! j)
                        end)).
Proof.
  revert prev i.
  induction s as [|[t' v] s IH]; intros prev [|i] Hi; simpl in *; try done.
  - by inversion Hi.
  - change (diff_from v s !! i
            = Some (t, obs_sub x (from_option snd None (((t', v) :: s) !! i)))).
    rewrite (IH v i Hi). by destruct i.
Qed.

(** C5.  On a series without missing value, [difference_series] returns
    one entry less: the entry at position [i] carries the timestamp of
    the original position [i+1] and the value there minus the value at
    position [i]; the first timestamp is gone and no entry of the result
    is a missing marker.  (Of the empty series it returns the empty
    series.) *)
Theorem difference_series_drops_first (s : series) (Hfull : Forall present s) :
  length (difference_series s) = pred (length s) /\
  index (difference_series s) = tail (index s) /\
  Forall present (difference_series s) /\
  forall (i : nat) (t t' : Z) (x y : Q),
    s !! i = Some (t', Some y) ->
    s !! S i = Some (t, Some x) ->
    difference_series s !! i = Some (t, Some (x - y)%Q).
Proof.
  destruct Hfull as [|[t0 v0] s [y0 Hy0] Hs]; [by repeat split|].
  simpl in Hy0. subst v0.
  assert (Hd : difference_series ((t0, Some y0) :: s) = diff_from (Some y0) s).
  { unfold difference_series. simpl. unfold dropna. simpl.
    apply dropna_present, diff_from_present, Hs. }
  rewrite Hd. repeat split.
  - simpl. apply length_diff_from.
  - simpl. apply index_diff_from.
  - by apply diff_from_present.
  - intros i t t' x y Hi HSi. simpl in HSi.
    rewrite (lookup_diff_from _ _ _ _ _ HSi).
    destruct i as [|j]; simpl in Hi.
    + by inversion Hi.
    + by rewrite Hi.
Qed.

Lemma difference_series_drops_first_witness :
  Forall present one_quarter /\
  length (difference_series one_quarter) = 2%nat /\
  difference_series one_quarter !! 0%nat = Some (2, Some (13 - 10)%Q).
Proof.
  assert (Hfull : Forall present one_quarter).
  { repeat constructor; by eexists. }
  destruct (difference_series_drops_first one_quarter Hfull)
    as (Hlen & _ & _ & Hval).
  split; [exact Hfull|]. split; [exact Hlen|].
  apply (Hval 0%nat 2 1 13%Q 10%Q); reflexivity.
Defined.

End DifferencingFacts.

(* ================================================================== *)
(** ** The order search *)

Module TuningFacts.
Import Tuning Samples.

Lemma leb_trans (x y z : float) :
  Float.leb x y = true -> Float.leb y z = true -> Float.leb x z = true.
Proof.
  destruct x, y, z; simpl; try done.
  rewrite !Qle_bool_iff. apply Qle_trans.
Qed.

Lemma leb_total (x y : float) :
  notna x = true -> notna y = true ->
  Float.leb x y = false -> Float.leb y x = true.
Proof.
  destruct x as [a| | |], y as [b| | |]; simpl; try done.
  intros _ _ Hab. apply Qle_bool_iff.
  destruct (Qlt_le_dec b a) as [Hlt|Hle].
  - by apply Qlt_le_weak.
  - apply Qle_bool_iff in Hle. congruence.
Qed.

Lemma key_le_trans (x y z : float) :
  key_le x y = true -> key_le y z = true -> key_le x z = true.
Proof.
  unfold key_le. destruct (isnan z) eqn:Hz; [done|]. simpl.
  intros Hxy [Hy Hyz]%andb_prop.
  unfold notna in Hy. apply negb_true_iff in Hy. rewrite Hy in Hxy. simpl in Hxy.
  apply andb_prop in Hxy as [Hx Hxy]. rewrite Hx. simpl. eauto using leb_trans.
Qed.

Lemma key_le_total (x y : float) :
  key_le x y = false -> key_le y x = true.
Proof.
  unfold key_le. intros [Hy Hxy]%orb_false_elim.
  destruct (isnan x) eqn:Hx; [done|]. simpl.
  unfold notna in *. rewrite Hx in Hxy. rewrite Hy. simpl in *.
  apply leb_total; unfold notna; rewrite ?Hx, ?Hy; done.
Qed.

Lemma insert_row_perm (r : row) (l : list row) :
  Permutation (insert_row r l) (r :: l).
Proof.
  induction l as [|r' l IH]; simpl; [done|].
  destruct (key_le (AIC r) (AIC r')); [done|].
  rewrite IH. apply perm_swap.
Qed.

Lemma insert_row_sorted (r : row) (l : list row) :
  StronglySorted by_AIC l -> StronglySorted by_AIC (insert_row r l).
Proof.
  induction 1 as [|r' l Hl IH Hr']; simpl.
  - repeat constructor.
  - destruct (key_le (AIC r) (AIC r')) eqn:Hle.
    + constructor; [by constructor|].
      constructor; [done|].
      eapply Forall_impl; [exact Hr'|]. intros r'' H''.
      unfold by_AIC in *. eauto using key_le_trans.
    + constructor; [done|].
      rewrite Forall_forall. intros x Hx.
      rewrite (insert_row_perm r l) in Hx. apply elem_of_cons in Hx as [->|Hx].
      * by apply key_le_total.
      * rewrite Forall_forall in Hr'. by apply Hr'.
Qed.

Lemma sort_values_AIC_perm (rows : list row) :
  Permutation (sort_values_AIC rows) rows.
Proof.
  induction rows as [|r rows IH]; simpl; [done|].
  rewrite insert_row_perm. by constructor.
Qed.

Lemma sort_values_AIC_sorted (rows : list row) :
  StronglySorted by_AIC (sort_values_AIC rows).
Proof.
  induction rows as [|r rows IH]; simpl; [constructor|].
  by apply insert_row_sorted.
Qed.

Lemma StronglySorted_lookup {A} (R : A -> A -> Prop) (l : list A) :
  StronglySorted R l ->
  forall (i j : nat) (x y : A),
    (i < j)%nat -> l !! i = Some x -> l !! j = Some y -> R x y.
Proof.
  induction 1 as [|a l Hl IH Ha]; intros i j x y Hij Hi Hj; [done|].
  destruct j as [|j]; [lia|]. simpl in Hj.
  destruct i as [|i]; simpl in Hi.
  - inversion Hi; subst. rewrite Forall_forall in Ha.
    apply Ha. by eapply list_elem_of_lookup_2.
  - apply (IH i j); [lia|done|done].
Qed.

Lemma length_flat_map_const {A B} (f : A -> list B) (n : nat) (l : list A) :
  (forall a, length (f a) = n) -> length (flat_map f l) = (length l * n)%nat.
Proof.
  intros Hf. induction l as [|a l IH]; simpl; [done|].
  by rewrite length_app, IH, Hf.
Qed.

Lemma length_product (ps ds qs Ps Ds Qs : list Z) :
  length (product ps ds qs Ps Ds Qs)
  = (length ps * length ds * length qs * length Ps * length Ds * length Qs)%nat.
Proof.
  unfold product.
  rewrite (length_flat_map_const _
             (length ds * length qs * length Ps * length Ds * length Qs)); [ring|].
  intros p. rewrite (length_flat_map_const _
             (length qs * length Ps * length Ds * length Qs)); [ring|].
  intros d. rewrite (length_flat_map_const _
             (length Ps * length Ds * length Qs)); [ring|].
  intros q. rewrite (length_flat_map_const _ (length Ds * length Qs)); [ring|].
  intros P. rewrite (length_flat_map_const _ (length Qs)); [ring|].
  intros D. by rewrite length_map.
Qed.

Lemma length_omap_le {A B} (f : A -> option B) (l : list A) :
  (length (omap f l) <= length l)%nat.
Proof.
  induction l as [|a l IH]; csimpl; [done|]. destruct (f a); csimpl; lia.
Qed.

Section Search.
Context `{External}.

Lemma search_loop_spec (s : series) (m : Z) (todo : list combination)
      (acc : list row) :
  search_loop s m todo acc = acc ++ omap (try_fit s m) todo.
Proof.
  revert acc. induction todo as [|c todo IH]; intros acc; simpl.
  - by rewrite app_nil_r.
  - destruct (try_fit s m c) as [r|]; rewrite IH; [by rewrite <- app_assoc|done].
Qed.

(** A row records the combination it was fitted for and the criteria
    of that fit. *)
Lemma try_fit_Some (s : series) (m : Z) (c : combination) (r : row) :
  try_fit s m c = Some r ->
  combination_of r = c /\
  exists f, sarimax_fit s (order r) (seasonal_order r) false false (Some 50)
            = inr f /\ AIC r = aic f /\ BIC r = bic f.
Proof.
  destruct c as [[[[[p d] q] P] D] Q]. unfold try_fit.
  destruct (sarimax_fit s (p, d, q) (P, D, Q, m) false false (Some 50))
    as [code|f] eqn:Hfit; [done|].
  intros [= <-]. split; [done|]. by exists f.
Qed.

Lemma try_fit_None (s : series) (m : Z) (p d q P D Q : Z) (code : nat) :
  sarimax_fit s (p, d, q) (P, D, Q, m) false false (Some 50) = inl code ->
  try_fit s m (p, d, q, P, D, Q) = None.
Proof. unfold try_fit. by intros ->. Qed.

(** What the search returns: the rows of the fits that succeeded,
    sorted; or [KeyError] when no fit succeeded. *)
Lemma grid_search_sarima_spec (s : series)
      (p_range d_range q_range P_range D_range Q_range : Z * Z) (m : Z) :
  let fits := omap (try_fit s m)
                (candidates p_range d_range q_range P_range D_range Q_range) in
  grid_search_sarima s p_range d_range q_range P_range D_range Q_range m
  = match fits with
    | [] => inl (KeyError "AIC")
    | _ => inr (sort_values_AIC fits)
    end.
Proof. unfold grid_search_sarima. by rewrite search_loop_spec. Qed.

Lemma grid_search_sarima_inr (s : series)
      (p_range d_range q_range P_range D_range Q_range : Z * Z) (m : Z)
      (rows : list row) :
  grid_search_sarima s p_range d_range q_range P_range D_range Q_range m
  = inr rows ->
  rows = sort_values_AIC
           (omap (try_fit s m)
                 (candidates p_range d_range q_range P_range D_range Q_range)).
Proof.
  rewrite grid_search_sarima_spec.
  destruct (omap _ _); [done|]. by intros [= <-].
Qed.

(** C1, as the code has it.  The rows that the search returns are the
    rows of the successful fits in ascending order of AIC, a NaN AIC
    after every other: of two rows the later one has a NaN AIC or an
    AIC that is not below the AIC of the earlier one.  The AIC is the
    only key of the sort. *)
Theorem grid_search_sorted_by_AIC (s : series)
        (p_range d_range q_range P_range D_range Q_range : Z * Z) (m : Z)
        (rows : list row)
        (Hret : grid_search_sarima s p_range d_range q_range
                                   P_range D_range Q_range m = inr rows) :
  StronglySorted by_AIC rows /\
  Permutation rows
    (omap (try_fit s m)
          (candidates p_range d_range q_range P_range D_range Q_range)) /\
  forall (i j : nat) (r1 r2 : row),
    (i < j)%nat -> rows !! i = Some r1 -> rows !! j = Some r2 ->
    isnan (AIC r2) = true \/ Float.leb (AIC r1) (AIC r2) = true.
Proof.
  apply grid_search_sarima_inr in Hret. subst rows.
  split; [apply sort_values_AIC_sorted|].
  split; [apply sort_values_AIC_perm|].
  intros i j r1 r2 Hij Hi Hj.
  pose proof (StronglySorted_lookup _ _ (sort_values_AIC_sorted _)
                i j r1 r2 Hij Hi Hj) as Hle.
  unfold by_AIC, key_le in Hle.
  apply orb_prop in Hle as [Hnan|[_ Hle]%andb_prop]; auto.
Qed.

(** C8.  Every row of the result comes from a candidate whose fit
    succeeded and carries the criteria of that fit; a combination
    whose fit raised has no row; and there are at most as many rows as
    combinations. *)
Theorem grid_search_drops_failed_fits (s : series)
        (p_range d_range q_range P_range D_range Q_range : Z * Z) (m : Z)
        (rows : list row)
        (Hret : grid_search_sarima s p_range d_range q_range
                                   P_range D_range Q_range m = inr rows) :
  (length rows
   <= total_combinations p_range d_range q_range P_range D_range Q_range)%nat /\
  (forall (p d q P D Q : Z) (code : nat),
      sarimax_fit s (p, d, q) (P, D, Q, m) false false (Some 50) = inl code ->
      forall r, r ∈ rows -> combination_of r <> (p, d, q, P, D, Q)) /\
  (forall r, r ∈ rows ->
      combination_of r
        ∈ candidates p_range d_range q_range P_range D_range Q_range /\
      exists f,
        sarimax_fit s (order r) (seasonal_order r) false false (Some 50)
        = inr f /\ AIC r = aic f /\ BIC r = bic f).
Proof.
  apply grid_search_sarima_inr in Hret.
  assert (Hperm : Permutation rows
            (omap (try_fit s m)
               (candidates p_range d_range q_range P_range D_range Q_range))).
  { subst rows. apply sort_values_AIC_perm. }
  assert (Hrow : forall r, r ∈ rows ->
            exists c, c ∈ candidates p_range d_range q_range
                                     P_range D_range Q_range /\
                      try_fit s m c = Some r).
  { intros r Hr. rewrite Hperm in Hr. by apply list_elem_of_omap in Hr. }
  split; [|split].
  - rewrite Hperm. etransitivity; [apply length_omap_le|].
    unfold candidates, total_combinations. by rewrite length_product.
  - intros p d q P D Q code Hfail r Hr Hc.
    destruct (Hrow r Hr) as (c & _ & Hfit).
    destruct (try_fit_Some _ _ _ _ Hfit) as [Hc' _].
    rewrite Hc in Hc'. subst c.
    rewrite (try_fit_None _ _ _ _ _ _ _ _ _ Hfail) in Hfit. done.
  - intros r Hr. destruct (Hrow r Hr) as (c & Hc & Hfit).
    destruct (try_fit_Some _ _ _ _ Hfit) as [<- Hf]. done.
Qed.

End Search.

(** Two orders of equal AIC come out in the order of their enumeration,
    the higher BIC first: the ranking is not the specified one. *)
Lemma grid_search_ties_ignore_BIC :
  exists r0 r1 : row,
    @grid_search_sarima tied_engine three_years
      (0, 1) (0, 0) (0, 0) (0, 0) (0, 0) (0, 0) 12 = inr [r0; r1] /\
    AIC r0 = Num 10 /\ AIC r1 = Num 10 /\
    BIC r0 = Num 5 /\ BIC r1 = Num 3 /\
    ~ ranked_as_specified [r0; r1].
Proof.
  eexists _, _. split; [vm_compute; reflexivity|].
  repeat split.
  intros Hsorted. inversion Hsorted as [|? ? _ Hhead]; subst.
  inversion Hhead as [|? ? Hle _]; subst.
  vm_compute in Hle. discriminate Hle.
Qed.

(** The rows that a sort of the key column selects, position by position *)
Lemma sort_values_with_two (l : list nat) (a0 a1 b0 b1 : row) :
  exists picks : list bool,
    omap (fun i => [a0; a1] !! i) l = (fun k : bool => if k then a1 else a0) <$> picks /\
    omap (fun i => [b0; b1] !! i) l = (fun k : bool => if k then b1 else b0) <$> picks.
Proof.
  induction l as [|i l (picks & Ha & Hb)]; [by exists []|].
  destruct i as [|[|i]]; csimpl; rewrite Ha, Hb.
  - by exists (false :: picks).
  - by exists (true :: picks).
  - by exists picks.
Qed.

(** Whatever algorithm sorts the AIC column, it cannot rank by BIC the
    rows of equal AIC: it treats the two sample result sets alike, and
    ranks one of them against its BIC column. *)
Lemma no_sort_by_AIC_ranks_as_specified (argsort : list float -> list nat) :
  ~ (Permutation (sort_values_with argsort tied_rows_falling) tied_rows_falling /\
     ranked_as_specified (sort_values_with argsort tied_rows_falling) /\
     Permutation (sort_values_with argsort tied_rows_rising) tied_rows_rising /\
     ranked_as_specified (sort_values_with argsort tied_rows_rising)).
Proof.
  unfold sort_values_with.
  change (AIC <$> tied_rows_rising) with (AIC <$> tied_rows_falling).
  set (l := argsort (AIC <$> tied_rows_falling)).
  unfold tied_rows_falling, tied_rows_rising.
  destruct (sort_values_with_two l
              (tied_row 0 5) (tied_row 1 3) (tied_row 0 3) (tied_row 1 5))
    as (picks & -> & ->).
  intros (Hpa & Hra & Hpb & Hrb).
  pose proof (Permutation_length Hpa) as Hlen.
  destruct picks as [|x [|y [|z picks]]]; try discriminate Hlen.
  destruct x, y; cbn in Hpa, Hra, Hpb, Hrb.
  - assert (Hin : tied_row 0 5 ∈ [tied_row 1 3; tied_row 1 3]).
    { rewrite Hpa. left. }
    apply elem_of_cons in Hin as [[=]|Hin].
    apply elem_of_cons in Hin as [[=]|Hin]. by apply elem_of_nil in Hin.
  - inversion Hrb as [|? ? _ Hhead]; subst.
    inversion Hhead as [|? ? Hle _]; subst.
    vm_compute in Hle. discriminate Hle.
  - inversion Hra as [|? ? _ Hhead]; subst.
    inversion Hhead as [|? ? Hle _]; subst.
    vm_compute in Hle. discriminate Hle.
  - assert (Hin : tied_row 1 3 ∈ [tied_row 0 5; tied_row 0 5]).
    { rewrite Hpa. right. left. }
    apply elem_of_cons in Hin as [[=]|Hin].
    apply elem_of_cons in Hin as [[=]|Hin]. by apply elem_of_nil in Hin.
Qed.

Lemma grid_search_sorted_by_AIC_witness :
  exists rows,
    @grid_search_sarima tied_engine three_years
      (0, 1) (0, 0) (0, 1) (0, 0) (0, 0) (0, 0) 12 = inr rows /\
    StronglySorted by_AIC rows.
Proof.
  eexists. split; [vm_compute; reflexivity|].
  eapply (@grid_search_sorted_by_AIC tied_engine three_years
            (0, 1) (0, 0) (0, 1) (0, 0) (0, 0) (0, 0) 12).
  vm_compute. reflexivity.
Defined.

Lemma grid_search_drops_failed_fits_witness :
  exists rows,
    @grid_search_sarima tied_engine three_years
      (0, 1) (0, 0) (0, 1) (0, 0) (0, 0) (0, 0) 12 = inr rows /\
    (length rows <= 4)%nat /\
    forall r, r ∈ rows -> combination_of r <> (0, 0, 1, 0, 0, 0).
Proof.
  eexists. split; [vm_compute; reflexivity|].
  pose proof (@grid_search_drops_failed_fits tied_engine three_years
                (0, 1) (0, 0) (0, 1) (0, 0) (0, 0) (0, 0) 12 _ eq_refl)
    as (Hlen & Hfail & _).
  split; [exact Hlen|].
  exact (Hfail 0 0 1 0 0 0 7%nat eq_refl).
Defined.

End TuningFacts.

(* ================================================================== *)
(** ** The evaluation metrics *)

Module EvaluationFacts.
Import Evaluation Samples.
Local Open Scope Q_scope.

Lemma Qsquare_nonneg (z : Q) : 0 <= z * z.
Proof. Lqa.nra. Qed.

Lemma cs_step (n x y S T : Q) :
  0 <= n -> 0 <= x -> x * x == y -> 0 <= S -> 0 <= T -> S * S <= n * T ->
   (x + S) * (x + S) <= (n + 1) * (y + T).
Proof.
  intros Hn Hx Hy HS HT IH.
  pose proof (Qsquare_nonneg (n * x - S)) as H0.
  destruct (Qlt_le_dec 0 n) as [Hpos|Hzero].
  - assert (H1 : n * (2 * x * S) <= n * (n * (x * x) + T)).
    { assert (E1 : (n * x - S) * (n * x - S)
                   == n * (n * (x * x)) - n * (2 * x * S) + S * S) by ring.
      assert (E2 : n * (n * (x * x) + T) == n * (n * (x * x)) + n * T) by ring.
      rewrite E1 in H0. rewrite E2. Lqa.lra. }
    assert (H2 : 2 * x * S <= n * (x * x) + T).
    { apply (Qmult_le_l _ _ n); assumption. }
    assert (E3 : (x + S) * (x + S) == x * x + 2 * x * S + S * S) by ring.
    assert (E4 : (n + 1) * (y + T) == n * (x * x) + T + n * T + x * x)
      by (rewrite <- Hy; ring).
    rewrite E3, E4. Lqa.lra.
  - assert (Hn0 : n == 0) by Lqa.lra.
    assert (HS0 : S * S <= 0) by (rewrite Hn0 in IH; Lqa.lra).
    assert (HS1 : S == 0).
    { destruct (Qeq_dec S 0) as [|Hne]; [assumption|].
      assert (HSpos : 0 < S).
      { apply Qle_lteq in HS as [|E]; [assumption|]. symmetry in E. contradiction. }
      pose proof (Qmult_lt_0_compat _ _ HSpos HSpos). Lqa.lra. }
    rewrite Hn0, HS1, <- Hy.
    assert (E5 : (x + 0) * (x + 0) == x * x) by ring.
    rewrite E5. pose proof (Qsquare_nonneg x). Lqa.lra.
Qed.

(** errors and their squares, term by term *)
Lemma errors_cs (a p : list Q) :
  let n := inject_Z (Z.of_nat (length (absolute_errors a p))) in
  0 <= Qsum (absolute_errors a p) /\
  0 <= Qsum (squared_errors a p) /\
  Qsum (absolute_errors a p) * Qsum (absolute_errors a p)
  <= n * Qsum (squared_errors a p).
Proof.
  revert p. induction a as [|x a IH]; intros [|y p]; try (simpl; repeat split; Lqa.lra).
  destruct (IH p) as (HS & HT & Hcs). clear IH.
  change (absolute_errors (x :: a) (y :: p))
    with (Qabs (y - x) :: absolute_errors a p).
  change (squared_errors (x :: a) (y :: p))
    with ((x - y) * (x - y) :: squared_errors a p).
  cbn [Qsum fold_right length]. cbv zeta in Hcs.
  change (fold_right Qplus 0 ?l) with (Qsum l).
  set (S := Qsum (absolute_errors a p)) in *.
  set (T := Qsum (squared_errors a p)) in *.
  set (k := length (absolute_errors a p)) in *.
  assert (Habs : 0 <= Qabs (y - x)) by apply Qabs_nonneg.
  assert (Hsq : Qabs (y - x) * Qabs (y - x) == (x - y) * (x - y)).
  { rewrite <- Qabs_Qmult. rewrite Qabs_pos; [ring|]. apply Qsquare_nonneg. }
  assert (Hn : 0 <= inject_Z (Z.of_nat k)).
  { change 0 with (inject_Z 0). rewrite <- Zle_Qle. lia. }
  assert (HSk : inject_Z (Z.of_nat (Datatypes.S k)) == inject_Z (Z.of_nat k) + 1).
  { rewrite Nat2Z.inj_succ. unfold Z.succ. rewrite inject_Z_plus. reflexivity. }
  repeat split.
  - Lqa.lra.
  - pose proof (Qsquare_nonneg (x - y)). Lqa.lra.
  - rewrite HSk. apply cs_step; assumption.
Qed.
Lemma percentage_term_shape (a p : obs) :
  percentage_term a p = NaN \/ kept_term (percentage_term a p).
Proof.
  destruct a as [x|], p as [y|]; cbn [percentage_term]; auto.
  unfold qdiv. destruct (Qeq_bool x 0).
  - destruct (x - y ?= 0); cbn [Float.abs kept_term]; auto.
  - right. cbn [Float.abs kept_term]. apply Qabs_nonneg.
Qed.

Lemma percentage_term_zero (x y : Q) :
  x == 0 -> ~ y == 0 -> percentage_term (Some x) (Some y) = PInf.
Proof.
  intros Hx Hy. cbn [percentage_term]. unfold qdiv.
  rewrite (proj2 (Qeq_bool_iff x 0) Hx).
  destruct (x - y ?= 0) eqn:Hc; try reflexivity.
  apply Qeq_alt in Hc. exfalso. apply Hy. Lqa.lra.
Qed.

Lemma percentage_term_zero_zero (x y : Q) :
  x == 0 -> y == 0 -> percentage_term (Some x) (Some y) = NaN.
Proof.
  intros Hx Hy. cbn [percentage_term]. unfold qdiv.
  rewrite (proj2 (Qeq_bool_iff x 0) Hx).
  assert (Hc : (x - y ?= 0) = Eq) by (apply Qeq_alt; Lqa.lra).
  by rewrite Hc.
Qed.

Lemma percentage_term_nonzero (x y : Q) :
  ~ x == 0 -> percentage_term (Some x) (Some y) = Num (Qabs ((x - y) / x)).
Proof.
  intros Hx. cbn [percentage_term]. unfold qdiv.
  destruct (Qeq_bool x 0) eqn:E; [|done].
  apply Qeq_bool_iff in E. contradiction.
Qed.

Lemma fold_add_kept (l : list float) (acc : float) :
  Forall kept_term l -> kept_term acc ->
  kept_term (fold_left Float.add l acc) /\
  (fold_left Float.add l acc = PInf <-> (acc = PInf \/ PInf ∈ l)).
Proof.
  intros Hl. revert acc. induction Hl as [|x l Hx Hl IH]; intros acc Hacc; simpl.
  - split; [done|]. split; [auto|]. intros [Hacc'|Hin]; [done|].
    by apply elem_of_nil in Hin.
  - assert (Hk : kept_term (Float.add acc x)).
    { destruct acc, x; simpl in *; try done. Lqa.lra. }
    destruct (IH _ Hk) as [IH1 IH2]. split; [done|].
    rewrite IH2, elem_of_cons.
    destruct acc, x; cbn [Float.add kept_term] in *; try done;
      (split; [intros [E|E]; try discriminate E; auto
              |intros [E|[E|E]]; try discriminate E; auto]).
Qed.

Lemma nanmean_shape (l : list float) :
  Forall (fun x => x = NaN \/ kept_term x) l ->
  (nanmean l = NaN /\ Forall (fun x => x = NaN) l) \/
  (nanmean l = PInf /\ PInf ∈ l) \/
  (exists q, nanmean l = Num q /\ (0 <= q) /\ (PInf ∉ l) /\ Exists kept_term l).
Proof.
  intros Hl. unfold nanmean.
  assert (Hkept : Forall kept_term (List.filter notna l)).
  { induction Hl as [|x l [->|Hx] _ IH]; simpl; [done|done|].
    destruct x; simpl in *; try done; by constructor. }
  assert (Hin : forall x, x ∈ List.filter notna l <-> x ∈ l /\ x <> NaN).
  { intros x. rewrite !list_elem_of_In, filter_In.
    unfold notna. destruct x; cbn [isnan negb];
      (split; intros [Hx Hx']; (split; [exact Hx|]); done). }
  destruct (List.filter notna l) as [|x kept] eqn:Hf.
  - left. split; [done|]. rewrite Forall_forall. intros x Hx.
    assert (Hne : x <> NaN -> False).
    { intros Hne. by apply (elem_of_nil x), Hin. }
    destruct x; try done; exfalso; by apply Hne.
  - right.
    destruct (fold_add_kept (x :: kept) (Num 0) Hkept) as [Hk Hinf]; [simpl; Lqa.lra|].
    change (fold_left Float.add (x :: kept) (Num 0)) with (Float.sum (x :: kept)) in *.
    set (n := inject_Z (Z.of_nat (length (x :: kept)))).
    assert (Hn : 0 < n).
    { unfold n. change 0 with (inject_Z 0). rewrite <- Zlt_Qlt. simpl. lia. }
    destruct (Float.sum (x :: kept)) as [q| | |] eqn:Hs; simpl in *; try done.
    + right. exists (q / n). split; [done|]. split.
      { apply Qle_shift_div_l; [done|]. Lqa.lra. }
      split.
      { intros Hp. assert (Num q = PInf); [|done].
        apply Hinf. right. apply Hin. done. }
      { apply Exists_exists. exists x. split.
        - destruct (proj1 (Hin x)) as [Hxl _]; [left|].
          exact Hxl.
        - by inversion Hkept. }
    + left. split; [done|].
      destruct (proj1 Hinf eq_refl) as [|Hp]; [done|]. by apply Hin in Hp as [? _].
Qed.

Lemma all_finite_Some (a : list Q) : all_finite (Some <$> a) = Some a.
Proof. induction a as [|x a IH]; [done|]. cbn. rewrite IH. done. Qed.

Lemma all_finite_inv (l : list obs) (a : list Q) :
  all_finite l = Some a -> l = Some <$> a.
Proof.
  revert a. induction l as [|[x|] l IH]; intros a Ha; cbn in Ha; [by inversion Ha| |done].
  destruct (all_finite l) as [a'|]; [|done]. inversion Ha; subst. cbn. by rewrite (IH a').
Qed.

Lemma check_array_inv (l : list obs) (a : list Q) :
  check_array l = inr a -> l = Some <$> a /\ a <> [].
Proof.
  unfold check_array. destruct l as [|o l]; [done|].
  destruct (all_finite (o :: l)) as [a'|] eqn:Ha; [|done].
  intros [= <-]. apply all_finite_inv in Ha. split; [done|].
  intros ->. done.
Qed.

Lemma check_array_Some (a : list Q) :
  a <> [] -> check_array (Some <$> a) = inr a.
Proof.
  intros Ha. unfold check_array. rewrite all_finite_Some.
  destruct a; done.
Qed.

Lemma check_reg_targets_inv (yt yp : list obs) (a p : list Q) :
  check_reg_targets yt yp = inr (a, p) ->
  yt = Some <$> a /\ yp = Some <$> p /\ length a = length p /\ a <> [].
Proof.
  unfold check_reg_targets.
  destruct (length yt =? length yp)%nat eqn:Hlen; [|done]. cbn.
  apply Nat.eqb_eq in Hlen.
  destruct (check_array yt) as [e|a'] eqn:Ha; [done|]. cbn.
  destruct (check_array yp) as [e|p'] eqn:Hp; [done|]. cbn.
  intros [= <- <-].
  apply check_array_inv in Ha as [-> Ha], Hp as [-> Hp].
  rewrite !length_fmap in Hlen. done.
Qed.

Lemma check_reg_targets_Some (a p : list Q) :
  a <> [] -> length a = length p ->
  check_reg_targets (Some <$> a) (Some <$> p) = inr (a, p).
Proof.
  intros Ha Hlen. unfold check_reg_targets.
  rewrite !length_fmap, Hlen, Nat.eqb_refl. cbn.
  assert (Hp : p <> []) by (intros ->; destruct a; done).
  rewrite (check_array_Some a Ha). cbn.
  rewrite (check_array_Some p Hp). done.
Qed.

Lemma length_absolute_errors (a p : list Q) :
  length a = length p -> length (absolute_errors a p) = length a.
Proof. intros Hlen. unfold absolute_errors. rewrite length_zip_with. lia. Qed.

Lemma length_squared_errors (a p : list Q) :
  length a = length p -> length (squared_errors a p) = length a.
Proof. intros Hlen. unfold squared_errors. rewrite length_zip_with. lia. Qed.

(** MAE is non-negative and its square is at most the MSE. *)
Lemma average_errors (a p : list Q) :
  a <> [] -> length a = length p ->
  0 <= average (absolute_errors a p) /\
  0 <= average (squared_errors a p) /\
  average (absolute_errors a p) * average (absolute_errors a p)
  <= average (squared_errors a p).
Proof.
  intros Ha Hlen. destruct (errors_cs a p) as (HS & HT & Hcs).
  unfold average. rewrite length_squared_errors by done.
  rewrite length_absolute_errors in * by done.
  set (n := inject_Z (Z.of_nat (length a))) in *.
  assert (Hn : 0 < n).
  { unfold n. change 0 with (inject_Z 0). rewrite <- Zlt_Qlt.
    destruct a; [done|]. simpl. lia. }
  set (S := Qsum (absolute_errors a p)) in *.
  set (T := Qsum (squared_errors a p)) in *.
  repeat split.
  - apply Qle_shift_div_l; [done|]. Lqa.lra.
  - apply Qle_shift_div_l; [done|]. Lqa.lra.
  - apply Qle_shift_div_l; [done|].
    assert (E : S / n * (S / n) * n == S * S / n) by (field; Lqa.lra).
    rewrite E. apply Qle_shift_div_r; [done|]. Lqa.lra.
Qed.

Lemma Q2R_le_sqrt (x y : Q) :
  0 <= x -> x * x <= y -> (Q2R x <= sqrt (Q2R y))%R.
Proof.
  intros Hx Hxy. apply Qle_Rle in Hx, Hxy.
  rewrite Q2R_mult in Hxy. change (Q2R 0) with (Q2R (0 # 1)) in Hx.
  assert (H0 : Q2R 0 = 0%R) by (unfold Q2R; simpl; Lra.lra).
  rewrite H0 in Hx.
  rewrite <- (sqrt_square (Q2R x)) at 1 by done.
  apply sqrt_le_1_alt. done.
Qed.

Lemma percentage_terms_shape (test predictions : list obs) :
  Forall (fun x => x = NaN \/ kept_term x) (zip_with percentage_term test predictions).
Proof.
  revert predictions.
  induction test as [|a test IH]; intros [|p predictions]; cbn; try done.
  constructor; [apply percentage_term_shape|apply IH].
Qed.

Lemma scale_100_shape (x : float) :
  (x = NaN -> scale 100 x = NaN) /\
  (x = PInf -> scale 100 x = PInf) /\
  (forall q, x = Num q -> 0 <= q -> exists q', scale 100 x = Num q' /\ 0 <= q').
Proof.
  repeat split; try (intros ->; done).
  intros q -> Hq. exists (q * 100). split; [done|]. Lqa.lra.
Qed.

(** The percentage error is NaN, +inf or a non-negative number, according
    to the terms it averages. *)
Lemma mean_absolute_percentage_shape (test predictions : list obs) :
  let terms := zip_with percentage_term test predictions in
  (mean_absolute_percentage test predictions = NaN /\ Forall (fun x => x = NaN) terms) \/
  (mean_absolute_percentage test predictions = PInf /\ PInf ∈ terms) \/
  (exists q, mean_absolute_percentage test predictions = Num q /\ (0 <= q) /\
             (PInf ∉ terms) /\ Exists kept_term terms).
Proof.
  intros terms. unfold mean_absolute_percentage. fold terms.
  destruct (nanmean_shape terms (percentage_terms_shape _ _))
    as [[-> Hall]|[[-> Hin]|(q & -> & Hq & Hnin & Hex)]].
  - left. done.
  - right. left. done.
  - right. right. exists (q * 100). cbn [scale]. repeat split; try done. Lqa.lra.
Qed.




Lemma percentage_term_NaN_iff (x y : Q) :
  percentage_term (Some x) (Some y) = NaN <-> x == 0 /\ y == 0.
Proof.
  split.
  - intros Hnan. destruct (Qeq_dec x 0) as [Hx|Hx].
    + split; [done|]. destruct (Qeq_dec y 0) as [Hy|Hy]; [done|].
      rewrite (percentage_term_zero x y Hx Hy) in Hnan. done.
    + rewrite (percentage_term_nonzero x y Hx) in Hnan. done.
  - intros [Hx Hy]. by apply percentage_term_zero_zero.
Qed.

Lemma nanmean_all_NaN (l : list float) :
  Forall (fun x => x = NaN) l -> nanmean l = NaN.
Proof.
  intros Hl. unfold nanmean.
  assert (E : List.filter notna l = []).
  { induction Hl as [|x l -> _ IH]; [done|]. simpl. exact IH. }
  by rewrite E.
Qed.

Lemma terms_all_NaN_iff (a p : list Q) :
  length a = length p ->
  Forall (fun x => x = NaN) (zip_with percentage_term (Some <$> a) (Some <$> p))
  <-> Forall2 (fun x y => x == 0 /\ y == 0) a p.
Proof.
  revert p. induction a as [|x a IH]; intros [|y p] Hlen; try done.
  cbn [fmap list_fmap zip_with]. simpl in Hlen.
    change (list_fmap Q (option Q) Some ?l) with (Some <$> l).
    rewrite Forall_cons, Forall2_cons, percentage_term_NaN_iff, IH by lia. done.
Qed.

(** The exact values.  In exact arithmetic, for two sequences of finite
    values of the same, non-zero length, 0 <= MAE <= RMSE
    (Cauchy-Schwarz), and the MAPE is a non-negative number or +inf,
    unless every actual value and its prediction are both zero; then no
    term is left to average and the MAPE is NaN.  The script computes
    roundings of these values: see [Binary64] for what it computes. *)
Lemma rmse_ge_mae (a p : list Q) (Hne : a <> []) (Hlen : length a = length p) :
  exists mae mse : Q,
    mean_absolute_error (Some <$> a) (Some <$> p) = inr mae /\
    mean_squared_error (Some <$> a) (Some <$> p) = inr mse /\
    (0 <= mae) /\ (0 <= sqrt (Q2R mse))%R /\ (Q2R mae <= sqrt (Q2R mse))%R /\
    (mean_absolute_percentage (Some <$> a) (Some <$> p) = NaN \/
     nonneg (mean_absolute_percentage (Some <$> a) (Some <$> p))) /\
    (mean_absolute_percentage (Some <$> a) (Some <$> p) = NaN
     <-> Forall2 (fun x y => x == 0 /\ y == 0) a p).
Proof.
  exists (average (absolute_errors a p)), (average (squared_errors a p)).
  unfold mean_absolute_error, mean_squared_error.
  rewrite (check_reg_targets_Some a p Hne Hlen). cbn.
  destruct (average_errors a p Hne Hlen) as (Hmae & Hmse & Hcs).
  repeat split; try done.
  - apply sqrt_pos.
  - by apply Q2R_le_sqrt.
  - destruct (mean_absolute_percentage_shape (Some <$> a) (Some <$> p))
      as [[-> _]|[[-> _]|(q & -> & Hq & _)]]; [by left|by right|].
    right. unfold nonneg. cbn. by apply Qle_bool_iff.
  - intros Hnan.
    destruct (mean_absolute_percentage_shape (Some <$> a) (Some <$> p))
      as [[_ Hall]|[[E _]|(q & E & _)]]; [|congruence|congruence].
    by apply terms_all_NaN_iff.
  - intros Hall%terms_all_NaN_iff; [|done].
    unfold mean_absolute_percentage. by rewrite nanmean_all_NaN.
Qed.


Section Script.
Context `{External}.

(** The exceptions that the evaluation script can end with. *)
Lemma evaluate_raises (test_size : Z) (monthly_sales : list (Z * obs)) (e : exn) :
  evaluate test_size monthly_sales = inl e ->
  (exists code, e = EngineError code) \/ e = IndexError \/
  e = ValueError InconsistentLength \/ e = ValueError EmptyArray \/
  e = ValueError NotFinite.
Proof.
  unfold evaluate, train_test_split, mean_absolute_error, mean_squared_error,
    check_reg_targets, check_array, engine, from_option,
    mbind, result_bind, rbind, mret, result_ret.
  repeat match goal with
  | |- inl _ = inl _ -> _ => intros Heq; inversion Heq; subst; eauto 8
  | |- inr _ = inl _ -> _ => discriminate
  | |- context [match ?x with _ => _ end] =>
      lazymatch x with
      | context [match _ with _ => _ end] => fail
      | _ => destruct x eqn:?
      end
  end.
Qed.

End Script.

Section Split.
Context `{External}.

Lemma slice_bound_negative (n : nat) (k : Z) :
  (0 < k)%Z -> slice_bound n (- k) = (n - Z.to_nat k)%nat.
Proof.
  intros Hk. unfold slice_bound.
  destruct (Z.ltb_spec (- k) 0); lia.
Qed.

(** What the script computes when it reaches the end. *)
Lemma evaluate_inr (test_size : Z) (monthly_sales : series) (m : metrics) :
  evaluate test_size monthly_sales = inr m ->
  exists (predictions : list obs) (mse : Q),
    let test := values (train_test_split test_size monthly_sales).2 in
    mean_absolute_error test predictions = inr (mae m) /\
    mean_squared_error test predictions = inr mse /\
    rmse m = sqrt (Q2R mse) /\
    mape m = mean_absolute_percentage test predictions.
Proof.
  unfold evaluate, train_test_split. cbn [snd].
  destruct (sarimax_fit _ _ _ _ _ _) as [code|results]; [done|]. cbn.
  destruct (head _) as [start|]; [|done]. cbn.
  destruct (last _) as [stop|]; [|done]. cbn.
  destruct (predict results start stop) as [code|predictions]; [done|]. cbn.
  destruct (mean_absolute_error _ _) as [e|mae0] eqn:Hmae; [done|]. cbn.
  destruct (mean_squared_error _ _) as [e|mse0] eqn:Hmse; [done|]. cbn.
  intros [= <-]. exists predictions, mse0. cbn. by rewrite Hmae, Hmse.
Qed.

(** The three metrics of a run of the script. *)
Lemma evaluate_metrics (test_size : Z) (monthly_sales : series) (m : metrics) :
  evaluate test_size monthly_sales = inr m ->
  0 <= mae m /\ (Q2R (mae m) <= rmse m)%R /\
  (mape m = NaN \/ nonneg (mape m)).
Proof.
  intros (predictions & mse & Hmae & Hmse & -> & ->)%evaluate_inr.
  cbv zeta in *. unfold mean_absolute_error, mean_squared_error in *.
  destruct (check_reg_targets _ _) as [e|[a p]] eqn:Hc; [done|].
  cbn in Hmae, Hmse. injection Hmae as <-. injection Hmse as <-.
  apply check_reg_targets_inv in Hc as (_ & _ & Hlen & Hne).
  destruct (average_errors a p Hne Hlen) as (H0 & _ & Hcs).
  split; [done|]. split; [by apply Q2R_le_sqrt|].
  destruct (mean_absolute_percentage_shape
              (values (train_test_split test_size monthly_sales).2)
              predictions)
    as [[-> _]|[[-> _]|(q & -> & Hq & _)]]; [by left|by right|].
  right. unfold nonneg. cbn. by apply Qle_bool_iff.
Qed.

(** C6, as the code has it.  For a positive holdout size the two slices
    split the series in two: the train part is all but the last
    [test_size] entries and the test part is the last [test_size] entries
    (all of them when the series is shorter).  The train part is empty
    exactly when the series is not longer than the holdout.  The script
    does not look at the length of the train part: an empty one goes to
    the estimator, whose exception, if it raises one, is what the script
    ends with; and no run ends with an insufficient-data error. *)
Theorem evaluate_split (test_size : Z) (monthly_sales : series)
        (Hsize : (0 < test_size)%Z) :
  let train := (train_test_split test_size monthly_sales).1 in
  let test := (train_test_split test_size monthly_sales).2 in
  train ++ test = monthly_sales /\
  train = take (length monthly_sales - Z.to_nat test_size) monthly_sales /\
  test = drop (length monthly_sales - Z.to_nat test_size) monthly_sales /\
  length test = Nat.min (Z.to_nat test_size) (length monthly_sales) /\
  (train = [] <-> (length monthly_sales <= Z.to_nat test_size)%nat) /\
  (train = [] ->
   forall code,
     sarimax_fit [] SARIMA_ORDER SARIMA_SEASONAL_ORDER
                 ENFORCE_STATIONARITY ENFORCE_INVERTIBILITY None = inl code ->
     evaluate test_size monthly_sales = inl (EngineError code)) /\
  (forall n, evaluate test_size monthly_sales <> inl (ValueError (InsufficientData n))).
Proof.
  cbv zeta. unfold train_test_split. cbn [fst snd].
  unfold slice_to, slice_from. rewrite slice_bound_negative by done.
  set (n := (length monthly_sales - Z.to_nat test_size)%nat).
  split; [apply take_drop|]. split; [done|]. split; [done|].
  split; [rewrite length_drop; lia|].
  split; [|split].
  - split.
    + intros Hnil. apply (f_equal length) in Hnil.
      rewrite length_take in Hnil. simpl in Hnil. lia.
    + intros Hle. replace n with 0%nat by lia. done.
  - intros Hnil code Hfit. unfold evaluate, train_test_split, slice_to.
    rewrite slice_bound_negative by done. fold n. rewrite Hnil, Hfit. done.
  - intros k Hraise. apply evaluate_raises in Hraise
      as [[code [=]]|[[=]|[[=]|[[=]|[=]]]]].
Qed.

End Split.

Lemma evaluate_split_witness :
  (train_test_split TEST_SIZE three_years).1 = constant_series 24 100 /\
  length (train_test_split TEST_SIZE three_years).2 = 12%nat.
Proof.
  destruct (@evaluate_split (lenient_engine 100) TEST_SIZE three_years eq_refl)
    as (_ & Htrain & _ & Hlen & _).
  split; [exact Htrain | exact Hlen].
Defined.

(** A year of data leaves nothing to train on; the script ends with the
    exception of the estimator, or with metrics if the estimator accepts
    an empty series. *)
Lemma evaluate_empty_train_reaches_estimator :
  (train_test_split TEST_SIZE one_year).1 = [] /\
  @model_evaluation (strict_engine 100) one_year = inl (EngineError 1) /\
  exists m, @model_evaluation (lenient_engine 100) one_year = inr m.
Proof.
  split; [reflexivity|]. split; [reflexivity|].
  eexists. reflexivity.
Qed.

(** Three years without a sale, predicted exactly: the errors are zero
    and the MAPE is NaN, which is not a non-negative number. *)
Lemma mape_of_zero_sales_is_NaN :
  exists m,
    @model_evaluation (lenient_engine 0) no_sales = inr m /\
    mae m == 0 /\ mape m = NaN /\ ~ nonneg (mape m).
Proof.
  eexists. split; [reflexivity|]. split; [reflexivity|]. split; [reflexivity|].
  unfold nonneg. cbn. discriminate.
Qed.



End EvaluationFacts.

(* ================================================================== *)
(** ** The model store, the trainer and the forecaster *)

Module StoreFacts.
Import ModelUtils Samples.

(** One step of a computation on the world. *)
Ltac run :=
  unfold try_except, mbind, M_bind, mret, M_ret, raise, sys_exit, get_world,
    modify, log_section, logger_info, log_success, log_error, lift, engine;
  cbn -[Nat.ltb truthy stamp json_dumps TrainSarima.training_metadata map_to_list].

Lemma json_dumps_lookup (d doc : gmap string pyval) (k : string) :
  json_dumps d = Some doc -> doc !! k = d !! k ≫= json_encode.
Proof.
  unfold json_dumps. case_bool_decide; [|done].
  intros [= <-]. apply lookup_omap.
Qed.

Lemma add_logs_fields (l : list (string * pyval)) (w : world) :
  let w' := fold_left (fun w kv => add_log (INFO, MetadataItem kv.1 kv.2) w) l w in
  cleaned_sales_file w' = cleaned_sales_file w /\
  sarima_model_file w' = sarima_model_file w /\
  model_metadata_file w' = model_metadata_file w /\
  forecast_output_file w' = forecast_output_file w /\
  models_dir_writable w' = models_dir_writable w /\
  processed_dir_writable w' = processed_dir_writable w /\
  now w' = now w.
Proof.
  revert w. induction l as [|kv l IH]; intros w; [done|].
  cbn. destruct (IH (add_log (INFO, MetadataItem kv.1 kv.2) w))
    as (-> & -> & -> & -> & -> & -> & ->). done.
Qed.

Section Store.
Context `{External}.

(** C10.  [save_model] always returns.  It returns [True] only for a
    handle that was pickled into the model file, with, for a non-empty
    metadata dictionary, the metadata file holding the dictionary and its
    two added entries [saved_at] and [model_file]; without metadata (None,
    or a dictionary without entry) the metadata file is left as it was.
    It returns [False] exactly when a step failed: the directory cannot be
    written, the object cannot be pickled, or the metadata has no JSON
    encoding. *)
Theorem save_model_never_raises (model : pyobj)
        (metadata : option (gmap string pyval)) (w : world) :
  exists (ok : bool) (w' : world),
    save_model model metadata w = (Returned ok, w') /\
    (ok = true ->
     exists m, model = Handle m /\
       sarima_model_file w' = Some (File (Pickle m) (pickle_size m) (now w)) /\
       if truthy metadata then
         exists doc,
           json_dumps (stamp (now w) (default ∅ metadata)) = Some doc /\
           model_metadata_file w'
           = Some (File (JsonDoc doc) (json_size doc) (now w)) /\
           doc !! "saved_at" = Some (PIsoTime (now w)) /\
           doc !! "model_file" = Some (PStr SARIMA_MODEL_FILE)
       else model_metadata_file w' = model_metadata_file w) /\
    (ok = false <->
     models_dir_writable w = false \/ model = Unpicklable \/
     (truthy metadata = true /\
      json_dumps (stamp (now w) (default ∅ metadata)) = None)).
Proof.
  unfold save_model, joblib_dump, json_dump. run.
  destruct (models_dir_writable w) eqn:Hdir; run.
  2:{ eexists _, _. split; [done|]. split; [done|]. split; auto. }
  destruct model as [m|]; run.
  2:{ eexists _, _. split; [done|]. split; [done|]. split; auto. }
  destruct (truthy metadata) eqn:Hmd; run.
  2:{ eexists _, _. split; [done|]. split.
      - intros _. exists m. done.
      - split; [done|]. intros [?|[?|[? _]]]; done. }
  rewrite Hdir. run.
  destruct (json_dumps (stamp (now w) (default ∅ metadata))) as [doc|] eqn:Hdoc; run.
  - eexists _, _. split; [done|]. split.
    + intros _. exists m. split; [done|]. split; [done|].
      exists doc. split; [done|]. split; [done|].
      rewrite !(json_dumps_lookup _ _ _ Hdoc). unfold stamp.
      rewrite lookup_insert_ne, lookup_insert_eq, lookup_insert_eq by done. done.
    + split; [done|]. intros [?|[?|[_ ?]]]; done.
  - eexists _, _. split; [done|]. split; [done|]. split; auto.
Qed.

End Store.

(** C9, as the code has it.  When the metadata file is absent or holds a
    JSON document, [get_model_info] returns and changes nothing.  The
    paths are always reported.  The existence flag, the size and the
    modification time follow the model file; the metadata follows the
    metadata file, whether or not there is a model file. *)
Theorem get_model_info_returns (w : world)
        (Hjson : forall g, model_metadata_file w = Some g -> content g <> NotJson) :
  exists info : model_info,
    get_model_info w = (Returned info, w) /\
    model_path info = SARIMA_MODEL_FILE /\
    metadata_path info = MODEL_METADATA_FILE /\
    match sarima_model_file w with
    | None => model_exists info = false /\
              model_size_mb info = None /\ model_modified info = None
    | Some f => model_exists info = true /\
                model_size_mb info
                = Some (inject_Z (Z.of_N (st_size f)) / inject_Z (1024 * 1024))%Q /\
                model_modified info = Some (st_mtime f)
    end /\
    match model_metadata_file w with
    | None => metadata_exists info = false /\ metadata info = None
    | Some g => metadata_exists info = true /\
                exists stored, content g = JsonDoc stored /\
                               metadata info = Some stored
    end.
Proof.
  unfold get_model_info, json_load. run.
  destruct (model_metadata_file w) as [g|] eqn:Hg.
  - specialize (Hjson g eq_refl).
    destruct (content g) as [stored|] eqn:Hc; [|done]. run.
    eexists. split; [done|]. cbn. split; [done|]. split; [done|].
    split; [destruct (sarima_model_file w); done|].
    split; [done|]. by exists stored.
  - run. eexists. split; [done|]. cbn. split; [done|]. split; [done|].
    split; [destruct (sarima_model_file w); done|]. done.
Qed.

Lemma get_model_info_returns_witness :
  (exists info : model_info,
      get_model_info fresh_world = (Returned info, fresh_world) /\
      model_exists info = false /\ metadata info = None) /\
  (exists info : model_info,
      get_model_info stale_world = (Returned info, stale_world) /\
      model_exists info = true /\ model_size_mb info = Some (2097152 / 1048576)%Q /\
      metadata_exists info = true).
Proof.
  split.
  - destruct (get_model_info_returns fresh_world) as (info & Hrun & _ & _ & Hm & Hd).
    + intros g Hg. discriminate Hg.
    + exists info. split; [exact Hrun|]. split; [apply Hm|apply Hd].
  - destruct (get_model_info_returns stale_world) as (info & Hrun & _ & _ & Hm & Hd).
    + intros g Hg. injection Hg as <-. discriminate.
    + exists info. split; [exact Hrun|].
      split; [apply Hm|]. split; [apply Hm|apply Hd].
Defined.

(** A metadata file that is not JSON makes [get_model_info] raise; and
    metadata is reported although the model file is absent. *)
Lemma get_model_info_raises :
  get_model_info torn_metadata_world = (Raised JSONDecodeError, torn_metadata_world) /\
  exists info,
    get_model_info orphan_metadata_world = (Returned info, orphan_metadata_world) /\
    model_exists info = false /\
    metadata info = Some two_year_metadata.
Proof.
  split; [reflexivity|]. eexists. split; [reflexivity|]. split; reflexivity.
Qed.

Section Pipelines.
Context `{External}.

(** C2, as the code has it.  The minimum of 24 months is enforced by
    the loader of the training script, and not through an error that a
    caller could catch: with fewer than 24 months in the cleaned table
    [load_monthly_sales] logs the insufficient-data error and leaves the
    interpreter with status 1, and so does [main], which has then
    neither trained nor saved anything.  With 24 months or more and an
    order for which the estimator converges, the loader returns the
    series and the script ends normally, with the fitted handle in the
    model file when the models directory can be written.  [train_sarima]
    itself has no minimum: it returns the fitted handle for a series of
    any length on which the estimator converges. *)
Theorem train_needs_24_months (w : world) (sales : series)
        (Hfile : cleaned_sales_file w = Some (Table sales)) :
  ((length sales < 24)%nat ->
   let e := ValueError (InsufficientData (length sales)) in
   TrainSarima.load_monthly_sales w
   = (Exited 1, add_log (ERROR, ErrorLoadingData e) w) /\
   TrainSarima.main w
   = (Exited 1, add_log (ERROR, ErrorLoadingData e)
                  (add_log (INFO, Banner "SARIMA MODEL TRAINING") w))) /\
  ((24 <= length sales)%nat ->
   forall results,
     sarimax_fit sales SARIMA_ORDER SARIMA_SEASONAL_ORDER
                 ENFORCE_STATIONARITY ENFORCE_INVERTIBILITY None = inr results ->
     TrainSarima.load_monthly_sales w
     = (Returned sales, add_log (INFO, LoadedMonths (length sales)) w) /\
     exists w', TrainSarima.main w = (Returned tt, w') /\
                (models_dir_writable w = true ->
                 content <$> sarima_model_file w' = Some (Pickle results))) /\
  (forall (s : series) (results : fitted) (w0 : world),
      sarimax_fit s SARIMA_ORDER SARIMA_SEASONAL_ORDER
                  ENFORCE_STATIONARITY ENFORCE_INVERTIBILITY None = inr results ->
      TrainSarima.train_sarima s w0
      = (Returned results,
         add_log (INFO, ModelTrained) (add_log (INFO, TrainingModel) w0))).
Proof.
  split; [|split].
  - intros Hshort. cbv zeta.
    assert (Hlt : (length sales <? 24)%nat = true) by by apply Nat.ltb_lt.
    split.
    + unfold TrainSarima.load_monthly_sales,
        TrainSarima.load_monthly_sales_body, read_monthly_sales.
      do 3 (run; rewrite ?Hfile, ?Hlt). done.
    + unfold TrainSarima.main, TrainSarima.load_monthly_sales,
        TrainSarima.load_monthly_sales_body, read_monthly_sales.
      do 4 (run; rewrite ?Hfile, ?Hlt). done.
  - intros Hlong results Hfit.
    assert (Hge : (length sales <? 24)%nat = false) by by apply Nat.ltb_ge.
    split.
    + unfold TrainSarima.load_monthly_sales,
        TrainSarima.load_monthly_sales_body, read_monthly_sales.
      do 3 (run; rewrite ?Hfile, ?Hge). done.
    + unfold TrainSarima.main, TrainSarima.load_monthly_sales,
        TrainSarima.load_monthly_sales_body, read_monthly_sales,
        TrainSarima.train_sarima.
      do 3 (run; rewrite ?Hfile, ?Hge). rewrite Hfit. run.
      assert (Htruthy : truthy (Some (TrainSarima.training_metadata sales results))
                        = true).
      { unfold truthy, TrainSarima.training_metadata.
        rewrite bool_decide_eq_false_2; [done|]. apply insert_non_empty. }
      unfold save_model, joblib_dump, json_dump. run.
      destruct (models_dir_writable w) eqn:Hdir; run.
      2:{ eexists. split; [reflexivity|]. done. }
      rewrite Htruthy. run. rewrite Hdir. run.
      destruct (json_dumps _); run; eexists; (split; [reflexivity|]); done.
  - intros s results w0 Hfit. unfold TrainSarima.train_sarima. run.
    rewrite Hfit. run. reflexivity.
Qed.

(** C4, as the code has it.  The forecast is made from the saved model
    without any comparison with the metadata: whatever JSON document the
    metadata file holds, the script logs it, forecasts the configured
    number of months from the loaded model and writes the forecast. *)
Theorem forecast_ignores_metadata (w : world)
        (f : file pickle_file) (model : fitted)
        (g : file json_file) (stored : gmap string pyval)
        (sales : series) (forecast : forecast_result)
        (Hmodel : sarima_model_file w = Some f)
        (Hpickle : content f = Pickle model)
        (Hmeta : model_metadata_file w = Some g)
        (Hjson : content g = JsonDoc stored)
        (Hsales : cleaned_sales_file w = Some (Table sales))
        (Hforecast : get_forecast model FORECAST_HORIZON = inr forecast)
        (Hout : processed_dir_writable w = true) :
  exists w',
    Forecast.main w = (Returned tt, w') /\
    forecast_output_file w' = Some (predicted_mean forecast) /\
    sarima_model_file w' = sarima_model_file w /\
    model_metadata_file w' = model_metadata_file w.
Proof.
  unfold Forecast.main, get_model_info, load_model, Forecast.load_monthly_sales,
    read_monthly_sales, Forecast.forecast_next, Forecast.to_csv,
    json_load, joblib_load.
  do 4 (run; rewrite ?Hmeta, ?Hjson, ?Hmodel, ?Hpickle).
  destruct (add_logs_fields (map_to_list stored)
              (add_log (INFO, MetadataHeader)
                 (add_log (INFO, ModelLoaded)
                    (add_log (INFO, FoundSavedModel)
                       (add_log (INFO, Banner "SALES FORECASTING") w)))))
    as (Hs & Hm & Hd & _ & _ & Hp & _).
  cbv zeta in Hs, Hm, Hd, Hp. cbn [cleaned_sales_file sarima_model_file
    model_metadata_file processed_dir_writable add_log] in Hs, Hm, Hd, Hp.
  rewrite Hsales in Hs.
  rewrite Hs. run. rewrite Hs. run.
  unfold default. rewrite Hforecast. run. rewrite Hp, Hout. run.
  eexists. split; [reflexivity|].
  cbn [forecast_output_file sarima_model_file model_metadata_file
       set_forecast_file add_log].
  rewrite Hm, Hd. done.
Qed.

End Pipelines.

Lemma train_needs_24_months_witness :
  (@TrainSarima.main (lenient_engine 100)
     (with_sales (constant_series 23 100) fresh_world)).1 = Exited 1 /\
  exists w',
    @TrainSarima.main (lenient_engine 100)
      (with_sales (constant_series 24 100) fresh_world) = (Returned tt, w').
Proof.
  split.
  - destruct (@train_needs_24_months (lenient_engine 100)
                (with_sales (constant_series 23 100) fresh_world)
                (constant_series 23 100) eq_refl) as [Hshort _].
    destruct Hshort as (_ & ->); [vm_compute; lia|reflexivity].
  - destruct (@train_needs_24_months (lenient_engine 100)
                (with_sales (constant_series 24 100) fresh_world)
                (constant_series 24 100) eq_refl) as (_ & Hlong & _).
    destruct (Hlong ltac:(vm_compute; lia) _ eq_refl) as (_ & w' & Hmain & _).
    exists w'. exact Hmain.
Defined.

(** Twenty-three months of sales.  [train_sarima] trains on them and
    returns the fitted handle; the loader of the script raises nothing
    that a caller could catch, it leaves the interpreter with status 1. *)
Lemma train_sarima_has_no_minimum :
  length (constant_series 23 100) = 23%nat /\
  (exists w',
      @TrainSarima.train_sarima (lenient_engine 100)
        (constant_series 23 100) fresh_world
      = (Returned (flat_model (constant_series 23 100) 100 (Num 10) (Num 12)), w')) /\
  (forall e w',
      TrainSarima.load_monthly_sales
        (with_sales (constant_series 23 100) fresh_world) <> (Raised e, w')) /\
  (TrainSarima.load_monthly_sales
     (with_sales (constant_series 23 100) fresh_world)).1 = Exited 1.
Proof.
  split; [reflexivity|]. split; [eexists; reflexivity|].
  split; [|reflexivity].
  intros e w' Hraise. apply (f_equal fst) in Hraise.
  vm_compute in Hraise. discriminate Hraise.
Qed.

Lemma forecast_ignores_metadata_witness :
  exists w',
    @Forecast.main (lenient_engine 100) stale_world = (Returned tt, w') /\
    length <$> forecast_output_file w' = Some 12%nat.
Proof.
  destruct (@forecast_ignores_metadata (lenient_engine 100) stale_world
              _ _ _ _ _ _ eq_refl eq_refl eq_refl eq_refl eq_refl eq_refl eq_refl)
    as (w' & Hmain & Hout & _).
  exists w'. split; [exact Hmain|]. rewrite Hout. reflexivity.
Defined.

(** The saved model was fitted on three years, the metadata tells of two:
    the forecast is made all the same, for the twelve months that follow
    the model's series. *)
Lemma forecast_of_stale_model :
  exists (f : file pickle_file) (model : fitted) (g : file json_file)
         (stored : gmap string pyval) (w' : world),
    sarima_model_file stale_world = Some f /\ content f = Pickle model /\
    model_metadata_file stale_world = Some g /\ content g = JsonDoc stored /\
    stale model stored /\
    @Forecast.main (lenient_engine 100) stale_world = (Returned tt, w') /\
    index <$> forecast_output_file w' = Some (py_range 37 49).
Proof.
  eexists _, _, _, _, _.
  split; [reflexivity|]. split; [reflexivity|].
  split; [reflexivity|]. split; [reflexivity|].
  split.
  - exists (Some 1), (Some 24). split; [reflexivity|].
    intros Heq. vm_compute in Heq. discriminate Heq.
  - split; [vm_compute; reflexivity|]. vm_compute. reflexivity.
Qed.

(** The fallback of the forecasting script is another road to a fit, and
    it has no minimum length: with one year of sales and no saved model it
    trains and forecasts. *)
Lemma forecast_fallback_trains_short_series :
  exists w',
    @Forecast.main (lenient_engine 100) (with_sales one_year fresh_world)
    = (Returned tt, w') /\
    (INFO, ModelTrained) ∈ log w' /\
    index <$> forecast_output_file w' = Some (py_range 13 25).
Proof.
  eexists. split; [vm_compute; reflexivity|].
  split; [|vm_compute; reflexivity].
  apply list_elem_of_In. vm_compute. tauto.
Qed.

End StoreFacts.

(* ================================================================== *)
(** ** Further properties of the model store *)

Module StoreMore.
Import ModelUtils Samples Fixtures.

Ltac run :=
  unfold try_except, mbind, M_bind, mret, M_ret, raise, sys_exit, get_world,
    modify, log_section, logger_info, log_success, log_error, lift, engine;
  cbn -[Nat.ltb truthy stamp json_dumps TrainSarima.training_metadata map_to_list].

(** A dictionary whose values all have a JSON encoding is written. *)
Lemma json_dumps_encodable (d : gmap string pyval) :
  map_Forall (fun _ v => is_Some (json_encode v)) d ->
  json_dumps d = Some (omap json_encode d).
Proof. intros Hd. unfold json_dumps. by rewrite bool_decide_eq_true_2. Qed.

Ltac encodable :=
  repeat (apply map_Forall_insert_2; [by eexists|]); apply map_Forall_empty.

Section Saving.
Context `{External}.

(** The world after a save that went through, with metadata. *)
Lemma save_model_with_metadata (m : fitted) (d doc : gmap string pyval) (w : world) :
  models_dir_writable w = true ->
  d <> ∅ ->
  json_dumps (stamp (now w) d) = Some doc ->
  save_model (Handle m) (Some d) w
  = (Returned true,
     add_log (INFO, MetadataSaved)
       (set_metadata_file (Some (File (JsonDoc doc) (json_size doc) (now w)))
          (add_log (INFO, ModelSaved)
             (set_model_file (Some (File (Pickle m) (pickle_size m) (now w))) w)))).
Proof.
  intros Hdir Hd Hdoc.
  assert (Htruthy : truthy (Some d) = true).
  { unfold truthy. by rewrite bool_decide_eq_false_2. }
  unfold save_model, joblib_dump, json_dump. run. rewrite Hdir. run.
  rewrite Htruthy. run. rewrite Hdir. run. rewrite Hdoc. run. done.
Qed.

(** The world after a save that went through, without metadata. *)
Lemma save_model_without_metadata (m : fitted)
      (metadata : option (gmap string pyval)) (w : world) :
  models_dir_writable w = true ->
  truthy metadata = false ->
  save_model (Handle m) metadata w
  = (Returned true,
     add_log (INFO, ModelSaved)
       (set_model_file (Some (File (Pickle m) (pickle_size m) (now w))) w)).
Proof.
  intros Hdir Hmd.
  unfold save_model, joblib_dump, json_dump. run. rewrite Hdir. run.
  rewrite Hmd. run. done.
Qed.

End Saving.

(** *** Computations that leave the store alone *)

Lemma same_store_refl (w : world) : same_store w w.
Proof. by repeat split. Qed.

Lemma same_store_trans (w1 w2 w3 : world) :
  same_store w1 w2 -> same_store w2 w3 -> same_store w1 w3.
Proof.
  intros (H1 & H2 & H3 & H4 & H5 & H6) (K1 & K2 & K3 & K4 & K5 & K6).
  unfold same_store. by rewrite K1, K2, K3, K4, K5, K6.
Qed.

Lemma same_store_add_log (entry : level * text) (w : world) :
  same_store w (add_log entry w).
Proof. by repeat split. Qed.

Lemma same_store_forecast_file (f : option (list (Z * obs))) (w : world) :
  same_store w (set_forecast_file f w).
Proof. by repeat split. Qed.

Lemma tidy_ret {A} (a : A) : tidy (mret a).
Proof. intros w. split; [apply same_store_refl|]. intros n [=]. Qed.

Lemma tidy_raise {A} (e : exn) : tidy (@raise A e).
Proof. intros w. split; [apply same_store_refl|]. intros n [=]. Qed.

Lemma tidy_exit {A} : tidy (@sys_exit A 1).
Proof. intros w. split; [apply same_store_refl|]. by intros n [= <-]. Qed.

Lemma tidy_lift {A} (r : result A) : tidy (lift r).
Proof. destruct r; [apply tidy_raise|apply tidy_ret]. Qed.

Lemma tidy_log (entry : level * text) : tidy (modify (add_log entry)).
Proof. intros w. split; [apply same_store_add_log|]. intros n [=]. Qed.

Lemma tidy_bind {A B} (c : M A) (k : A -> M B) :
  tidy c -> (forall a, tidy (k a)) -> tidy (c ≫= k).
Proof.
  intros Hc Hk w. unfold mbind, M_bind.
  destruct (Hc w) as [Hs He]. destruct (c w) as [[a|e|n] w']; cbn in *.
  - destruct (Hk a w') as [Hs' He']. split; [by eapply same_store_trans|done].
  - split; [done|]. intros n [=].
  - split; [done|]. intros k' [= <-]. by apply He.
Qed.

Lemma tidy_get (A : Type) (k : world -> M A) :
  (forall w, tidy (k w)) -> tidy (get_world ≫= k).
Proof. intros Hk. apply tidy_bind; [|done]. intros w. split; [apply same_store_refl|]. intros n [=]. Qed.

Lemma tidy_try {A} (c : M A) (handler : exn -> M A) :
  tidy c -> (forall e, tidy (handler e)) -> tidy (try_except c handler).
Proof.
  intros Hc Hh w. unfold try_except.
  destruct (Hc w) as [Hs He]. destruct (c w) as [[a|e|n] w']; cbn in *.
  - split; [done|]. intros n [=].
  - destruct (Hh e w') as [Hs' He']. split; [by eapply same_store_trans|done].
  - split; [done|]. intros k' [= <-]. by apply He.
Qed.

Lemma guarded_outcome {A} (c : M A) (t : exn -> text) :
  tidy c ->
  forall w,
    ((exists a, (try_except c (fun e => log_error (t e);; sys_exit 1) w).1
                = Returned a) \/
     (try_except c (fun e => log_error (t e);; sys_exit 1) w).1 = Exited 1) /\
    same_store w (try_except c (fun e => log_error (t e);; sys_exit 1) w).2.
Proof.
  intros Hc w. unfold try_except.
  destruct (Hc w) as [Hs He]. destruct (c w) as [[a|e|n] w']; cbn in *.
  - split; [left; by exists a|done].
  - split; [by right|].
    eapply same_store_trans; [exact Hs|apply same_store_add_log].
  - split; [|done]. right. by rewrite (He n eq_refl).
Qed.

(** Membership in a log that was built by appending entries. *)
Ltac in_log :=
  repeat first
    [ apply list_elem_of_singleton; reflexivity
    | apply elem_of_app; right; apply list_elem_of_singleton; reflexivity
    | apply elem_of_app; left ].

Ltac tidy_step :=
  lazymatch goal with
  | |- tidy (mret _) => apply tidy_ret
  | |- tidy (raise _) => apply tidy_raise
  | |- tidy (sys_exit 1) => apply tidy_exit
  | |- tidy (lift _) => apply tidy_lift
  | |- tidy (modify (add_log _)) => apply tidy_log
  | |- tidy (try_except _ _) => apply tidy_try; [|intros ?]
  | |- tidy (get_world ≫= _) => apply tidy_get; intros ?
  | |- tidy (_ ≫= _) => apply tidy_bind; [|intros ?]
  | |- tidy (match ?x with _ => _ end) => destruct x
  end.

Ltac tidy := repeat tidy_step.

Lemma tidy_read_monthly_sales : tidy read_monthly_sales.
Proof. unfold read_monthly_sales. tidy. Qed.

Lemma tidy_get_model_info : tidy get_model_info.
Proof. unfold get_model_info, json_load. tidy. Qed.

Lemma tidy_load_monthly_sales : tidy Forecast.load_monthly_sales.
Proof.
  unfold Forecast.load_monthly_sales, log_success, log_error.
  tidy; try apply tidy_read_monthly_sales.
Qed.

Lemma tidy_load_model (check_metadata : bool) : tidy (load_model check_metadata).
Proof.
  unfold load_model, joblib_load, json_load, log_success, log_error, logger_info.
  tidy.
  intros w0. split; [|intros n [=]]. cbn.
  match goal with
  | |- same_store _ (fold_left _ ?l _) =>
      destruct (StoreFacts.add_logs_fields l w0)
        as (H1 & H2 & H3 & _ & H5 & H6 & H7)
  end.
  by repeat split.
Qed.

Lemma tidy_set_forecast (f : option (list (Z * obs))) :
  tidy (modify (set_forecast_file f)).
Proof. intros w. split; [apply same_store_forecast_file|]. intros n [=]. Qed.

(** *** [load_model] *)

Lemma load_model_plain (check_metadata : bool) (w : world)
      (f : file pickle_file) (m : fitted) :
  sarima_model_file w = Some f -> content f = Pickle m ->
  check_metadata = false \/ model_metadata_file w = None ->
  load_model check_metadata w = (Returned m, add_log (INFO, ModelLoaded) w).
Proof.
  intros Hf Hc Hcheck. unfold load_model, joblib_load, json_load. run.
  rewrite Hf. run. rewrite Hc. run.
  destruct Hcheck as [->|Hg]; run; [done|].
  rewrite Hg. by destruct check_metadata.
Qed.

Lemma load_model_shown (w : world) (f : file pickle_file) (m : fitted)
      (g : file json_file) (stored : gmap string pyval) :
  sarima_model_file w = Some f -> content f = Pickle m ->
  model_metadata_file w = Some g -> content g = JsonDoc stored ->
  load_model true w
  = (Returned m,
     fold_left (fun w kv => add_log (INFO, MetadataItem kv.1 kv.2) w)
       (map_to_list stored)
       (add_log (INFO, MetadataHeader) (add_log (INFO, ModelLoaded) w))).
Proof.
  intros Hf Hc Hg Hj. unfold load_model, joblib_load, json_load. run.
  rewrite Hf. run. rewrite Hc. run. rewrite Hg. run. rewrite Hj. run. done.
Qed.

Lemma same_store_add_logs (l : list (string * pyval)) (w : world) :
  same_store w
    (fold_left (fun w kv => add_log (INFO, MetadataItem kv.1 kv.2) w) l w).
Proof.
  destruct (StoreFacts.add_logs_fields l w) as (H1 & H2 & H3 & _ & H5 & H6 & H7).
  by repeat split.
Qed.

(** X1.  [load_model] returns a model exactly when the model file is a
    complete pickle of it and, if the metadata is to be shown, the
    metadata file is absent or holds a JSON object.  Without a model file it raises
    [FileNotFoundError]; a file that is not a complete pickle, or (with
    [check_metadata]) a metadata file that is not JSON, makes it raise as
    well.  Every failure is logged once as an error before it is raised
    again, and nothing but the log changes. *)
Theorem load_model_returns_iff (check_metadata : bool) (w : world) :
  (forall m,
      (exists w', load_model check_metadata w = (Returned m, w')) <->
      (exists f, sarima_model_file w = Some f /\ content f = Pickle m) /\
      (check_metadata = true ->
       forall g, model_metadata_file w = Some g -> content g <> NotJson)) /\
  (sarima_model_file w = None ->
   let e := FileNotFoundError SARIMA_MODEL_FILE in
   load_model check_metadata w = (Raised e, add_log (ERROR, StrOf e) w)) /\
  (forall f, sarima_model_file w = Some f -> content f = TornPickle ->
   load_model check_metadata w
   = (Raised UnpicklingError,
      add_log (ERROR, FailedToLoadModel UnpicklingError) w)) /\
  (forall f m g,
      sarima_model_file w = Some f -> content f = Pickle m ->
      check_metadata = true ->
      model_metadata_file w = Some g -> content g = NotJson ->
      load_model check_metadata w
      = (Raised JSONDecodeError,
         add_log (ERROR, FailedToLoadModel JSONDecodeError)
           (add_log (INFO, ModelLoaded) w))) /\
  same_store w (load_model check_metadata w).2.
Proof.
  split; [|split; [|split; [|split]]].
  - intros m. unfold load_model, joblib_load, json_load. run.
    destruct (sarima_model_file w) as [[[m'|] sz mt]|] eqn:Hf; run.
    + destruct check_metadata; run.
      * destruct (model_metadata_file w) as [[[d|] sz' mt']|] eqn:Hg; run.
        -- split.
           ++ intros [w' [= <- _]]. split; [by eexists|]. by intros _ g [= <-].
           ++ intros [(f & [= <-] & [= <-]) _]. by eexists.
        -- split.
           ++ intros [w' [=]].
           ++ intros [_ Hg']. by destruct (Hg' eq_refl _ eq_refl).
        -- split.
           ++ intros [w' [= <- _]]. split; [by eexists|]. by intros _ g [=].
           ++ intros [(f & [= <-] & [= <-]) _]. by eexists.
      * split.
        -- intros [w' [= <- _]]. split; [by eexists|]. by intros [=].
        -- intros [(f & [= <-] & [= <-]) _]. by eexists.
    + split.
      * intros [w' [=]].
      * intros [(f & [= <-] & [=]) _].
    + split.
      * intros [w' [=]].
      * intros [(f & [=] & _) _].
  - intros Hf. unfold load_model. run. rewrite Hf. run. done.
  - intros f Hf Hc. unfold load_model, joblib_load. run. rewrite Hf. run.
    rewrite Hc. run. done.
  - intros f m g Hf Hc -> Hg Hj. unfold load_model, joblib_load, json_load. run.
    rewrite Hf. run. rewrite Hc. run. rewrite Hg. run. rewrite Hj. run. done.
  - apply tidy_load_model.
Qed.

Lemma load_model_returns_iff_witness :
  load_model true orphan_metadata_world
  = (Raised (FileNotFoundError SARIMA_MODEL_FILE),
     add_log (ERROR, StrOf (FileNotFoundError SARIMA_MODEL_FILE))
       orphan_metadata_world).
Proof.
  exact (proj1 (proj2 (load_model_returns_iff true orphan_metadata_world)) eq_refl).
Defined.

Section RoundTrip.
Context `{External}.

(** X2.  What [save_model] wrote, [load_model] reads back: after a save
    into a writable directory, of a handle with metadata that JSON can
    encode (or without metadata), [load_model] returns the very handle
    that was saved.  With [check_metadata] and no new metadata written, an
    old metadata file must not be broken. *)
Theorem save_then_load (m : fitted) (metadata : option (gmap string pyval))
        (check_metadata : bool) (w : world)
        (Hdir : models_dir_writable w = true)
        (Hjson : truthy metadata = true ->
                 is_Some (json_dumps (stamp (now w) (default ∅ metadata))))
        (Hold : truthy metadata = false -> check_metadata = true ->
                forall g, model_metadata_file w = Some g -> content g <> NotJson) :
  exists w1 w2,
    save_model (Handle m) metadata w = (Returned true, w1) /\
    load_model check_metadata w1 = (Returned m, w2) /\
    same_store w1 w2.
Proof.
  destruct (truthy metadata) eqn:Hmd.
  - destruct (Hjson eq_refl) as [doc Hdoc].
    destruct metadata as [d|]; [|discriminate Hmd].
    change (default ∅ (Some d)) with d in Hdoc.
    assert (Hd : d <> ∅).
    { intros ->. unfold truthy in Hmd.
      rewrite bool_decide_eq_true_2 in Hmd by done. discriminate Hmd. }
    rewrite (save_model_with_metadata m d doc w Hdir Hd Hdoc).
    destruct check_metadata.
    + eexists _, _. split; [done|].
      erewrite load_model_shown; [|done..].
      split; [done|].
      eapply same_store_trans; [|apply same_store_add_logs].
      eapply same_store_trans; apply same_store_add_log.
    + eexists _, _. split; [done|].
      erewrite load_model_plain; [|done|done|by left].
      split; [done|]. apply same_store_add_log.
  - rewrite (save_model_without_metadata m metadata w Hdir Hmd).
    destruct check_metadata.
    + destruct (model_metadata_file w) as [[[stored|] sz mt]|] eqn:Hg.
      * eexists _, _. split; [done|].
        erewrite load_model_shown; [|done..].
        split; [done|].
        eapply same_store_trans; [|apply same_store_add_logs].
        eapply same_store_trans; apply same_store_add_log.
      * by destruct (Hold eq_refl eq_refl _ eq_refl).
      * eexists _, _. split; [done|].
        erewrite load_model_plain; [|done|done|by right].
        split; [done|]. apply same_store_add_log.
    + eexists _, _. split; [done|].
      erewrite load_model_plain; [|done|done|by left].
      split; [done|]. apply same_store_add_log.
Qed.

(** X3.  After a save with metadata, [get_model_info] reports the model
    file as existing, with its size and the time of the save, and gives
    the metadata back: every entry that was passed, a tuple read back as
    a list, and the two entries [saved_at] and [model_file] that the save
    added (which replace entries of these names). *)
Theorem save_then_info (m : fitted) (d doc : gmap string pyval) (w : world)
        (Hdir : models_dir_writable w = true)
        (Hd : d <> ∅)
        (Hdoc : json_dumps (stamp (now w) d) = Some doc) :
  exists w1 info,
    save_model (Handle m) (Some d) w = (Returned true, w1) /\
    get_model_info w1 = (Returned info, w1) /\
    model_exists info = true /\
    model_size_mb info
    = Some (inject_Z (Z.of_N (pickle_size m)) / inject_Z (1024 * 1024))%Q /\
    model_modified info = Some (now w) /\
    metadata info = Some doc /\
    doc !! "saved_at" = Some (PIsoTime (now w)) /\
    doc !! "model_file" = Some (PStr SARIMA_MODEL_FILE) /\
    forall k, k <> "saved_at" -> k <> "model_file" ->
              doc !! k = d !! k ≫= json_encode.
Proof.
  rewrite (save_model_with_metadata m d doc w Hdir Hd Hdoc).
  eexists _, _. split; [done|].
  unfold get_model_info, json_load. run.
  split; [done|]. cbn. do 4 (split; [done|]).
  split; [|split].
  - rewrite (StoreFacts.json_dumps_lookup _ _ _ Hdoc). unfold stamp.
    by rewrite lookup_insert_ne, lookup_insert_eq.
  - rewrite (StoreFacts.json_dumps_lookup _ _ _ Hdoc). unfold stamp.
    by rewrite lookup_insert_eq.
  - intros k Hk1 Hk2.
    rewrite (StoreFacts.json_dumps_lookup _ _ _ Hdoc). unfold stamp.
    by rewrite !lookup_insert_ne.
Qed.

Lemma json_dumps_refuses (d : gmap string pyval) (k : string) (id : nat) :
  d !! k = Some (PObject id) -> json_dumps d = None.
Proof.
  intros Hk. unfold json_dumps. rewrite bool_decide_eq_false_2; [done|].
  intros Hall. specialize (Hall k _ Hk). by destruct Hall.
Qed.

(** X4.  A save does not roll back.  When an entry of the metadata has no
    JSON encoding, [save_model] returns [False], but the model file
    already holds the new model and the metadata file is left as text
    that is not JSON: [get_model_info] then raises, and a forecast run
    ends with status 1 although the model itself loads. *)
Theorem save_model_partial_write (m : fitted) (d : gmap string pyval)
        (k : string) (id : nat) (w : world)
        (Hdir : models_dir_writable w = true)
        (Hbad : d !! k = Some (PObject id))
        (Hk1 : k <> "saved_at") (Hk2 : k <> "model_file") :
  exists w1,
    save_model (Handle m) (Some d) w = (Returned false, w1) /\
    sarima_model_file w1 = Some (File (Pickle m) (pickle_size m) (now w)) /\
    content <$> model_metadata_file w1 = Some NotJson /\
    get_model_info w1 = (Raised JSONDecodeError, w1) /\
    (exists w2, load_model false w1 = (Returned m, w2)) /\
    (Forecast.main w1).1 = Exited 1.
Proof.
  assert (Hd : d <> ∅).
  { intros ->. by rewrite lookup_empty in Hbad. }
  assert (Htruthy : truthy (Some d) = true).
  { unfold truthy. by rewrite bool_decide_eq_false_2. }
  assert (Hnone : json_dumps (stamp (now w) d) = None).
  { apply (json_dumps_refuses _ k id). unfold stamp.
    by rewrite !lookup_insert_ne. }
  unfold save_model, joblib_dump, json_dump. run. rewrite Hdir. run.
  rewrite Htruthy. run. rewrite Hdir. run. rewrite Hnone. run.
  eexists. split; [done|]. cbn. split; [done|]. split; [done|].
  split; [done|]. split.
  - eexists. by eapply load_model_plain; [done|done|left].
  - unfold Forecast.main, get_model_info, json_load. run. done.
Qed.

End RoundTrip.

Lemma save_then_load_witness :
  exists w1 w2,
    @save_model (lenient_engine 100) (Handle three_year_model)
      (Some two_year_metadata) fresh_world = (Returned true, w1) /\
    load_model true w1 = (Returned three_year_model, w2) /\
    same_store w1 w2.
Proof.
  apply (@save_then_load (lenient_engine 100) three_year_model
           (Some two_year_metadata) true fresh_world).
  - reflexivity.
  - intros _. rewrite json_dumps_encodable; [by eexists|].
    unfold stamp, two_year_metadata. cbn [default]. encodable.
  - intros Hf. unfold truthy, two_year_metadata in Hf.
    rewrite bool_decide_eq_false_2 in Hf by apply insert_non_empty.
    discriminate Hf.
Defined.

Lemma save_then_info_witness :
  exists w1 info,
    @save_model (lenient_engine 100) (Handle three_year_model)
      (Some two_year_metadata) fresh_world = (Returned true, w1) /\
    get_model_info w1 = (Returned info, w1) /\
    model_exists info = true /\
    model_size_mb info = Some (2097152 / 1048576)%Q /\
    model_modified info = Some 1700000000 /\
    (metadata info ≫= lookup "n_observations") = Some (PInt 24).
Proof.
  destruct (@save_then_info (lenient_engine 100) three_year_model
              two_year_metadata
              (omap json_encode (stamp (now fresh_world) two_year_metadata))
              fresh_world)
    as (w1 & info & Hsave & Hinfo & Hex & Hsize & Hmod & Hmeta & _ & _ & Hkeys).
  - reflexivity.
  - apply insert_non_empty.
  - apply json_dumps_encodable.
    unfold stamp, two_year_metadata. encodable.
  - exists w1, info. split; [exact Hsave|]. split; [exact Hinfo|].
    split; [exact Hex|]. split; [exact Hsize|]. split; [exact Hmod|].
    rewrite Hmeta. cbn [mbind option_bind].
    rewrite (Hkeys "n_observations") by discriminate.
    unfold two_year_metadata.
    rewrite lookup_insert_ne, lookup_insert_eq by discriminate. reflexivity.
Defined.

Lemma save_model_partial_write_witness :
  exists w1,
    @save_model (lenient_engine 100) (Handle three_year_model)
      (Some metadata_with_object) fresh_world = (Returned false, w1) /\
    content <$> model_metadata_file w1 = Some NotJson /\
    (@Forecast.main (lenient_engine 100) w1).1 = Exited 1.
Proof.
  destruct (@save_model_partial_write (lenient_engine 100) three_year_model
              metadata_with_object "summary" 0%nat fresh_world)
    as (w1 & Hsave & _ & Hmeta & _ & _ & Hmain).
  - reflexivity.
  - unfold metadata_with_object. apply lookup_insert_eq.
  - intros Hk. discriminate Hk.
  - intros Hk. discriminate Hk.
  - exists w1. split; [exact Hsave|]. split; [exact Hmeta|exact Hmain].
Defined.

(* ================================================================== *)
(** ** Further properties of the forecasting script *)

Section Forecasting.
Context `{External}.

Lemma tidy_forecast_body :
  tidy (log_section "SALES FORECASTING";;
        model_info ← get_model_info;
        model ← (if model_exists model_info then
                   logger_info FoundSavedModel;;
                   load_model true
                 else
                   logger_info NoSavedModel;;
                   sales ← Forecast.load_monthly_sales;
                   model ← Forecast.train_model sales;
                   log_success ModelTrained;;
                   mret model);
        sales ← Forecast.load_monthly_sales;
        logger_info GeneratingForecast;;
        '(forecast, conf_int) ← Forecast.forecast_next model None;
        log_success ForecastGenerated;;
        Forecast.to_csv forecast;;
        log_success ForecastSaved;;
        logger_info (ForecastSummary forecast);;
        log_section "FORECASTING COMPLETED").
Proof.
  apply tidy_bind; [apply tidy_log|intros _].
  apply tidy_bind; [apply tidy_get_model_info|intros info].
  apply tidy_bind.
  { destruct (model_exists info).
    - apply tidy_bind; [apply tidy_log|intros _]. apply tidy_load_model.
    - apply tidy_bind; [apply tidy_log|intros _].
      apply tidy_bind; [apply tidy_load_monthly_sales|intros sales].
      unfold Forecast.train_model, logger_info, log_success. tidy. }
  intros model.
  apply tidy_bind; [apply tidy_load_monthly_sales|intros sales].
  apply tidy_bind; [apply tidy_log|intros _].
  apply tidy_bind.
  { unfold Forecast.forecast_next. cbv zeta. tidy. }
  intros [forecast conf].
  apply tidy_bind; [apply tidy_log|intros _].
  apply tidy_bind.
  { unfold Forecast.to_csv. apply tidy_get. intros w.
    destruct (processed_dir_writable w);
      [apply tidy_set_forecast|apply tidy_raise]. }
  intros _. unfold log_section, log_success, logger_info. tidy.
Qed.

(** X5.  A forecast run never writes to the model store and never lets an
    exception out: whatever the state of the files, it ends normally or
    with exit status 1, and the sales table, the model file and the
    metadata file are as before.  In particular the model that the
    fallback trains is not saved. *)
Theorem forecast_main_keeps_store (w : world) :
  ((Forecast.main w).1 = Returned tt \/ (Forecast.main w).1 = Exited 1) /\
  same_store w (Forecast.main w).2.
Proof.
  destruct (guarded_outcome _ ForecastingFailed tidy_forecast_body w)
    as [[[[] Hr]|Hx] Hs]; (split; [|exact Hs]); [by left|by right].
Qed.

(** X6.  The sales table is needed even when a model is saved: without a
    readable table every forecast run ends with exit status 1 and writes
    no forecast. *)
Theorem forecast_needs_sales_table (w : world)
        (Hsales : cleaned_sales_file w = None
                  \/ cleaned_sales_file w = Some BadTable) :
  (Forecast.main w).1 = Exited 1 /\
  forecast_output_file (Forecast.main w).2 = forecast_output_file w.
Proof.
  destruct w as [cs mf md ff mw pw nw lg]. cbn in Hsales.
  unfold Forecast.main, get_model_info, load_model, Forecast.load_monthly_sales,
    read_monthly_sales, Forecast.forecast_next, Forecast.to_csv,
    Forecast.train_model, json_load, joblib_load.
  destruct Hsales as [->| ->];
    destruct mf as [[[m|] sz mt]|]; destruct md as [[[d|] sz' mt']|];
    run; try done.
  all: match goal with
       | |- context [fold_left ?f ?l ?w0] =>
           destruct (StoreFacts.add_logs_fields l w0)
             as (Hs & _ & _ & Hf & _ & _ & _);
           cbv zeta in Hs, Hf; cbn in Hs, Hf;
           destruct (fold_left f l w0) as [cs' mf' md' ff' mw' pw' nw' lg'];
           cbn in Hs, Hf; subst cs' ff'; run; done
       end.
Qed.

(** X7.  A metadata file that is not JSON blocks forecasting, also when
    the model file is sound: the run ends with exit status 1 right after
    its banner, with the decoding error in the log, and without a
    forecast. *)
Theorem forecast_blocked_by_broken_metadata (w : world) (g : file json_file)
        (Hmeta : model_metadata_file w = Some g) (Hjson : content g = NotJson) :
  Forecast.main w
  = (Exited 1,
     add_log (ERROR, ForecastingFailed JSONDecodeError)
       (add_log (INFO, Banner "SALES FORECASTING") w)).
Proof.
  unfold Forecast.main, get_model_info, json_load. run.
  rewrite Hmeta. run. rewrite Hjson. run. done.
Qed.

(** X8.  Without a saved model the forecast script trains on the whole
    sales series, whatever its length, forecasts from that fit and writes
    the forecast. *)
Theorem forecast_fallback_trains (w : world) (sales : list (Z * obs))
        (model : fitted) (forecast : forecast_result)
        (Hmodel : sarima_model_file w = None)
        (Hmeta : forall g, model_metadata_file w = Some g -> content g <> NotJson)
        (Hsales : cleaned_sales_file w = Some (Table sales))
        (Hfit : sarimax_fit sales SARIMA_ORDER SARIMA_SEASONAL_ORDER
                            ENFORCE_STATIONARITY ENFORCE_INVERTIBILITY None
                = inr model)
        (Hforecast : get_forecast model FORECAST_HORIZON = inr forecast)
        (Hout : processed_dir_writable w = true) :
  exists w',
    Forecast.main w = (Returned tt, w') /\
    forecast_output_file w' = Some (predicted_mean forecast) /\
    (INFO, TrainingNewModel) ∈ log w' /\
    sarima_model_file w' = None.
Proof.
  destruct w as [cs mf md ff mw pw nw lg]. cbn in *. subst cs mf pw.
  unfold Forecast.main, get_model_info, load_model, Forecast.load_monthly_sales,
    read_monthly_sales, Forecast.forecast_next, Forecast.to_csv,
    Forecast.train_model, json_load, joblib_load.
  destruct md as [[[d|] sz' mt']|]; run.
  - rewrite Hfit. run. unfold default. rewrite Hforecast. run.
    eexists. split; [done|]. cbn. split; [done|]. split; [|done].
    in_log.
  - by destruct (Hmeta _ eq_refl).
  - rewrite Hfit. run. unfold default. rewrite Hforecast. run.
    eexists. split; [done|]. cbn. split; [done|]. split; [|done].
    in_log.
Qed.

End Forecasting.

Lemma forecast_needs_sales_table_witness :
  (@Forecast.main (lenient_engine 100) model_without_sales).1 = Exited 1 /\
  forecast_output_file (@Forecast.main (lenient_engine 100) model_without_sales).2
  = None.
Proof.
  exact (@forecast_needs_sales_table (lenient_engine 100) model_without_sales
           (or_introl eq_refl)).
Defined.

Lemma forecast_blocked_by_broken_metadata_witness :
  @Forecast.main (lenient_engine 100) torn_metadata_world
  = (Exited 1,
     add_log (ERROR, ForecastingFailed JSONDecodeError)
       (add_log (INFO, Banner "SALES FORECASTING") torn_metadata_world)).
Proof.
  exact (@forecast_blocked_by_broken_metadata (lenient_engine 100)
           torn_metadata_world _ eq_refl eq_refl).
Defined.

Lemma forecast_fallback_trains_witness :
  exists w',
    @Forecast.main (lenient_engine 100) (with_sales one_quarter fresh_world)
    = (Returned tt, w') /\
    length <$> forecast_output_file w' = Some 12%nat /\
    sarima_model_file w' = None.
Proof.
  destruct (@forecast_fallback_trains (lenient_engine 100)
              (with_sales one_quarter fresh_world) one_quarter
              (flat_model one_quarter 100 (Num 10) (Num 12))
              (Build_forecast_result
                 (List.map (fun i => (3 + i, Some 100%Q)) (py_range 1 13))
                 (List.map (fun i => (3 + i, Some (100 - 1)%Q, Some (100 + 1)%Q))
                    (py_range 1 13))))
    as (w' & Hmain & Hout & _ & Hmodel).
  - reflexivity.
  - intros g Hg. discriminate Hg.
  - reflexivity.
  - reflexivity.
  - reflexivity.
  - reflexivity.
  - exists w'. split; [exact Hmain|]. rewrite Hout. split; [reflexivity|exact Hmodel].
Defined.

End StoreMore.
(* ================================================================== *)
(** ** Further properties of the training script *)

Module TrainMore.
Import ModelUtils Samples Fixtures.

Ltac run :=
  unfold try_except, mbind, M_bind, mret, M_ret, raise, sys_exit, get_world,
    modify, log_section, logger_info, log_success, log_error, lift, engine;
  cbn -[Nat.ltb truthy stamp json_dumps TrainSarima.training_metadata map_to_list].

(** The metadata of the training script always has a JSON encoding. *)
Lemma json_dumps_training_metadata (t : Z) (sales : series) (results : fitted) :
  json_dumps (stamp t (TrainSarima.training_metadata sales results))
  = Some (omap json_encode (stamp t (TrainSarima.training_metadata sales results))).
Proof.
  apply StoreMore.json_dumps_encodable.
  unfold stamp, TrainSarima.training_metadata. StoreMore.encodable.
Qed.

Lemma truthy_training_metadata (sales : series) (results : fitted) :
  truthy (Some (TrainSarima.training_metadata sales results)) = true.
Proof.
  unfold truthy, TrainSarima.training_metadata.
  rewrite bool_decide_eq_false_2; [done|]. apply insert_non_empty.
Qed.

Section Training.
Context `{External}.

Lemma train_main_trained (w : world) (sales : series) (results : fitted) :
  cleaned_sales_file w = Some (Table sales) ->
  (24 <= length sales)%nat ->
  sarimax_fit sales SARIMA_ORDER SARIMA_SEASONAL_ORDER
              ENFORCE_STATIONARITY ENFORCE_INVERTIBILITY None = inr results ->
  models_dir_writable w = true ->
  TrainSarima.main w = (Returned tt, trained w sales results).
Proof.
  intros Hfile Hlong Hfit Hdir.
  assert (Hge : (length sales <? 24)%nat = false) by by apply Nat.ltb_ge.
  unfold TrainSarima.main, TrainSarima.load_monthly_sales,
    TrainSarima.load_monthly_sales_body, read_monthly_sales,
    TrainSarima.train_sarima.
  do 3 (run; rewrite ?Hfile, ?Hge). rewrite Hfit. run.
  unfold save_model, joblib_dump, json_dump. run. rewrite Hdir. run.
  rewrite truthy_training_metadata. run. rewrite Hdir. run.
  rewrite json_dumps_training_metadata. run. reflexivity.
Qed.

(** A forecast run on a world with a sound model file and sound metadata *)
Lemma forecast_main_saved (w : world) (f : file pickle_file) (model : fitted)
      (g : file json_file) (stored : gmap string pyval)
      (sales : series) (forecast : forecast_result) :
  sarima_model_file w = Some f -> content f = Pickle model ->
  model_metadata_file w = Some g -> content g = JsonDoc stored ->
  cleaned_sales_file w = Some (Table sales) ->
  get_forecast model FORECAST_HORIZON = inr forecast ->
  processed_dir_writable w = true ->
  exists w',
    Forecast.main w = (Returned tt, w') /\
    forecast_output_file w' = Some (predicted_mean forecast) /\
    same_store w w'.
Proof.
  intros Hmodel Hpickle Hmeta Hjson Hsales Hforecast Hout.
  unfold Forecast.main, get_model_info, load_model, Forecast.load_monthly_sales,
    read_monthly_sales, Forecast.forecast_next, Forecast.to_csv,
    json_load, joblib_load.
  do 4 (run; rewrite ?Hmeta, ?Hjson, ?Hmodel, ?Hpickle).
  destruct (StoreFacts.add_logs_fields (map_to_list stored)
              (add_log (INFO, MetadataHeader)
                 (add_log (INFO, ModelLoaded)
                    (add_log (INFO, FoundSavedModel)
                       (add_log (INFO, Banner "SALES FORECASTING") w)))))
    as (Hs & Hm & Hd & _ & Hmw & Hp & Hn).
  cbv zeta in Hs, Hm, Hd, Hmw, Hp, Hn.
  cbn [cleaned_sales_file sarima_model_file model_metadata_file
       models_dir_writable processed_dir_writable now add_log]
    in Hs, Hm, Hd, Hmw, Hp, Hn.
  rewrite Hs, Hsales. run. rewrite Hs, Hsales. run.
  unfold default. rewrite Hforecast. run. rewrite Hp, Hout. run.
  eexists. split; [reflexivity|].
  split; [reflexivity|].
  unfold same_store.
  cbn [cleaned_sales_file sarima_model_file model_metadata_file
       models_dir_writable processed_dir_writable now
       set_forecast_file add_log].
  by rewrite Hs, Hm, Hd, Hmw, Hp, Hn, Hsales, Hmodel, Hmeta, Hout.
Qed.

(** X9.  When the estimator raises, the training script logs the failure
    twice (in [train_sarima] and in [main]) and leaves with status 1; the
    model file and the metadata file are not touched. *)
Theorem train_fit_failure_exits (w : world) (sales : series) (code : nat)
        (Hfile : cleaned_sales_file w = Some (Table sales))
        (Hlong : (24 <= length sales)%nat)
        (Hfit : sarimax_fit sales SARIMA_ORDER SARIMA_SEASONAL_ORDER
                            ENFORCE_STATIONARITY ENFORCE_INVERTIBILITY None
                = inl code) :
  TrainSarima.main w
  = (Exited 1,
     add_log (ERROR, TrainingFailed (EngineError code))
       (add_log (ERROR, ErrorTrainingModel (EngineError code))
          (add_log (INFO, TrainingModel)
             (add_log (INFO, LoadedMonths (length sales))
                (add_log (INFO, Banner "SARIMA MODEL TRAINING") w))))).
Proof.
  assert (Hge : (length sales <? 24)%nat = false) by by apply Nat.ltb_ge.
  unfold TrainSarima.main, TrainSarima.load_monthly_sales,
    TrainSarima.load_monthly_sales_body, read_monthly_sales,
    TrainSarima.train_sarima.
  do 3 (run; rewrite ?Hfile, ?Hge). rewrite Hfit. run. reflexivity.
Qed.

(** X10.  A failed save does not fail the training run.  When the models
    directory cannot be written, [save_model] logs the error and returns
    [False]; [main] does not look at that value, reports that training
    completed and returns normally, with no model file written. *)
Theorem train_save_failure_is_silent (w : world) (sales : series)
        (results : fitted)
        (Hfile : cleaned_sales_file w = Some (Table sales))
        (Hlong : (24 <= length sales)%nat)
        (Hfit : sarimax_fit sales SARIMA_ORDER SARIMA_SEASONAL_ORDER
                            ENFORCE_STATIONARITY ENFORCE_INVERTIBILITY None
                = inr results)
        (Hdir : models_dir_writable w = false) :
  exists w',
    TrainSarima.main w = (Returned tt, w') /\
    sarima_model_file w' = sarima_model_file w /\
    model_metadata_file w' = model_metadata_file w /\
    (ERROR, FailedToSaveModel (OSError SARIMA_MODEL_FILE)) ∈ log w' /\
    last (log w') = Some (INFO, Banner "TRAINING COMPLETED SUCCESSFULLY").
Proof.
  assert (Hge : (length sales <? 24)%nat = false) by by apply Nat.ltb_ge.
  unfold TrainSarima.main, TrainSarima.load_monthly_sales,
    TrainSarima.load_monthly_sales_body, read_monthly_sales,
    TrainSarima.train_sarima.
  do 3 (run; rewrite ?Hfile, ?Hge). rewrite Hfit. run.
  unfold save_model, joblib_dump, json_dump. run. rewrite Hdir. run.
  eexists. split; [reflexivity|]. cbn.
  split; [reflexivity|]. split; [reflexivity|].
  split; [StoreMore.in_log|]. by rewrite last_snoc.
Qed.

(** X11.  What a training run records.  With 24 months or more, a fit
    that converges and a writable models directory, the model file holds
    the fitted handle and the metadata file holds a JSON document that
    describes this very fit: the number of months and the first and last
    month of the series it was fitted on, the configured orders (written
    as lists), its AIC and BIC, the time of the save and the path of the
    model file. *)
Theorem train_records_the_fit (w : world) (sales : series) (results : fitted)
        (Hfile : cleaned_sales_file w = Some (Table sales))
        (Hlong : (24 <= length sales)%nat)
        (Hfit : sarimax_fit sales SARIMA_ORDER SARIMA_SEASONAL_ORDER
                            ENFORCE_STATIONARITY ENFORCE_INVERTIBILITY None
                = inr results)
        (Hdir : models_dir_writable w = true) :
  exists w' doc,
    TrainSarima.main w = (Returned tt, w') /\
    sarima_model_file w'
    = Some (File (Pickle results) (pickle_size results) (now w)) /\
    model_metadata_file w' = Some (File (JsonDoc doc) (json_size doc) (now w)) /\
    doc !! "model_type" = Some (PStr "SARIMA") /\
    doc !! "order" = Some (PList [1; 1; 1]) /\
    doc !! "seasonal_order" = Some (PList [1; 1; 1; 12]) /\
    doc !! "n_observations" = Some (PInt (Z.of_nat (length sales))) /\
    doc !! "date_range" = Some (PDateRange (index_min sales) (index_max sales)) /\
    doc !! "aic" = Some (PFloat (aic results)) /\
    doc !! "bic" = Some (PFloat (bic results)) /\
    doc !! "saved_at" = Some (PIsoTime (now w)) /\
    doc !! "model_file" = Some (PStr SARIMA_MODEL_FILE) /\
    dom doc = list_to_set ["model_type"; "order"; "seasonal_order";
                           "n_observations"; "date_range"; "aic"; "bic";
                           "saved_at"; "model_file"] /\
    cleaned_sales_file w' = cleaned_sales_file w /\
    forecast_output_file w' = forecast_output_file w.
Proof.
  rewrite (train_main_trained w sales results Hfile Hlong Hfit Hdir).
  eexists _, _. split; [reflexivity|]. unfold trained.
  cbn [sarima_model_file model_metadata_file cleaned_sales_file
       forecast_output_file add_log set_metadata_file set_model_file].
  split; [reflexivity|]. split; [reflexivity|].
  rewrite !lookup_omap. unfold stamp, TrainSarima.training_metadata.
  repeat (split; [by repeat (rewrite lookup_insert_eq
                             || rewrite lookup_insert_ne by done)|]).
  reflexivity.
Qed.

(** X12.  A training run never lets an exception out and never touches
    the sales table or the forecast file: it returns normally or leaves
    with status 1.  A run that leaves with status 1 has written nothing
    to the model store either. *)
Theorem train_main_outcome (w : world) :
  ((TrainSarima.main w).1 = Returned tt \/ (TrainSarima.main w).1 = Exited 1) /\
  cleaned_sales_file (TrainSarima.main w).2 = cleaned_sales_file w /\
  forecast_output_file (TrainSarima.main w).2 = forecast_output_file w /\
  ((TrainSarima.main w).1 = Exited 1 ->
   sarima_model_file (TrainSarima.main w).2 = sarima_model_file w /\
   model_metadata_file (TrainSarima.main w).2 = model_metadata_file w).
Proof.
  destruct (TrainSarima.main w) as [o w'] eqn:Hmain. cbn [fst snd].
  unfold TrainSarima.main, TrainSarima.load_monthly_sales,
    TrainSarima.load_monthly_sales_body, read_monthly_sales,
    TrainSarima.train_sarima in Hmain.
  revert Hmain.
  destruct (cleaned_sales_file w) as [[sales|]|] eqn:Hfile.
  - destruct (length sales <? 24)%nat eqn:Hlt.
    + do 4 (run; rewrite ?Hfile, ?Hlt).
      intros [= <- <-]. cbn. rewrite Hfile. auto.
    + do 3 (run; rewrite ?Hfile, ?Hlt).
      destruct (sarimax_fit sales _ _ _ _ _) as [code|results]; run.
      * intros [= <- <-]. cbn. rewrite Hfile. auto.
      * unfold save_model, joblib_dump, json_dump. run.
        destruct (models_dir_writable w) eqn:Hdir; run.
        -- rewrite truthy_training_metadata. run. rewrite Hdir. run.
           rewrite json_dumps_training_metadata. run.
           intros [= <- <-]. cbn. rewrite Hfile.
           split; [by left|]. split; [done|]. split; [done|]. intros [=].
        -- intros [= <- <-]. cbn. rewrite Hfile.
           split; [by left|]. split; [done|]. split; [done|]. intros [=].
  - do 4 (run; rewrite ?Hfile).
    intros [= <- <-]. cbn. rewrite Hfile. auto.
  - do 4 (run; rewrite ?Hfile).
    intros [= <- <-]. cbn. rewrite Hfile. auto.
Qed.

(** X13.  Training and forecasting compose.  After a complete training
    run, a forecast run loads the model that was just saved, whatever was
    in the store before, forecasts the configured twelve months from it
    and writes that forecast; it leaves the store as the training run
    left it. *)
Theorem train_then_forecast (w : world) (sales : series) (results : fitted)
        (forecast : forecast_result)
        (Hfile : cleaned_sales_file w = Some (Table sales))
        (Hlong : (24 <= length sales)%nat)
        (Hfit : sarimax_fit sales SARIMA_ORDER SARIMA_SEASONAL_ORDER
                            ENFORCE_STATIONARITY ENFORCE_INVERTIBILITY None
                = inr results)
        (Hdir : models_dir_writable w = true)
        (Hforecast : get_forecast results FORECAST_HORIZON = inr forecast)
        (Hout : processed_dir_writable w = true) :
  exists w1 w2,
    TrainSarima.main w = (Returned tt, w1) /\
    Forecast.main w1 = (Returned tt, w2) /\
    forecast_output_file w2 = Some (predicted_mean forecast) /\
    same_store w1 w2.
Proof.
  rewrite (train_main_trained w sales results Hfile Hlong Hfit Hdir).
  destruct (forecast_main_saved (trained w sales results) _ results _ _
              sales forecast eq_refl eq_refl eq_refl eq_refl Hfile Hforecast Hout)
    as (w2 & Hmain & Hfc & Hsame).
  exists (trained w sales results), w2.
  split; [reflexivity|]. split; [exact Hmain|]. split; [exact Hfc|exact Hsame].
Qed.

End Training.

Lemma train_fit_failure_exits_witness :
  (@TrainSarima.main tied_engine (with_sales three_years fresh_world)).1
  = Exited 1 /\
  sarima_model_file
    (@TrainSarima.main tied_engine (with_sales three_years fresh_world)).2
  = None.
Proof.
  rewrite (@train_fit_failure_exits tied_engine
             (with_sales three_years fresh_world) three_years 7%nat).
  - split; reflexivity.
  - reflexivity.
  - vm_compute. lia.
  - reflexivity.
Defined.

Lemma train_save_failure_is_silent_witness :
  exists w',
    @TrainSarima.main (lenient_engine 100) read_only_world = (Returned tt, w') /\
    sarima_model_file w' = None.
Proof.
  destruct (@train_save_failure_is_silent (lenient_engine 100) read_only_world
              three_years (flat_model three_years 100 (Num 10) (Num 12)))
    as (w' & Hmain & Hmodel & _).
  - reflexivity.
  - vm_compute. lia.
  - reflexivity.
  - reflexivity.
  - exists w'. split; [exact Hmain|exact Hmodel].
Defined.

Lemma train_records_the_fit_witness :
  exists w' doc,
    @TrainSarima.main (lenient_engine 100) (with_sales three_years fresh_world)
    = (Returned tt, w') /\
    content <$> model_metadata_file w' = Some (JsonDoc doc) /\
    doc !! "n_observations" = Some (PInt 36) /\
    doc !! "date_range" = Some (PDateRange (Some 1) (Some 36)).
Proof.
  destruct (@train_records_the_fit (lenient_engine 100)
              (with_sales three_years fresh_world)
              three_years (flat_model three_years 100 (Num 10) (Num 12)))
    as (w' & doc & Hmain & _ & Hmeta & _ & _ & _ & Hn & Hrange & _).
  - reflexivity.
  - vm_compute. lia.
  - reflexivity.
  - reflexivity.
  - exists w', doc. split; [exact Hmain|]. rewrite Hmeta.
    split; [reflexivity|]. split; [exact Hn|exact Hrange].
Defined.

Lemma train_then_forecast_witness :
  exists w1 w2,
    @TrainSarima.main (lenient_engine 100) (with_sales three_years fresh_world)
    = (Returned tt, w1) /\
    @Forecast.main (lenient_engine 100) w1 = (Returned tt, w2) /\
    index <$> forecast_output_file w2 = Some (py_range 37 49).
Proof.
  destruct (@train_then_forecast (lenient_engine 100)
              (with_sales three_years fresh_world)
              three_years (flat_model three_years 100 (Num 10) (Num 12))
              (Build_forecast_result
                 (List.map (fun i => (36 + i, Some 100%Q)) (py_range 1 13))
                 (List.map (fun i => (36 + i, Some (100 - 1)%Q, Some (100 + 1)%Q))
                    (py_range 1 13))))
    as (w1 & w2 & Htrain & Hmain & Hout & _).
  - reflexivity.
  - vm_compute. lia.
  - reflexivity.
  - reflexivity.
  - reflexivity.
  - reflexivity.
  - exists w1, w2. split; [exact Htrain|]. split; [exact Hmain|].
    rewrite Hout. reflexivity.
Defined.

End TrainMore.
(* ================================================================== *)
(** ** Further properties of differencing *)

Module DifferencingMore.
Import Samples.

Lemma elem_of_dropna (s : series) (t : Z) (d : Q) :
  (t, Some d) ∈ dropna s <-> (t, Some d) ∈ s.
Proof.
  unfold dropna. rewrite !list_elem_of_In, filter_In. simpl. tauto.
Qed.

Lemma dropna_all_present (s : series) : Forall present (dropna s).
Proof.
  unfold dropna. apply Forall_forall. intros [t [x|]] Hin.
  - by eexists.
  - apply list_elem_of_In, filter_In in Hin as [_ Hin]. discriminate Hin.
Qed.

Lemma length_dropna (s : series) : (length (dropna s) <= length s)%nat.
Proof. unfold dropna. apply filter_length_le. Qed.

(** An entry of [diff] that holds a value comes from two consecutive
    entries that both hold a value. *)
Lemma elem_of_diff_from (prev : obs) (s : series) (t : Z) (d : Q) :
  (t, Some d) ∈ diff_from prev s <->
  (exists a b, prev = Some a /\ s !! 0%nat = Some (t, Some b) /\ d = (b - a)%Q) \/
  (exists i t0 a b, s !! i = Some (t0, Some a) /\
                    s !! S i = Some (t, Some b) /\ d = (b - a)%Q).
Proof.
  revert prev. induction s as [|[t1 v] s IH]; intros prev.
  - simpl. split.
    + intros Hin. by apply elem_of_nil in Hin.
    + intros [(a & b & _ & Hl & _)|(i & t0 & a & b & Hl & _)]; discriminate Hl.
  - simpl. rewrite elem_of_cons, IH. split.
    + intros [Heq|[(a & b & -> & Hl & ->)|(i & t0 & a & b & Hi & HSi & ->)]].
      * left. destruct v as [b|], prev as [a|]; simpl in Heq; try discriminate Heq.
        injection Heq as -> ->. by exists a, b.
      * right. by exists 0%nat, t1, a, b.
      * right. by exists (S i), t0, a, b.
    + intros [(a & b & -> & [= -> ->] & ->)|(i & t0 & a & b & Hi & HSi & ->)].
      * by left.
      * right. destruct i as [|i]; simpl in Hi, HSi.
        -- injection Hi as -> ->. left. by exists a, b.
        -- right. by exists i, t0, a, b.
Qed.

(** X14.  [difference_series] on any series, also one with missing
    observations: the result never holds a missing marker; it holds a
    value exactly for each month that has an observation and whose
    previous entry has one too, namely the difference of the two; so the
    month after a gap is dropped together with the gap, and the result is
    shorter than the series by one entry at least. *)
Theorem difference_series_with_gaps (s : series) :
  Forall present (difference_series s) /\
  (length (difference_series s) <= pred (length s))%nat /\
  forall (t : Z) (d : Q),
    (t, Some d) ∈ difference_series s <->
    exists (i : nat) (t0 : Z) (a b : Q),
      s !! i = Some (t0, Some a) /\ s !! S i = Some (t, Some b) /\
      d = (b - a)%Q.
Proof.
  split; [apply dropna_all_present|]. split.
  - unfold difference_series. destruct s as [|[t0 v] s]; [done|].
    simpl. unfold dropna. simpl.
    etransitivity; [apply filter_length_le|].
    by rewrite DifferencingFacts.length_diff_from.
  - intros t d. unfold difference_series. rewrite elem_of_dropna.
    destruct s as [|[t0 v] s].
    + simpl. split.
      * intros Hin. by apply elem_of_nil in Hin.
      * intros (i & t1 & a & b & Hl & _). discriminate Hl.
    + simpl. rewrite elem_of_cons, elem_of_diff_from. split.
      * intros [Heq|[(a & b & -> & Hl & ->)|(i & t1 & a & b & Hi & HSi & ->)]].
        -- discriminate Heq.
        -- by exists 0%nat, t0, a, b.
        -- by exists (S i), t1, a, b.
      * intros (i & t1 & a & b & Hi & HSi & ->). right.
        destruct i as [|i]; simpl in Hi, HSi.
        -- injection Hi as -> ->. left. by exists a, b.
        -- right. by exists i, t1, a, b.
Qed.

End DifferencingMore.
(* ================================================================== *)
(** ** Further properties of the parameter search *)

Module TuningMore.
Import Tuning TuningMain Samples Fixtures.

Lemma labelled_first (rows : list row) (k : nat) :
  match List.filter (fun ir => is_current ir.2) (labelled k rows) with
  | [] => Forall (fun r => is_current r = false) rows
  | (label, r) :: _ =>
      exists j, label = (k + j)%nat /\ rows !! j = Some r /\
                is_current r = true /\
                forall j' r', (j' < j)%nat -> rows !! j' = Some r' ->
                              is_current r' = false
  end.
Proof.
  revert k. induction rows as [|r rows IH]; intros k; simpl; [constructor|].
  destruct (is_current r) eqn:Hr.
  - exists 0%nat. split; [lia|]. split; [done|]. split; [done|]. lia.
  - specialize (IH (S k)).
    destruct (List.filter _ (labelled (S k) rows)) as [|[label r0] rest].
    + by constructor.
    + destruct IH as (j & -> & Hj & Hcur & Hfirst).
      exists (S j). split; [lia|]. split; [done|]. split; [done|].
      intros [|j'] r' Hlt Hl; simpl in Hl.
      * by injection Hl as <-.
      * apply (Hfirst j'); [lia|done].
Qed.

(** X17.  The rank that [main] reports for the configured model is the
    position, counted from 1, of the first row of the table with the
    configured orders, and the two AIC values it prints are the AIC of
    that row and of the first row.  Nothing is reported exactly when no
    row has the configured orders. *)
Theorem report_rank_is_first_match (results : list row) :
  match report_current results with
  | Some rep =>
      exists r best,
        (1 <= rank rep <= length results)%nat /\
        out_of rep = length results /\
        results !! (rank rep - 1)%nat = Some r /\
        is_current r = true /\
        (forall j r', (j < rank rep - 1)%nat -> results !! j = Some r' ->
                      is_current r' = false) /\
        current_AIC rep = AIC r /\
        head results = Some best /\
        best_AIC rep = AIC best
  | None => Forall (fun r => is_current r = false) results
  end.
Proof.
  unfold report_current, current_model.
  pose proof (labelled_first results 0) as Hfirst.
  destruct (List.filter _ (labelled 0 results)) as [|[label r] rest]; [done|].
  destruct Hfirst as (j & -> & Hj & Hcur & Hfirst).
  destruct results as [|best results']; [discriminate Hj|].
  exists r, best. cbn [rank out_of current_AIC best_AIC].
  replace (0 + j + 1 - 1)%nat with j by lia.
  apply lookup_lt_Some in Hj as Hlt.
  split; [lia|]. done.
Qed.

Lemma float_gtb_false_sub_self (x : float) : float_gtb (float_sub x x) 2 = false.
Proof.
  destruct x as [a| | |]; simpl; try done.
  apply negb_false_iff, Qle_bool_iff. Lqa.lra.
Qed.

Section Search.
Context `{External}.

(** X18.  The verdict on a table that the search returned.  The table is
    in ascending order of AIC, so the configured model is never better
    than the first row: when its AIC is a number, the best AIC is a
    number that is not above it (or minus infinity), and the model is
    called near-optimal exactly when the difference is at most 2.  A
    configured model in first place is always near-optimal.  A configured
    model whose AIC is NaN is called near-optimal as well, for the
    comparison [NaN > 2] is false. *)
Theorem report_on_search_result (s : series)
        (p_range d_range q_range P_range D_range Q_range : Z * Z) (m : Z)
        (rows : list row) (rep : report)
        (Hret : grid_search_sarima s p_range d_range q_range
                                   P_range D_range Q_range m = inr rows)
        (Hrep : report_current rows = Some rep) :
  (rank rep = 1%nat -> said rep = NearOptimal) /\
  (current_AIC rep = NaN -> said rep = NearOptimal) /\
  (forall c, current_AIC rep = Num c ->
     (best_AIC rep = NInf /\
      exists o so, said rep = PotentialImprovement PInf o so) \/
     (exists b, best_AIC rep = Num b /\ (b <= c)%Q /\
                (said rep = NearOptimal <-> (c - b <= 2)%Q))).
Proof.
  apply TuningFacts.grid_search_sarima_inr in Hret.
  pose proof (TuningFacts.sort_values_AIC_sorted
                (omap (try_fit s m)
                   (candidates p_range d_range q_range P_range D_range Q_range)))
    as Hsorted.
  rewrite <- Hret in Hsorted. clear Hret.
  unfold report_current, current_model in Hrep.
  pose proof (labelled_first rows 0) as Hfirst.
  destruct (List.filter _ (labelled 0 rows)) as [|[label r] rest]; [done|].
  destruct Hfirst as (j & -> & Hj & _ & _).
  destruct rows as [|best rows']; [discriminate Hj|].
  injection Hrep as <-. cbn [rank current_AIC best_AIC said].
  split; [|split].
  - intros Hrank. assert (j = 0%nat) as -> by lia.
    injection Hj as ->. by rewrite float_gtb_false_sub_self.
  - intros ->. done.
  - intros c Hc. rewrite Hc.
    assert (Hle : key_le (AIC best) (Num c) = true).
    { destruct j as [|j].
      - injection Hj as ->. rewrite Hc. unfold key_le. simpl.
        apply Qle_bool_iff. Lqa.lra.
      - rewrite <- Hc.
        apply (TuningFacts.StronglySorted_lookup _ _ Hsorted 0 (S j));
          [lia|done|done]. }
    unfold key_le in Hle. simpl in Hle.
    destruct (AIC best) as [b| | |]; simpl in Hle; try done.
    + right. exists b. split; [done|].
      apply Qle_bool_iff in Hle. split; [done|]. simpl.
      destruct (Qle_bool (c - b) 2) eqn:Hq; simpl.
      * apply Qle_bool_iff in Hq. done.
      * split; [done|]. intros Hq'. apply Qle_bool_iff in Hq'. congruence.
    + left. split; [done|]. simpl. by eexists _, _.
Qed.

(** X19.  The search never returns an empty table.  When no combination
    of the grid can be fitted, the table has no column to sort by and the
    search ends with [KeyError]; this is the only exception it ends
    with. *)
Theorem search_without_fit_raises (s : series)
        (p_range d_range q_range P_range D_range Q_range : Z * Z) (m : Z) :
  (forall rows,
      grid_search_sarima s p_range d_range q_range P_range D_range Q_range m
      = inr rows -> rows <> []) /\
  (forall e,
      grid_search_sarima s p_range d_range q_range P_range D_range Q_range m
      = inl e <->
      e = KeyError "AIC" /\
      forall p d q P D Q,
        (p, d, q, P, D, Q)
          ∈ candidates p_range d_range q_range P_range D_range Q_range ->
        exists code,
          sarimax_fit s (p, d, q) (P, D, Q, m) false false (Some 50) = inl code).
Proof.
  rewrite TuningFacts.grid_search_sarima_spec. cbv zeta.
  set (cs := candidates p_range d_range q_range P_range D_range Q_range).
  assert (Hnil : omap (try_fit s m) cs = [] <->
                 forall p d q P D Q, (p, d, q, P, D, Q) ∈ cs ->
                   exists code,
                     sarimax_fit s (p, d, q) (P, D, Q, m) false false (Some 50)
                     = inl code).
  { clear. induction cs as [|c cs IH].
    - split; [|done]. intros _ p d q P D Q Hin. by apply elem_of_nil in Hin.
    - csimpl. destruct c as [[[[[p d] q] P] D] Q]. unfold try_fit at 1.
      destruct (sarimax_fit s (p, d, q) (P, D, Q, m) false false (Some 50))
        as [code|f] eqn:Hfit.
      + rewrite IH. split.
        * intros Hall p' d' q' P' D' Q' [[= -> -> -> -> -> ->]|Hin]%elem_of_cons.
          -- by exists code.
          -- by apply Hall.
        * intros Hall p' d' q' P' D' Q' Hin. apply Hall. by right.
      + split; [done|]. intros Hall.
        destruct (Hall p d q P D Q) as [code Hcode]; [by left|]. congruence. }
  split.
  - intros rows. destruct (omap (try_fit s m) cs) as [|r fits] eqn:Hfits; [done|].
    intros [= <-] Hsorted.
    pose proof (Permutation_length (TuningFacts.sort_values_AIC_perm (r :: fits)))
      as Hlen.
    change (sort_values_AIC (r :: fits) = []) in Hsorted.
    rewrite Hsorted in Hlen. discriminate Hlen.
  - intros e. rewrite <- Hnil.
    destruct (omap (try_fit s m) cs) as [|r fits]; split.
    + by intros [= <-].
    + by intros [-> _].
    + done.
    + by intros [_ ?].
Qed.

(** X20.  [main] searches the grid 0..2 of all six orders, which holds
    the configured orders (1,1,1)x(1,1,1,12).  So when the search
    returns, the configured model is reported exactly when its own fit,
    with the settings of the search, succeeded, and the AIC reported for
    it is the AIC of that fit. *)
Theorem report_iff_current_fit (sales : series) (rows : list row)
        (rep : option report)
        (Hmain : main_body sales = inr (rows, rep)) :
  (is_Some rep <->
   exists f, sarimax_fit sales SARIMA_ORDER SARIMA_SEASONAL_ORDER
                         false false (Some 50) = inr f) /\
  (forall r f,
      rep = Some r ->
      sarimax_fit sales SARIMA_ORDER SARIMA_SEASONAL_ORDER
                  false false (Some 50) = inr f ->
      current_AIC r = aic f).
Proof.
  unfold main_body in Hmain.
  destruct (grid_search_sarima _ _ _ _ _ _ _ _) as [e|rows0] eqn:Hret;
    [discriminate Hmain|].
  injection Hmain as -> <-.
  apply TuningFacts.grid_search_sarima_inr in Hret.
  set (cs := candidates (0, 2) (0, 2) (0, 2) (0, 2) (0, 2) (0, 2)) in Hret.
  assert (Hin : (1, 1, 1, 1, 1, 1) ∈ cs).
  { apply (bool_decide_unpack _). vm_compute. exact I. }
  assert (Hperm : Permutation rows (omap (try_fit sales 12) cs)).
  { rewrite Hret. apply TuningFacts.sort_values_AIC_perm. }
  assert (Hcur : forall r, r ∈ rows -> is_current r = true ->
            exists f, sarimax_fit sales SARIMA_ORDER SARIMA_SEASONAL_ORDER
                                  false false (Some 50) = inr f /\
                      AIC r = aic f).
  { intros r Hr Hc. rewrite Hperm in Hr.
    apply list_elem_of_omap in Hr as (c & _ & Hfit).
    destruct c as [[[[[p d] q] P] D] Q]. unfold try_fit in Hfit.
    destruct (sarimax_fit sales (p, d, q) (P, D, Q, 12) false false (Some 50))
      as [code|f] eqn:Hf; [discriminate Hfit|].
    injection Hfit as <-. unfold is_current in Hc. simpl in Hc.
    repeat (apply andb_prop in Hc as [Hc ?]).
    repeat match goal with
           | E : (_ =? _) = true |- _ => apply Z.eqb_eq in E; subst
           end.
    by exists f. }
  unfold report_current, current_model.
  pose proof (labelled_first rows 0) as Hfirst.
  destruct (List.filter _ (labelled 0 rows)) as [|[label r] rest].
  - split; [|by intros r f [=]]. split; [by intros [r [=]]|].
    intros [f Hf]. exfalso.
    assert (Hrow : exists r, r ∈ rows /\ is_current r = true).
    { pose proof (list_elem_of_omap (try_fit sales 12) cs) as Homap.
      eexists. split.
      - rewrite Hperm. apply Homap. exists (1, 1, 1, 1, 1, 1).
        split; [exact Hin|]. unfold try_fit. cbv beta iota.
        unfold SARIMA_ORDER, SARIMA_SEASONAL_ORDER in Hf.
        rewrite Hf. reflexivity.
      - reflexivity. }
    destruct Hrow as (r & Hr & Hc).
    rewrite Forall_forall in Hfirst. rewrite (Hfirst r Hr) in Hc. discriminate Hc.
  - destruct Hfirst as (j & -> & Hj & Hc & _).
    destruct rows as [|best rows']; [discriminate Hj|].
    destruct (Hcur r (list_elem_of_lookup_2 _ _ _ Hj) Hc) as (f & Hf & Haic).
    split.
    + split; [intros _; by exists f|intros _; by eexists].
    + intros r0 f0 [= <-] Hf0. cbn [current_AIC].
      rewrite Hf in Hf0. by injection Hf0 as <-.
Qed.

End Search.

Lemma report_on_search_result_witness :
  exists rows rep,
    @grid_search_sarima graded_engine three_years
      (0, 2) (1, 1) (1, 1) (1, 1) (1, 1) (1, 1) 12 = inr rows /\
    report_current rows = Some rep /\
    rank rep = 2%nat /\
    (forall c, current_AIC rep = Num c ->
       (best_AIC rep = NInf /\
        exists o so, said rep = PotentialImprovement PInf o so) \/
       (exists b, best_AIC rep = Num b /\ (b <= c)%Q /\
                  (said rep = NearOptimal <-> (c - b <= 2)%Q))).
Proof.
  eexists _, _. split; [vm_compute; reflexivity|].
  split; [vm_compute; reflexivity|]. split; [reflexivity|].
  refine (proj2 (proj2 (@report_on_search_result graded_engine three_years
                          (0, 2) (1, 1) (1, 1) (1, 1) (1, 1) (1, 1) 12 _ _ _ _)));
    vm_compute; reflexivity.
Defined.

Lemma report_iff_current_fit_witness :
  exists rows rep,
    @main_body picky_engine three_years = inr (rows, Some rep) /\
    current_AIC rep = Num 10.
Proof.
  eexists _, _. split; [vm_compute; reflexivity|].
  refine (proj2 (@report_iff_current_fit picky_engine three_years _ _ _)
            _ (flat_model three_years 100 (Num 10) (Num 12)) eq_refl eq_refl).
  vm_compute. reflexivity.
Defined.

End TuningMore.
(* ================================================================== *)
(** ** Further properties of the evaluation script *)

Module EvaluationMore.
Import Evaluation Samples.
Local Open Scope Q_scope.

(** X23.  The two slices partition the series for every test size, also
    one that is zero or negative.  With a test size of 0 the slice
    [[:-0]] is empty and [[-0:]] is the whole series: everything is test
    data and nothing is left to train on.  With a negative size the
    train part is the first months instead of all but the last. *)
Theorem train_test_split_any_size (test_size : Z) (monthly_sales : series) :
  let train := (train_test_split test_size monthly_sales).1 in
  let test := (train_test_split test_size monthly_sales).2 in
  train ++ test = monthly_sales /\
  (test_size = 0%Z -> train = [] /\ test = monthly_sales) /\
  ((test_size < 0)%Z ->
   train = take (Z.to_nat (- test_size)) monthly_sales /\
   test = drop (Z.to_nat (- test_size)) monthly_sales).
Proof.
  cbv zeta. unfold train_test_split, slice_to, slice_from. cbn [fst snd].
  split; [apply take_drop|]. split.
  - intros ->. unfold slice_bound. change (- 0)%Z with 0%Z.
    change (0 <? 0)%Z with false. cbv iota. rewrite Z.min_l by lia. done.
  - intros Hneg. unfold slice_bound.
    destruct (Z.ltb_spec (- test_size) 0); [lia|].
    destruct (Z.min_spec (- test_size) (Z.of_nat (length monthly_sales)))
      as [[_ ->]|[Hle ->]]; [done|].
    rewrite Nat2Z.id.
    rewrite firstn_all, skipn_all.
    rewrite take_ge, drop_ge by lia. done.
Qed.

Section Script.
Context `{External}.


End Script.

End EvaluationMore.
(* ================================================================== *)
(** ** The metrics in binary64 *)

Module Binary64Facts.
Import SpecFloat FloatOps FloatAxioms Binary64.
Import PrimFloat.

(** *** Signs of the binary64 operations *)

Lemma signed_nn x : signed false x -> nn x.
Proof. destruct x as [s|s| |s m e]; simpl; intros E; subst; auto. Qed.

Lemma signed_notnan s x : signed s x -> notnan x.
Proof. by destruct x. Qed.

Lemma nn_notnan x : nn x -> notnan x.
Proof. by destruct x. Qed.

Lemma shr_1_nonneg mrs : 0 <= shr_m mrs -> 0 <= shr_m (shr_1 mrs).
Proof.
  destruct mrs as [m r s]. simpl.
  destruct m as [|[q|q|]|[q|q|]]; simpl; lia.
Qed.

Lemma iter_pos_shr_1_nonneg (n : positive) mrs :
  0 <= shr_m mrs -> 0 <= shr_m (iter_pos shr_1 n mrs).
Proof.
  revert mrs. induction n as [n IH|n IH|]; intros mrs Hm; simpl.
  - apply IH, IH, shr_1_nonneg, Hm.
  - apply IH, IH, Hm.
  - apply shr_1_nonneg, Hm.
Qed.

Lemma shr_m_of_loc m l : shr_m (shr_record_of_loc m l) = m.
Proof. by destruct l as [|[]]. Qed.

Lemma shr_fexp_nonneg m e l :
  0 <= m -> 0 <= shr_m (fst (shr_fexp prec emax m e l)).
Proof.
  intros Hm. unfold shr_fexp, shr.
  destruct (fexp prec emax (Zdigits2 m + e) - e) as [|n|n]; simpl;
    rewrite ?shr_m_of_loc; try done.
  apply iter_pos_shr_1_nonneg. by rewrite shr_m_of_loc.
Qed.

Lemma round_nearest_even_nonneg m l : 0 <= m -> 0 <= round_nearest_even m l.
Proof.
  intros Hm. destruct l as [|[]]; simpl; try destruct (Z.even m); lia.
Qed.

(** Rounding a magnitude gives a zero, a number or an infinity of the
    sign it was given, never NaN. *)
Lemma binary_round_aux_signed s m e l :
  0 <= m -> signed s (binary_round_aux prec emax s m e l).
Proof.
  intros Hm. unfold binary_round_aux.
  pose proof (shr_fexp_nonneg m e l Hm) as H1.
  destruct (shr_fexp prec emax m e l) as [mrs' e']. simpl in H1.
  pose proof (shr_fexp_nonneg _ e' loc_Exact
                (round_nearest_even_nonneg _ (loc_of_shr_record mrs') H1)) as H2.
  destruct (shr_fexp prec emax _ e' loc_Exact) as [mrs'' e'']. simpl in H2.
  destruct (shr_m mrs'') as [|q|q]; [done| |lia].
  by destruct (e'' <=? emax - prec).
Qed.

Lemma binary_round_signed s m e : signed s (binary_round prec emax s m e).
Proof.
  unfold binary_round. destruct (shl_align _ _ _) as [mz ez].
  by apply binary_round_aux_signed.
Qed.

Lemma binary_normalize_notnan m e s : notnan (binary_normalize prec emax m e s).
Proof.
  destruct m; simpl; [done| |]; eapply signed_notnan, binary_round_signed.
Qed.

Lemma SFabs_nn x : notnan x -> nn (SFabs x).
Proof. by destruct x. Qed.

Lemma SFadd_nn x y : nn x -> nn y -> nn (SF64add x y).
Proof.
  destruct x as [sx|[]| |[] mx ex], y as [sy|[]| |[] my ey]; simpl; try done.
  - intros _ _. by destruct sx, sy.
  - intros _ _. apply signed_nn. apply binary_round_signed.
Qed.

Lemma SFsub_notnan x y : fin x -> fin y -> notnan (SF64sub x y).
Proof.
  destruct x as [sx|sx| |sx mx ex], y as [sy|sy| |sy my ey]; simpl; try done.
  - intros _ _. by destruct sx, sy.
  - intros _ _. apply binary_normalize_notnan.
Qed.

Lemma SFmul_self_nn x : notnan x -> nn (SF64mul x x).
Proof.
  destruct x as [s|s| |s m e]; simpl; try done.
  - intros _. by destruct s.
  - intros _. apply signed_nn. replace false with (xorb s s) by by destruct s.
    by apply binary_round_aux_signed.
Qed.

Lemma SFmul_nn x y : nn x -> nn y -> notnan (SF64mul x y) -> nn (SF64mul x y).
Proof.
  destruct x as [sx|[]| |[] mx ex], y as [sy|[]| |[] my ey]; simpl; try done.
  intros _ _ _. apply signed_nn. by apply (binary_round_aux_signed false).
Qed.

Lemma SFdiv_core_nonneg mx ex my ey :
  0 <= (SFdiv_core_binary prec emax (Zpos mx) ex (Zpos my) ey).1.1.
Proof.
  unfold SFdiv_core_binary.
  set (s := _ - _ - Z.min _ _).
  set (m' := match s with Zpos _ => Z.shiftl (Zpos mx) s | Z0 => Zpos mx | Zneg _ => 0 end).
  assert (Hm' : 0 <= m').
  { unfold m'. destruct s; [lia| |lia]. apply Z.shiftl_nonneg. lia. }
  pose proof (Z_div_mod m' (Zpos my) eq_refl) as Hdiv.
  destruct (Z.div_eucl m' (Zpos my)) as [q r]. simpl. nia.
Qed.

(** Division by a positive number *)
Lemma SFdiv_nn x my ey : nn x -> nn (SF64div x (S754_finite false my ey)).
Proof.
  destruct x as [sx|[]| |[] mx ex]; simpl; try done.
  intros _. pose proof (SFdiv_core_nonneg mx ex my ey) as Hq.
  change (SF64div (S754_finite false mx ex) (S754_finite false my ey))
    with (let '(mz, ez, lz) := SFdiv_core_binary prec emax (Zpos mx) ex (Zpos my) ey in
          binary_round_aux prec emax false mz ez lz).
  destruct (SFdiv_core_binary prec emax (Zpos mx) ex (Zpos my) ey) as [[mz ez] lz].
  simpl in Hq. apply signed_nn. by apply binary_round_aux_signed.
Qed.

(** Division of a number by a number that is not zero *)
Lemma SFdiv_notnan x s my ey :
  notnan x -> notnan (SF64div x (S754_finite s my ey)).
Proof.
  destruct x as [sx|sx| |sx mx ex]; simpl; try done.
  intros _. pose proof (SFdiv_core_nonneg mx ex my ey) as Hq.
  change (SF64div (S754_finite sx mx ex) (S754_finite s my ey))
    with (let '(mz, ez, lz) := SFdiv_core_binary prec emax (Zpos mx) ex (Zpos my) ey in
          binary_round_aux prec emax (xorb sx s) mz ez lz).
  destruct (SFdiv_core_binary prec emax (Zpos mx) ex (Zpos my) ey) as [[mz ez] lz].
  simpl in Hq. eapply signed_notnan. by apply binary_round_aux_signed.
Qed.

Lemma SFsqrt_core_nonneg mx ex :
  0 <= (SFsqrt_core_binary prec emax (Zpos mx) ex).1.1.
Proof.
  unfold SFsqrt_core_binary.
  set (s := ex - 2 * Z.min _ _).
  set (m' := match s with Zpos _ => Z.shiftl (Zpos mx) s | Z0 => Zpos mx | Zneg _ => 0 end).
  assert (Hm' : 0 <= m').
  { unfold m'. destruct s; [lia| |lia]. apply Z.shiftl_nonneg. lia. }
  pose proof (Z.sqrtrem_spec m' Hm') as Hs.
  destruct (Z.sqrtrem m') as [q r]. simpl. lia.
Qed.

Lemma SFsqrt_nn x : nn x -> nn (SF64sqrt x).
Proof.
  destruct x as [sx|[]| |[] mx ex]; simpl; try done.
  intros _. pose proof (SFsqrt_core_nonneg mx ex) as Hq.
  change (SF64sqrt (S754_finite false mx ex))
    with (let '(mz, ez, lz) := SFsqrt_core_binary prec emax (Zpos mx) ex in
          binary_round_aux prec emax false mz ez lz).
  destruct (SFsqrt_core_binary prec emax (Zpos mx) ex) as [[mz ez] lz].
  simpl in Hq. apply signed_nn. by apply binary_round_aux_signed.
Qed.

Lemma digits2_pos_lower (p : positive) : 2 ^ (Zpos (digits2_pos p) - 1) <= Zpos p.
Proof.
  induction p as [p IH|p IH|]; simpl digits2_pos; [| |simpl; lia].
  - rewrite Pos2Z.inj_succ.
    replace (Z.succ (Zpos (digits2_pos p)) - 1) with (Z.succ (Zpos (digits2_pos p) - 1)) by lia.
    rewrite Z.pow_succ_r by lia. lia.
  - rewrite Pos2Z.inj_succ.
    replace (Z.succ (Zpos (digits2_pos p)) - 1) with (Z.succ (Zpos (digits2_pos p) - 1)) by lia.
    rewrite Z.pow_succ_r by lia. lia.
Qed.

Lemma digits2_pos_bound (p : positive) (k : Z) :
  0 <= k -> Zpos p < 2 ^ k -> Zpos (digits2_pos p) <= k.
Proof.
  intros Hk Hp. pose proof (digits2_pos_lower p) as Hl.
  destruct (Z_le_gt_dec (Zpos (digits2_pos p)) k) as [|Hgt]; [done|].
  assert (2 ^ k <= 2 ^ (Zpos (digits2_pos p) - 1)) by (apply Z.pow_le_mono_r; lia).
  lia.
Qed.

Lemma digits2_pos_iter_xO (p k : positive) :
  digits2_pos (Pos.iter xO p k) = (digits2_pos p + k)%positive.
Proof.
  induction k as [|k IH] using Pos.peano_ind.
  - simpl. lia.
  - rewrite Pos.iter_succ. simpl. rewrite IH. lia.
Qed.

(** An integer below 2^53 is a binary64 number. *)
Lemma binary_normalize_small (p : positive) :
  Zpos p < 2 ^ 53 ->
  exists m e, binary_normalize prec emax (Zpos p) 0 false = S754_finite false m e.
Proof.
  intros Hp. pose proof (digits2_pos_bound p 53 ltac:(lia) Hp) as Hd.
  simpl binary_normalize. unfold binary_round.
  assert (Hal : exists mz ez,
             shl_align p 0 (fexp prec emax (Zpos (digits2_pos p) + 0)) = (mz, ez) /\
             Zpos (digits2_pos mz) = 53 /\ -52 <= ez <= 0).
  { unfold shl_align, fexp, FloatOps.emin, SpecFloat.emin, prec, emax.
    rewrite Z.add_0_r, Z.sub_0_r.
    rewrite Z.max_l by lia.
    destruct (Zpos (digits2_pos p) - 53) as [|d|d] eqn:Hdd; [|lia|].
    - exists p, 0. split; [done|]. lia.
    - eexists _, _. split; [reflexivity|]. rewrite digits2_pos_iter_xO. lia. }
  destruct Hal as (mz & ez & -> & Hdz & Hez).
  unfold binary_round_aux.
  assert (Hshr : forall l, shr_fexp prec emax (Zpos mz) ez l
                           = (shr_record_of_loc (Zpos mz) l, ez)).
  { intros l. unfold shr_fexp, shr. simpl Zdigits2. rewrite Hdz.
    unfold fexp, FloatOps.emin, SpecFloat.emin, prec, emax.
    rewrite Z.max_l by lia.
    replace (53 + ez - 53 - ez) with 0 by lia. done. }
  rewrite Hshr. simpl. rewrite Hshr. simpl.
  exists mz, ez. unfold emax, prec.
  destruct (Z.leb_spec ez (1024 - 53)); [done|lia].
Qed.

Lemma shr_1_half mrs : 0 <= shr_m mrs -> shr_m (shr_1 mrs) = shr_m mrs / 2.
Proof.
  destruct mrs as [m r s]. simpl. intros Hm.
  destruct m as [|[q|q|]|q]; cbn [shr_m]; [reflexivity| | |reflexivity|lia].
  - apply (Z.div_unique _ _ _ 1); lia.
  - apply (Z.div_unique _ _ _ 0); lia.
Qed.

Lemma iter_pos_shr_1_div (n : positive) mrs :
  0 <= shr_m mrs -> shr_m (iter_pos shr_1 n mrs) = shr_m mrs / 2 ^ Zpos n.
Proof.
  revert mrs. induction n as [n IH|n IH|]; intros mrs Hm; simpl iter_pos.
  - assert (H2n : 0 < 2 ^ Zpos n) by (apply Z.pow_pos_nonneg; lia).
    rewrite IH, IH, shr_1_half by auto using iter_pos_shr_1_nonneg, shr_1_nonneg.
    rewrite !Z.div_div by lia.
    f_equal.
    assert (E : 2 ^ Zpos n~1 = 2 * (2 ^ Zpos n * 2 ^ Zpos n)).
    { rewrite <- Z.pow_add_r, <- Z.pow_succ_r by lia. f_equal. lia. }
    lia.
  - assert (H2n : 0 < 2 ^ Zpos n) by (apply Z.pow_pos_nonneg; lia).
    rewrite IH, IH by auto using iter_pos_shr_1_nonneg.
    rewrite !Z.div_div by lia.
    f_equal.
    assert (E : 2 ^ Zpos n~0 = 2 ^ Zpos n * 2 ^ Zpos n).
    { rewrite <- Z.pow_add_r by lia. f_equal. lia. }
    lia.
  - by rewrite shr_1_half.
Qed.

(** Shifting a positive number right, by the amount that leaves 53 of
    its digits when it has more, leaves a number that is not zero. *)
Lemma shr_fexp_positive (q : positive) (e : Z) (l : location) :
  0 <= e ->
  exists k, shr_m (shr_fexp prec emax (Zpos q) e l).1 = Zpos k /\
            Zpos k <= Zpos q /\
            e <= (shr_fexp prec emax (Zpos q) e l).2
              <= e + Zpos (digits2_pos q).
Proof.
  intros He. unfold shr_fexp, shr. simpl Zdigits2.
  pose proof (digits2_pos_lower q) as Hlow.
  set (d := Zpos (digits2_pos q)) in *.
  assert (Hd : 1 <= d) by (unfold d; lia).
  unfold fexp, FloatOps.emin, SpecFloat.emin, prec, emax.
  rewrite Z.max_l by lia.
  destruct (d + e - 53 - e) as [|n|n] eqn:Hn; simpl.
  - rewrite shr_m_of_loc. exists q. lia.
  - rewrite iter_pos_shr_1_div by (rewrite shr_m_of_loc; lia).
    rewrite shr_m_of_loc.
    assert (Hn' : Zpos n = d - 53) by lia.
    assert (Hpow : 2 ^ (d - 1) = 2 ^ 52 * 2 ^ Zpos n).
    { rewrite <- Z.pow_add_r by lia. f_equal. lia. }
    assert (H2n : 0 < 2 ^ Zpos n) by (apply Z.pow_pos_nonneg; lia).
    assert (Hge : 2 ^ 52 <= Zpos q / 2 ^ Zpos n).
    { apply Z.div_le_lower_bound; [done|]. lia. }
    assert (Hle : Zpos q / 2 ^ Zpos n <= Zpos q).
    { apply Z.div_le_upper_bound; [done|]. nia. }
    destruct (Zpos q / 2 ^ Zpos n) as [|k|k] eqn:Hk; [lia| |lia].
    exists k. lia.
  - rewrite shr_m_of_loc. exists q. lia.
Qed.

(** A positive integer below 2^63 is a positive binary64 number. *)
Lemma binary_normalize_uint63 (p : positive) :
  Zpos p < 2 ^ 63 ->
  exists m e, binary_normalize prec emax (Zpos p) 0 false = S754_finite false m e.
Proof.
  intros Hp.
  destruct (Z_lt_le_dec (Zpos p) (2 ^ 53)) as [Hsmall|Hbig];
    [by apply binary_normalize_small|].
  pose proof (digits2_pos_bound p 63 ltac:(lia) Hp) as Hd.
  pose proof (digits2_pos_lower p) as Hlow.
  assert (Hd53 : 53 < Zpos (digits2_pos p)).
  { destruct (Z_lt_le_dec 53 (Zpos (digits2_pos p))) as [|Hle]; [done|].
    exfalso.
    assert (Hup : forall q : positive, Zpos q < 2 ^ Zpos (digits2_pos q)).
    { clear. induction q as [q IH|q IH|]; simpl digits2_pos; [| |simpl; lia];
        rewrite Pos2Z.inj_succ, Z.pow_succ_r by lia; lia. }
    specialize (Hup p).
    assert (2 ^ Zpos (digits2_pos p) <= 2 ^ 53) by (apply Z.pow_le_mono_r; lia).
    lia. }
  simpl binary_normalize. unfold binary_round.
  assert (Hal : shl_align p 0 (fexp prec emax (Zpos (digits2_pos p) + 0)) = (p, 0)).
  { unfold shl_align, fexp, FloatOps.emin, SpecFloat.emin, prec, emax.
    rewrite Z.add_0_r, Z.sub_0_r, Z.max_l by lia.
    destruct (Zpos (digits2_pos p) - 53) eqn:E; (done || lia). }
  rewrite Hal. unfold binary_round_aux.
  destruct (shr_fexp_positive p 0 loc_Exact ltac:(lia)) as (k1 & Hk1 & Hle1 & He1).
  destruct (shr_fexp prec emax (Zpos p) 0 loc_Exact) as [mrs' e']. simpl in Hk1, He1.
  rewrite Hk1.
  assert (Hround : exists k2, round_nearest_even (Zpos k1) (loc_of_shr_record mrs')
                              = Zpos k2 /\ Zpos k2 <= Zpos k1 + 1).
  { destruct (loc_of_shr_record mrs') as [|[]]; simpl;
      try (eexists; split; [reflexivity|lia]).
    - destruct k1; simpl; eexists; (split; [reflexivity|lia]). }
  destruct Hround as (k2 & -> & Hle2).
  destruct (shr_fexp_positive k2 e' loc_Exact ltac:(lia)) as (k3 & Hk3 & Hle3 & He3).
  destruct (shr_fexp prec emax (Zpos k2) e' loc_Exact) as [mrs'' e'']. simpl in Hk3, He3.
  rewrite Hk3.
  assert (Hd2 : Zpos (digits2_pos k2) <= 64).
  { apply digits2_pos_bound; [lia|]. change (2 ^ 64) with (2 * 2 ^ 63). lia. }
  exists k3, e''. unfold emax, prec.
  destruct (Z.leb_spec e'' (1024 - 53)); [done|lia].
Qed.


(** *** The primitive operations *)

#[local] Set Warnings "-inexact-float".

Lemma nonneg_leb (x : float) : nonneg x <-> (0 <=? x)%float = true.
Proof.
  unfold nonneg. rewrite leb_spec.
  change (Prim2SF 0%float) with (S754_zero false).
  destruct (Prim2SF x) as [s|[]| |[] m e]; simpl; split; (done || tauto).
Qed.

Lemma is_nan_spec (x : float) : is_nan x = true <-> Prim2SF x = S754_nan.
Proof.
  unfold is_nan. rewrite eqb_spec.
  destruct (Prim2SF x) as [s|[]| |[] m e]; simpl; try (split; done).
  - unfold SFeqb, SFcompare. rewrite Z.compare_refl.
    assert (Pos.compare_cont Eq m m = Eq) as -> by apply Pos.compare_cont_refl.
    split; done.
  - unfold SFeqb, SFcompare. rewrite Z.compare_refl.
    assert (Pos.compare_cont Eq m m = Eq) as -> by apply Pos.compare_cont_refl.
    split; done.
Qed.

Lemma is_nan_false (x : float) : is_nan x = false <-> notnan (Prim2SF x).
Proof.
  pose proof (is_nan_spec x) as Hn.
  destruct (is_nan x); destruct (Prim2SF x); simpl; split; try done;
    intros; exfalso; (by apply Hn || by (destruct Hn as [Hn _]; discriminate Hn)
                      || by (destruct Hn as [_ Hn]; discriminate Hn)).
Qed.

Lemma is_finite_fin (x : float) : is_finite x = true -> fin (Prim2SF x).
Proof.
  unfold is_finite. intros Hf. apply negb_true_iff, orb_false_elim in Hf as [Hn Hi].
  apply is_nan_false in Hn. unfold is_infinity in Hi.
  rewrite eqb_spec, abs_spec in Hi.
  change (Prim2SF infinity) with (S754_infinity false) in Hi.
  by destruct (Prim2SF x) as [s|s| |s m e].
Qed.

Lemma is_zero_spec (x : float) :
  is_zero x = true <-> exists s, Prim2SF x = S754_zero s.
Proof.
  unfold is_zero. rewrite eqb_spec.
  change (Prim2SF zero) with (S754_zero false).
  destruct (Prim2SF x) as [s|[]| |[] m e]; simpl; split;
    try done; try (by intros [? ?]); by eexists.
Qed.

Lemma add_nonneg (x y : float) : nonneg x -> nonneg y -> nonneg (x + y).
Proof. unfold nonneg. rewrite add_spec. apply SFadd_nn. Qed.

Lemma abs_sub_nonneg (x y : float) :
  is_finite x = true -> is_finite y = true -> nonneg (abs (y - x)).
Proof.
  intros Hx Hy. unfold nonneg. rewrite abs_spec, sub_spec.
  apply SFabs_nn, SFsub_notnan; by apply is_finite_fin.
Qed.

Lemma square_sub_nonneg (x y : float) :
  is_finite x = true -> is_finite y = true -> nonneg ((x - y) * (x - y)).
Proof.
  intros Hx Hy. unfold nonneg. rewrite mul_spec, sub_spec.
  apply SFmul_self_nn, SFsub_notnan; by apply is_finite_fin.
Qed.

Lemma sqrt_nonneg (x : float) : nonneg x -> nonneg (sqrt x).
Proof. unfold nonneg. rewrite sqrt_spec. apply SFsqrt_nn. Qed.

(** The count of a non-empty array is a positive number: a count is a
    machine integer, below 2^63. *)
Lemma count_positive (n : nat) :
  (0 < n)%nat -> Z.of_nat n < 2 ^ 63 ->
  exists m e, Prim2SF (count n) = S754_finite false m e.
Proof.
  intros Hpos Hn. unfold count. rewrite of_uint63_spec, Uint63.of_Z_spec.
  rewrite Z.mod_small.
  - destruct (Z.of_nat n) as [|q|q] eqn:Hq; [lia| |lia].
    by apply binary_normalize_uint63.
  - split; [lia|]. exact Hn.
Qed.

Lemma div_count_nonneg (x : float) (n : nat) :
  (0 < n)%nat -> Z.of_nat n < 2 ^ 63 -> nonneg x -> nonneg (x / count n).
Proof.
  intros Hpos Hn Hx. unfold nonneg. rewrite div_spec.
  destruct (count_positive n Hpos Hn) as (m & e & ->). by apply SFdiv_nn.
Qed.

Lemma times_100_nonneg (x : float) : nonneg x -> nonneg (x * 100).
Proof.
  unfold nonneg. rewrite mul_spec.
  change (Prim2SF 100%float) with (S754_finite false 7036874417766400 (-46)).
  destruct (Prim2SF x) as [sx|[]| |[] mx ex]; simpl; try done.
  intros _. apply signed_nn. by apply (binary_round_aux_signed false).
Qed.

Lemma sums_nonneg (l : list float) (s : float) :
  Forall nonneg l -> sums l s -> nonneg s.
Proof.
  intros Hl Hs. induction Hs as [| |x|l1 l2 a b _ IH1 _ IH2|l l' a Hperm _ IH].
  - exact I.
  - exact I.
  - by apply Forall_inv in Hl.
  - apply Forall_app in Hl as [H1 H2]. apply add_nonneg; auto.
  - apply IH. by rewrite Hperm.
Qed.

Section Metrics.
Context (np pd : Summation).

Lemma mean_nonneg `{Summation} (l : list float) :
  l <> [] -> Z.of_nat (length l) < 2 ^ 63 -> Forall nonneg l -> nonneg (mean l).
Proof.
  intros Hne Hn Hl. unfold mean. apply div_count_nonneg.
  - destruct l; [done|simpl; lia].
  - done.
  - eapply sums_nonneg; [exact Hl|apply add_reduce_sums].
Qed.

Lemma mean_of_mean_nonneg `{Summation} (l : list float) :
  l <> [] -> Z.of_nat (length l) < 2 ^ 63 -> Forall nonneg l ->
  nonneg (mean [mean l]).
Proof.
  intros Hne Hn Hl. apply mean_nonneg; [done|simpl; lia|].
  constructor; [by apply mean_nonneg|constructor].
Qed.

Lemma forallb_Forall (l : list float) :
  forallb is_finite l = true -> Forall (fun x => is_finite x = true) l.
Proof. intros Hl. apply Forall_forall. intros x Hx. apply list_elem_of_In in Hx. by eapply forallb_forall in Hl. Qed.

Lemma check_reg_targets_finite `{Summation} (a p : list float) :
  a <> [] -> length a = length p ->
  forallb is_finite a = true -> forallb is_finite p = true ->
  check_reg_targets a p = inr (a, p).
Proof.
  intros Hne Hlen Ha Hp. unfold check_reg_targets, check_array.
  rewrite Hlen, Nat.eqb_refl. simpl.
  destruct a as [|x a]; [done|]. rewrite Ha. simpl.
  destruct p as [|y p]; [done|]. rewrite Hp. done.
Qed.

Lemma zip_with_Forall {A B C} (f : A -> B -> C) (P : A -> Prop) (Q : B -> Prop)
      (R : C -> Prop) (l : list A) (k : list B) :
  (forall x y, P x -> Q y -> R (f x y)) ->
  Forall P l -> Forall Q k -> Forall R (zip_with f l k).
Proof.
  intros Hf Hl. revert k. induction Hl as [|x l Hx Hl IH]; intros k Hk; [constructor|].
  destruct Hk as [|y k Hy Hk]; simpl; constructor; auto.
Qed.

Lemma zip_with_nonempty {A B C} (f : A -> B -> C) (l : list A) (k : list B) :
  l <> [] -> length l = length k -> zip_with f l k <> [].
Proof. destruct l, k; done. Qed.

(** C7, as the code has it.  For two sequences of finite values of the
    same, non-zero length (a length is a machine integer, below 2^63)
    the evaluator computes an MAE and an RMSE that are not negative
    (each is a zero, a positive number or, by overflow, plus infinity),
    and a MAPE that is NaN or not negative.  This holds for every order
    in which the libraries add the values up.  Nothing is said of the
    order of MAE and RMSE: both are rounded. *)
Theorem metrics_not_negative (a p : list float)
        (Hne : a <> []) (Hlen : length a = length p)
        (Hsize : Z.of_nat (length a) < 2 ^ 63)
        (Ha : forallb is_finite a = true) (Hp : forallb is_finite p = true) :
  exists m : metrics64,
    evaluation_metrics np pd a p = inr m /\
    (0 <=? mae64 m)%float = true /\
    (0 <=? rmse64 m)%float = true /\
    (is_nan (mape64 m) = true \/ (0 <=? mape64 m)%float = true).
Proof.
  unfold evaluation_metrics, mean_absolute_error, mean_squared_error.
  rewrite (check_reg_targets_finite (H:=np) a p Hne Hlen Ha Hp). simpl.
  eexists. split; [reflexivity|]. simpl.
  apply forallb_Forall in Ha, Hp.
  split; [|split].
  - apply nonneg_leb, mean_of_mean_nonneg.
    + by apply zip_with_nonempty.
    + rewrite length_zip_with. lia.
    + eapply zip_with_Forall; [|exact Ha|exact Hp].
      intros x y Hx Hy. by apply abs_sub_nonneg.
  - apply nonneg_leb, sqrt_nonneg, mean_of_mean_nonneg.
    + by apply zip_with_nonempty.
    + rewrite length_zip_with. lia.
    + eapply zip_with_Forall; [|exact Ha|exact Hp].
      intros x y Hx Hy. by apply square_sub_nonneg.
  - unfold mean_absolute_percentage, nanmean.
    set (terms := zip_with _ a p).
    assert (Hkept : Forall nonneg (List.filter (fun x => negb (is_nan x)) terms)).
    { apply Forall_forall. intros x Hx.
      apply list_elem_of_In, filter_In in Hx as [Hin Hx].
      apply negb_true_iff, is_nan_false in Hx.
      unfold terms in Hin. apply list_elem_of_In, elem_of_lookup_zip_with in Hin
        as (i & t & q & -> & _ & _).
      unfold nonneg in *. rewrite abs_spec in *.
      apply SFabs_nn. by destruct (Prim2SF ((t - q) / t)). }
    assert (Hlen' : (length (List.filter (fun x => negb (is_nan x)) terms)
                     <= length a)%nat).
    { etransitivity; [apply filter_length_le|].
      unfold terms. rewrite length_zip_with. lia. }
    destruct (List.filter _ terms) as [|x kept] eqn:Hk.
    + left. reflexivity.
    + right. apply nonneg_leb, times_100_nonneg, div_count_nonneg.
      * simpl. lia.
      * lia.
      * eapply sums_nonneg; [exact Hkept|apply add_reduce_sums].
Qed.

End Metrics.

(** *** Zero errors *)

Lemma SFsub_self_isz x : fin x -> isz (SF64sub x x).
Proof.
  destruct x as [s|s| |s m e]; simpl; try done.
  - intros _. by destruct s.
  - intros _. by rewrite Z.sub_diag.
Qed.

Lemma isz_is_zero (x : float) : isz (Prim2SF x) -> is_zero x = true.
Proof.
  intros Hz. apply is_zero_spec. destruct (Prim2SF x) as [s| | |]; try done.
  by exists s.
Qed.

Lemma SFadd_isz x y : isz x -> isz y -> isz (SF64add x y).
Proof. destruct x as [[]| | |], y as [[]| | |]; by simpl. Qed.

Lemma sums_zero_values (l : list float) (s : float) :
  Forall (fun x => isz (Prim2SF x)) l -> sums l s -> isz (Prim2SF s).
Proof.
  intros Hl Hs. induction Hs as [| |x|l1 l2 a b _ IH1 _ IH2|l l' a Hperm _ IH].
  - exact I.
  - exact I.
  - by apply Forall_inv in Hl.
  - apply Forall_app in Hl as [H1 H2]. rewrite add_spec. apply SFadd_isz; auto.
  - apply IH. by rewrite Hperm.
Qed.

Lemma mean_zero_values `{Summation} (l : list float) :
  l <> [] -> Z.of_nat (length l) < 2 ^ 63 ->
  Forall (fun x => isz (Prim2SF x)) l -> isz (Prim2SF (mean l)).
Proof.
  intros Hne Hn Hl. unfold mean. rewrite div_spec.
  destruct (count_positive (length l)) as (m & e & ->); [destruct l; [done|simpl; lia]|done|].
  pose proof (sums_zero_values l _ Hl (add_reduce_sums l)) as Hs.
  by destruct (Prim2SF (add_reduce l)).
Qed.

Lemma zip_with_self_Forall {A C} (f : A -> A -> C) (P : A -> Prop)
      (R : C -> Prop) (l : list A) :
  (forall x, P x -> R (f x x)) -> Forall P l -> Forall R (zip_with f l l).
Proof. intros Hf. induction 1; simpl; constructor; auto. Qed.

(** X21.  A perfect prediction has no error, also in binary64: when the
    predictions are the actual values themselves (finite, at least one),
    the MAE is zero and so are the mean squared error and the RMSE, for
    every order in which the values are added up.  (The converse fails:
    the square of a small error rounds to zero.) *)
Theorem errors_zero_when_perfect (np : Summation) (a : list float)
        (Hne : a <> []) (Hsize : Z.of_nat (length a) < 2 ^ 63)
        (Ha : forallb is_finite a = true) :
  exists mae mse : float,
    @mean_absolute_error np a a = inr mae /\
    @mean_squared_error np a a = inr mse /\
    is_zero mae = true /\ is_zero mse = true /\ is_zero (sqrt mse) = true.
Proof.
  unfold mean_absolute_error, mean_squared_error.
  rewrite (check_reg_targets_finite (H:=np) a a Hne eq_refl Ha Ha). simpl.
  eexists _, _. split; [reflexivity|]. split; [reflexivity|].
  apply forallb_Forall in Ha.
  assert (Hsq : isz (Prim2SF
            (mean [mean (zip_with (fun x y => (x - y) * (x - y))%float a a)]))).
  { apply mean_zero_values; [done|simpl; lia|].
    constructor; [|constructor]. apply mean_zero_values.
    - by apply zip_with_nonempty.
    - rewrite length_zip_with. lia.
    - eapply zip_with_self_Forall; [|exact Ha].
      intros x Hx. rewrite mul_spec, sub_spec.
      pose proof (SFsub_self_isz _ (is_finite_fin x Hx)) as Hz.
      by destruct (SF64sub (Prim2SF x) (Prim2SF x)) as [[]| | |]. }
  split; [|split].
  - assert (Hz : isz (Prim2SF
              (mean [mean (zip_with (fun x y => abs (y - x))%float a a)]))).
    { apply mean_zero_values; [done|simpl; lia|].
      constructor; [|constructor]. apply mean_zero_values.
      - by apply zip_with_nonempty.
      - rewrite length_zip_with. lia.
      - eapply zip_with_self_Forall; [|exact Ha].
        intros x Hx. rewrite abs_spec, sub_spec.
        pose proof (SFsub_self_isz _ (is_finite_fin x Hx)) as Hz.
        by destruct (SF64sub (Prim2SF x) (Prim2SF x)). }
    by apply isz_is_zero.
  - by apply isz_is_zero.
  - apply isz_is_zero. rewrite sqrt_spec.
    by destruct (Prim2SF (mean _)).
Qed.

Lemma filter_all {A} (f : A -> bool) (l : list A) :
  Forall (fun x => f x = true) l -> List.filter f l = l.
Proof. induction 1 as [|x l Hx _ IH]; simpl; [done|]. by rewrite Hx, IH. Qed.

(** X22.  When no actual value is zero, no term of the percentage error
    is 0/0: for finite values of the same, non-zero length the MAPE is
    then never NaN; it is zero, a positive number or, when a term or the
    sum overflows, plus infinity. *)
Theorem mape_without_zero_actual (pd : Summation) (a p : list float)
        (Hne : a <> []) (Hlen : length a = length p)
        (Hsize : Z.of_nat (length a) < 2 ^ 63)
        (Ha : forallb is_finite a = true) (Hp : forallb is_finite p = true)
        (Hnonzero : forallb (fun t => negb (is_zero t)) a = true) :
  is_nan (@mean_absolute_percentage pd a p) = false /\
  (0 <=? @mean_absolute_percentage pd a p)%float = true.
Proof.
  assert (Hnn : nonneg (@mean_absolute_percentage pd a p)).
  { unfold mean_absolute_percentage, nanmean.
    set (terms := zip_with _ a p).
    assert (Hterms : Forall nonneg terms).
    { apply forallb_Forall in Hp.
      assert (Ha' : Forall (fun t => is_finite t = true /\ is_zero t = false) a).
      { apply Forall_forall. intros t Ht. apply list_elem_of_In in Ht.
        split; [by eapply forallb_forall in Ha|].
        eapply forallb_forall in Hnonzero; [|exact Ht].
        by apply negb_true_iff in Hnonzero. }
      unfold terms. eapply zip_with_Forall; [|exact Ha'|exact Hp].
      intros t q [Ht Hz] Hq. unfold nonneg.
      rewrite abs_spec, div_spec, sub_spec.
      pose proof (SFsub_notnan _ _ (is_finite_fin t Ht) (is_finite_fin q Hq)) as Hsub.
      pose proof (is_finite_fin t Ht) as Hfin.
      destruct (Prim2SF t) as [s|s| |s m e] eqn:Et; try done.
      - exfalso. assert (is_zero t = true) by (apply is_zero_spec; by exists s).
        congruence.
      - apply SFabs_nn. by apply SFdiv_notnan. }
    assert (Hkeep : List.filter (fun x => negb (is_nan x)) terms = terms).
    { apply filter_all. eapply Forall_impl; [exact Hterms|].
      intros x Hx. apply negb_true_iff, is_nan_false. by apply nn_notnan. }
    rewrite Hkeep.
    assert (Hlt : length terms = length a).
    { unfold terms. rewrite length_zip_with. lia. }
    destruct terms as [|x terms'] eqn:Eterms.
    { destruct a; [done|discriminate Hlt]. }
    rewrite <- Eterms in *.
    apply times_100_nonneg, div_count_nonneg.
    - rewrite Hlt. destruct a; [done|simpl; lia].
    - by rewrite Hlt.
    - eapply sums_nonneg; [exact Hterms|apply add_reduce_sums]. }
  split; [|by apply nonneg_leb].
  apply is_nan_false. by apply nn_notnan.
Qed.

(** Five months of 100.03 predicted as 100: the MAE comes out above the
    RMSE.  Three months of no sale predicted as such: the MAPE is NaN. *)
Lemma rmse_below_mae :
  (exists m,
      evaluation_metrics numpy_short numpy_short five_months five_predictions
      = inr m /\
      mae64 m = 0.030000000000001137%float /\
      rmse64 m = 0.030000000000001133%float /\
      (rmse64 m <? mae64 m)%float = true /\
      (mae64 m <=? rmse64 m)%float = false) /\
  (exists m,
      evaluation_metrics numpy_short numpy_short no_sales64 no_sales64 = inr m /\
      is_nan (mape64 m) = true /\
      (0 <=? mape64 m)%float = false).
Proof.
  split; eexists; (split; [vm_compute; reflexivity|]);
    repeat split; vm_compute; reflexivity.
Qed.

Lemma metrics_not_negative_witness :
  exists m : metrics64,
    evaluation_metrics numpy_short numpy_short five_months five_predictions
    = inr m /\
    (0 <=? mae64 m)%float = true /\
    (0 <=? rmse64 m)%float = true /\
    (is_nan (mape64 m) = true \/ (0 <=? mape64 m)%float = true).
Proof.
  apply (metrics_not_negative numpy_short numpy_short five_months five_predictions).
  - discriminate.
  - reflexivity.
  - reflexivity.
  - reflexivity.
  - reflexivity.
Defined.

Lemma errors_zero_when_perfect_witness :
  exists mae mse : float,
    @mean_absolute_error numpy_short five_months five_months = inr mae /\
    @mean_squared_error numpy_short five_months five_months = inr mse /\
    is_zero mae = true /\ is_zero mse = true /\ is_zero (sqrt mse) = true.
Proof.
  apply (errors_zero_when_perfect numpy_short five_months).
  - discriminate.
  - reflexivity.
  - reflexivity.
Defined.

Lemma mape_without_zero_actual_witness :
  is_nan (@mean_absolute_percentage numpy_short five_months five_predictions)
  = false /\
  (0 <=? @mean_absolute_percentage numpy_short five_months five_predictions)%float
  = true.
Proof.
  apply (mape_without_zero_actual numpy_short five_months five_predictions).
  - discriminate.
  - reflexivity.
  - reflexivity.
  - reflexivity.
  - reflexivity.
  - reflexivity.
Defined.

End Binary64Facts.
